(** * ESG Management Platform: aggregation engine, record and report workflow

    A shallow embedding of the platform's JavaScript sources.

    - JavaScript numbers are modelled as exact rationals ([Q]); [Math.round]
      is [floor (x + 1/2)].  Computed numbers are compared with [==].
    - A field that may be missing or [undefined] is an [option].
    - Instants ([Date]) are integers (milliseconds); identifiers and enum
      values are strings, as in the Mongoose schemas.
    - Controllers are state-passing functions over the collections (users,
      ESG records, reports, audit log), written in a small exception monad
      that mirrors [async]/[try]/[catch].

    Where the sources are:
    - models/ESGRecord.js, models/AuditLog.js, models/User.js:
      src/unnamed/part_000, part_001, part_002; models/Report.js:
      src/src/models/Report.js
    - services/esgCalculationService.js, services/auditService.js:
      src/unnamed/part_003, part_004
    - routes/esgRoutes.js, routes/reportRoutes.js: src/unnamed/part_005,
      part_006
    - utils/helpers.js: the second half of
      src/src/controllers/authController.js
    - controllers and middleware: src/src/controllers, src/src/middleware

    The read-only controllers (listings, statistics) change nothing and are
    left out. *)

From Stdlib Require Import QArith Qround Qminmax ZArith.
From Stdlib Require Import List String Ascii Bool Lia Lqa.
From Stdlib Require Import Qpower.
Import ListNotations.
Open Scope string_scope.
Open Scope Q_scope.

(** ** JavaScript primitives *)

Module JS.

(** [x || 0] for a number that may be missing: [undefined] and [0] are
    falsy, every other number is kept. *)
Definition orZero (v : option Q) : Q :=
  match v with
  | Some x => if Qeq_bool x 0 then 0 else x
  | None => 0
  end.

(** [!x] for a number. *)
Definition falsyNum (x : Q) : bool := Qeq_bool x 0.

(** Truthiness of a string that may be missing: [undefined] and the empty
    string are falsy. *)
Definition truthyStr (v : option string) : bool :=
  match v with
  | Some s => negb (String.eqb s "")
  | None => false
  end.

Definition Math_round (x : Q) : Z := Qfloor (x + (1 # 2)).
Definition Math_pow (b : Q) (e : Z) : Q := Qpower b e.
Definition Math_min (a b : Q) : Q := Qmin a b.
Definition Math_max (a b : Q) : Q := Qmax a b.

End JS.

(** ** Data model (models/ESGRecord.js, models/Report.js, models/AuditLog.js) *)

Record ReportingPeriod := {
  year : Z;
  quarter : option Z;
  month : option Z
}.

Record Environmental := {
  scope1Emissions : option Q;
  scope2Emissions : option Q;
  scope3Emissions : option Q;
  totalCarbonEmissions : option Q;
  energyConsumption : option Q;
  renewableEnergyPercentage : option Q;
  waterUsage : option Q;
  wasteGenerated : option Q;
  wasteRecycled : option Q
}.

Record Social := {
  totalEmployees : option Q;
  diversityRatio : option Q;
  femaleEmployeesPercentage : option Q;
  healthAndSafetyIncidents : option Q;
  trainingHoursPerEmployee : option Q;
  employeeTurnoverRate : option Q;
  communityInvestment : option Q
}.

Record Governance := {
  boardIndependence : option Q;
  femaleDirectorsPercentage : option Q;
  complianceStatus : option string;
  ethicsPolicyConfirmed : option bool;
  whistleblowerCases : option Q;
  dataBreaches : option Q;
  auditFrequency : option string
}.

Record ESGRecord := {
  _id : string;
  organization : string;
  reportingPeriod : ReportingPeriod;
  environmental : option Environmental;
  social : option Social;
  governance : option Governance;
  status : string;
  submittedBy : string;
  reviewedBy : option string;
  reviewNotes : option string;
  submittedAt : option Z;
  approvedAt : option Z;
  createdAt : Z
}.

(** The empty object [{}] of [record.environmental || {}] and its siblings. *)
Definition emptyEnvironmental : Environmental :=
  {| scope1Emissions := None; scope2Emissions := None; scope3Emissions := None;
     totalCarbonEmissions := None; energyConsumption := None;
     renewableEnergyPercentage := None; waterUsage := None;
     wasteGenerated := None; wasteRecycled := None |}.

Definition emptySocial : Social :=
  {| totalEmployees := None; diversityRatio := None;
     femaleEmployeesPercentage := None; healthAndSafetyIncidents := None;
     trainingHoursPerEmployee := None; employeeTurnoverRate := None;
     communityInvestment := None |}.

Definition emptyGovernance : Governance :=
  {| boardIndependence := None; femaleDirectorsPercentage := None;
     complianceStatus := None; ethicsPolicyConfirmed := None;
     whistleblowerCases := None; dataBreaches := None;
     auditFrequency := None |}.

Definition orEmpty {A : Type} (empty : A) (v : option A) : A :=
  match v with Some x => x | None => empty end.

(** ** utils/helpers.js *)

Definition roundToDecimal (number : Q) (decimals : Z) : Q :=
  inject_Z (JS.Math_round (number * JS.Math_pow 10 decimals))
  / JS.Math_pow 10 decimals.

Definition calculatePercentage (part total : Q) (decimals : Z) : Q :=
  if Qeq_bool total 0 then 0
  else roundToDecimal ((part / total) * 100) decimals.

(** ** services/esgCalculationService.js *)

(** The summary sub-documents of a report, as the aggregators return them. *)
Module Summary.

Record Environmental := {
  totalScope1Emissions : Q;
  totalScope2Emissions : Q;
  totalScope3Emissions : Q;
  totalCarbonEmissions : Q;
  averageRenewableEnergyPercentage : Q;
  totalEnergyConsumption : Q;
  totalWaterUsage : Q;
  wasteRecyclingRate : Q
}.

Record Social := {
  averageDiversityRatio : Q;
  totalHealthAndSafetyIncidents : Q;
  averageTrainingHours : Q;
  averageTurnoverRate : Q;
  totalCommunityInvestment : Q;
  averageFemaleEmployeesPercentage : Q
}.

Record Governance := {
  averageBoardIndependence : Q;
  complianceRate : Q;
  totalWhistleblowerCases : Q;
  totalDataBreaches : Q;
  averageFemaleDirectorsPercentage : Q
}.

Record OverallScore := {
  environmentalScore : Q;
  socialScore : Q;
  governanceScore : Q;
  totalScore : Q
}.

End Summary.

Module ESGCalculationService.

Definition calculateTotalEmissions (scope1 scope2 scope3 : Q) : Q :=
  roundToDecimal
    (JS.orZero (Some scope1) + JS.orZero (Some scope2)
     + JS.orZero (Some scope3)) 2.

Definition calculateWasteRecyclingRate (wasteGenerated wasteRecycled : Q) : Q :=
  if JS.falsyNum wasteGenerated || Qeq_bool wasteGenerated 0 then 0
  else calculatePercentage (JS.orZero (Some wasteRecycled)) wasteGenerated 2.

(** The accumulator object of the [reduce] in
    [aggregateEnvironmentalMetrics]. *)
Record EnvTotals := {
  scope1 : Q; scope2 : Q; scope3 : Q; renewableEnergy : Q;
  energyConsumptionAcc : Q; waterUsageAcc : Q;
  wasteGeneratedAcc : Q; wasteRecycledAcc : Q
}.

Definition envStep (acc : EnvTotals) (record : ESGRecord) : EnvTotals :=
  let env := orEmpty emptyEnvironmental (environmental record) in
  {| scope1 := scope1 acc + JS.orZero (scope1Emissions env);
     scope2 := scope2 acc + JS.orZero (scope2Emissions env);
     scope3 := scope3 acc + JS.orZero (scope3Emissions env);
     renewableEnergy :=
       renewableEnergy acc + JS.orZero (renewableEnergyPercentage env);
     energyConsumptionAcc :=
       energyConsumptionAcc acc + JS.orZero (energyConsumption env);
     waterUsageAcc := waterUsageAcc acc + JS.orZero (waterUsage env);
     wasteGeneratedAcc :=
       wasteGeneratedAcc acc + JS.orZero (wasteGenerated env);
     wasteRecycledAcc :=
       wasteRecycledAcc acc + JS.orZero (wasteRecycled env) |}.

Definition envInit : EnvTotals :=
  {| scope1 := 0; scope2 := 0; scope3 := 0; renewableEnergy := 0;
     energyConsumptionAcc := 0; waterUsageAcc := 0;
     wasteGeneratedAcc := 0; wasteRecycledAcc := 0 |}.

Definition recordCount (records : list ESGRecord) : Q :=
  inject_Z (Z.of_nat (List.length records)).

Definition aggregateEnvironmentalMetrics (records : list ESGRecord)
  : Summary.Environmental :=
  if (List.length records =? 0)%nat then
    {| Summary.totalScope1Emissions := 0; Summary.totalScope2Emissions := 0;
       Summary.totalScope3Emissions := 0; Summary.totalCarbonEmissions := 0;
       Summary.averageRenewableEnergyPercentage := 0;
       Summary.totalEnergyConsumption := 0;
       Summary.totalWaterUsage := 0; Summary.wasteRecyclingRate := 0 |}
  else
    let totals := fold_left envStep records envInit in
    let totalCarbon :=
      calculateTotalEmissions (scope1 totals) (scope2 totals) (scope3 totals) in
    let avgRenewable :=
      roundToDecimal (renewableEnergy totals / recordCount records) 2 in
    let recyclingRate :=
      calculateWasteRecyclingRate
        (wasteGeneratedAcc totals) (wasteRecycledAcc totals) in
    {| Summary.totalScope1Emissions := roundToDecimal (scope1 totals) 2;
       Summary.totalScope2Emissions := roundToDecimal (scope2 totals) 2;
       Summary.totalScope3Emissions := roundToDecimal (scope3 totals) 2;
       Summary.totalCarbonEmissions := totalCarbon;
       Summary.averageRenewableEnergyPercentage := avgRenewable;
       Summary.totalEnergyConsumption :=
         roundToDecimal (energyConsumptionAcc totals) 2;
       Summary.totalWaterUsage := roundToDecimal (waterUsageAcc totals) 2;
       Summary.wasteRecyclingRate := recyclingRate |}.

Record SocialTotals := {
  diversityRatioAcc : Q; healthIncidents : Q; trainingHours : Q;
  turnoverRate : Q; communityInvestmentAcc : Q; femalePercentage : Q
}.

Definition socialStep (acc : SocialTotals) (record : ESGRecord)
  : SocialTotals :=
  let soc := orEmpty emptySocial (social record) in
  {| diversityRatioAcc :=
       diversityRatioAcc acc + JS.orZero (diversityRatio soc);
     healthIncidents :=
       healthIncidents acc + JS.orZero (healthAndSafetyIncidents soc);
     trainingHours :=
       trainingHours acc + JS.orZero (trainingHoursPerEmployee soc);
     turnoverRate := turnoverRate acc + JS.orZero (employeeTurnoverRate soc);
     communityInvestmentAcc :=
       communityInvestmentAcc acc + JS.orZero (communityInvestment soc);
     femalePercentage :=
       femalePercentage acc + JS.orZero (femaleEmployeesPercentage soc) |}.

Definition socialInit : SocialTotals :=
  {| diversityRatioAcc := 0; healthIncidents := 0; trainingHours := 0;
     turnoverRate := 0; communityInvestmentAcc := 0; femalePercentage := 0 |}.

Definition aggregateSocialMetrics (records : list ESGRecord) : Summary.Social :=
  if (List.length records =? 0)%nat then
    {| Summary.averageDiversityRatio := 0;
       Summary.totalHealthAndSafetyIncidents := 0;
       Summary.averageTrainingHours := 0; Summary.averageTurnoverRate := 0;
       Summary.totalCommunityInvestment := 0;
       Summary.averageFemaleEmployeesPercentage := 0 |}
  else
    let totals := fold_left socialStep records socialInit in
    {| Summary.averageDiversityRatio :=
         roundToDecimal (diversityRatioAcc totals / recordCount records) 2;
       Summary.totalHealthAndSafetyIncidents := healthIncidents totals;
       Summary.averageTrainingHours :=
         roundToDecimal (trainingHours totals / recordCount records) 2;
       Summary.averageTurnoverRate :=
         roundToDecimal (turnoverRate totals / recordCount records) 2;
       Summary.totalCommunityInvestment :=
         roundToDecimal (communityInvestmentAcc totals) 2;
       Summary.averageFemaleEmployeesPercentage :=
         roundToDecimal (femalePercentage totals / recordCount records) 2 |}.

Record GovTotals := {
  boardIndependenceAcc : Q; compliant : Q; whistleblower : Q;
  dataBreachesAcc : Q; femaleDirectors : Q
}.

(** [gov.complianceStatus === 'compliant'] *)
Definition isCompliant (gov : Governance) : bool :=
  match complianceStatus gov with
  | Some s => String.eqb s "compliant"
  | None => false
  end.

Definition govStep (acc : GovTotals) (record : ESGRecord) : GovTotals :=
  let gov := orEmpty emptyGovernance (governance record) in
  {| boardIndependenceAcc :=
       boardIndependenceAcc acc + JS.orZero (boardIndependence gov);
     compliant := compliant acc + (if isCompliant gov then 1 else 0);
     whistleblower := whistleblower acc + JS.orZero (whistleblowerCases gov);
     dataBreachesAcc := dataBreachesAcc acc + JS.orZero (dataBreaches gov);
     femaleDirectors :=
       femaleDirectors acc + JS.orZero (femaleDirectorsPercentage gov) |}.

Definition govInit : GovTotals :=
  {| boardIndependenceAcc := 0; compliant := 0; whistleblower := 0;
     dataBreachesAcc := 0; femaleDirectors := 0 |}.

Definition aggregateGovernanceMetrics (records : list ESGRecord)
  : Summary.Governance :=
  if (List.length records =? 0)%nat then
    {| Summary.averageBoardIndependence := 0; Summary.complianceRate := 0;
       Summary.totalWhistleblowerCases := 0; Summary.totalDataBreaches := 0;
       Summary.averageFemaleDirectorsPercentage := 0 |}
  else
    let totals := fold_left govStep records govInit in
    let complianceRate :=
      calculatePercentage (compliant totals) (recordCount records) 2 in
    {| Summary.averageBoardIndependence :=
         roundToDecimal (boardIndependenceAcc totals / recordCount records) 2;
       Summary.complianceRate := complianceRate;
       Summary.totalWhistleblowerCases := whistleblower totals;
       Summary.totalDataBreaches := dataBreachesAcc totals;
       Summary.averageFemaleDirectorsPercentage :=
         roundToDecimal (femaleDirectors totals / recordCount records) 2 |}.

Definition calculateOverallScores
    (environmentalSummary : Summary.Environmental)
    (socialSummary : Summary.Social)
    (governanceSummary : Summary.Governance) : Summary.OverallScore :=
  let environmentalScore :=
    JS.Math_min 100
      (JS.Math_max 0
         (100
          - (Summary.totalCarbonEmissions environmentalSummary / 10000) * 100))
    in
  let socialScore :=
    JS.Math_min 100
      (JS.Math_max 0
         ((Summary.averageDiversityRatio socialSummary
           + (100 - Summary.totalHealthAndSafetyIncidents socialSummary)
           + Summary.averageTrainingHours socialSummary) / 3)) in
  let governanceScore :=
    JS.Math_min 100
      (JS.Math_max 0
         ((Summary.averageBoardIndependence governanceSummary
           + Summary.complianceRate governanceSummary
           + (100 - Summary.totalDataBreaches governanceSummary * 10)) / 3)) in
  let totalScore := (environmentalScore + socialScore + governanceScore) / 3 in
  {| Summary.environmentalScore := roundToDecimal environmentalScore 2;
     Summary.socialScore := roundToDecimal socialScore 2;
     Summary.governanceScore := roundToDecimal governanceScore 2;
     Summary.totalScore := roundToDecimal totalScore 2 |}.

End ESGCalculationService.

(** ** utils/constants.js *)

Module ROLES.
Definition ADMINISTRATOR := "administrator".
Definition ESG_ANALYST := "esg_analyst".
Definition AUDITOR := "auditor".
End ROLES.

Module HTTP_STATUS.
Definition OK := 200%Z.
Definition CREATED := 201%Z.
Definition BAD_REQUEST := 400%Z.
Definition UNAUTHORIZED := 401%Z.
Definition FORBIDDEN := 403%Z.
Definition NOT_FOUND := 404%Z.
Definition INTERNAL_SERVER_ERROR := 500%Z.
End HTTP_STATUS.

Module ERROR_MESSAGES.
Definition UNAUTHORIZED := "You are not authorized to perform this action".
Definition TOKEN_INVALID := "Invalid or expired token".
Definition TOKEN_MISSING := "No authentication token provided".
Definition USER_NOT_FOUND := "User not found".
Definition RESOURCE_NOT_FOUND := "Resource not found".
Definition INTERNAL_ERROR := "An internal server error occurred".
Definition INSUFFICIENT_PERMISSIONS :=
  "You do not have permission to perform this action".
End ERROR_MESSAGES.

Module SUCCESS_MESSAGES.
Definition ESG_RECORD_CREATED := "ESG record created successfully".
Definition ESG_RECORD_UPDATED := "ESG record updated successfully".
Definition ESG_RECORD_DELETED := "ESG record deleted successfully".
Definition ESG_RECORD_SUBMITTED := "ESG record submitted successfully".
Definition ESG_RECORD_APPROVED := "ESG record approved successfully".
Definition REPORT_GENERATED := "Report generated successfully".
End SUCCESS_MESSAGES.

Module AUDIT_ACTIONS.
Definition ESG_RECORD_CREATED := "ESG_RECORD_CREATED".
Definition ESG_RECORD_UPDATED := "ESG_RECORD_UPDATED".
Definition ESG_RECORD_SUBMITTED := "ESG_RECORD_SUBMITTED".
Definition ESG_RECORD_APPROVED := "ESG_RECORD_APPROVED".
Definition REPORT_GENERATED := "REPORT_GENERATED".
Definition UNAUTHORIZED_ACCESS_ATTEMPT := "UNAUTHORIZED_ACCESS_ATTEMPT".
End AUDIT_ACTIONS.

(** ** Documents of the other collections *)

Module Report.

Record Period := {
  startDate : Z;
  endDate : Z;
  year : Z
}.

Record t := {
  _id : string;
  reportTitle : string;
  organization : string;
  reportType : string;
  reportingPeriod : Period;
  environmentalSummary : Summary.Environmental;
  socialSummary : Summary.Social;
  governanceSummary : Summary.Governance;
  overallScore : Summary.OverallScore;
  includedRecords : list string;
  generatedBy : option string;
  status : string;
  notes : option string;
  publishedAt : option Z;
  createdAt : Z
}.

(** [report.status = v], [report.publishedAt = v], [report.notes = v] *)
Definition set_status (v : string) (r : t) : t :=
  {| _id := _id r; reportTitle := reportTitle r; organization := organization r;
     reportType := reportType r; reportingPeriod := reportingPeriod r;
     environmentalSummary := environmentalSummary r;
     socialSummary := socialSummary r;
     governanceSummary := governanceSummary r; overallScore := overallScore r;
     includedRecords := includedRecords r; generatedBy := generatedBy r;
     status := v; notes := notes r; publishedAt := publishedAt r;
     createdAt := createdAt r |}.

Definition set_publishedAt (v : Z) (r : t) : t :=
  {| _id := _id r; reportTitle := reportTitle r; organization := organization r;
     reportType := reportType r; reportingPeriod := reportingPeriod r;
     environmentalSummary := environmentalSummary r;
     socialSummary := socialSummary r;
     governanceSummary := governanceSummary r; overallScore := overallScore r;
     includedRecords := includedRecords r; generatedBy := generatedBy r;
     status := status r; notes := notes r; publishedAt := Some v;
     createdAt := createdAt r |}.

Definition set_notes (v : string) (r : t) : t :=
  {| _id := _id r; reportTitle := reportTitle r; organization := organization r;
     reportType := reportType r; reportingPeriod := reportingPeriod r;
     environmentalSummary := environmentalSummary r;
     socialSummary := socialSummary r;
     governanceSummary := governanceSummary r; overallScore := overallScore r;
     includedRecords := includedRecords r; generatedBy := generatedBy r;
     status := status r; notes := Some v; publishedAt := publishedAt r;
     createdAt := createdAt r |}.

Definition statusEnum : list string :=
  ["draft"; "finalized"; "published"; "archived"].

Definition reportTypeEnum : list string :=
  ["annual"; "quarterly"; "monthly"; "custom"].

End Report.

Module User.

Record t := {
  _id : string;
  role : string;
  organization : string;
  isActive : bool
}.

Definition roleEnum : list string :=
  ["administrator"; "esg_analyst"; "auditor"].

End User.

Module AuditLog.

Inductive Detail :=
| DString (s : string)
| DNumber (n : Z).

Record t := {
  action : string;
  performedBy : option string;
  resourceType : string;
  resourceId : option string;
  details : list (string * Detail);
  success : bool;
  errorMessage : option string;
  ipAddress : option string;
  userAgent : option string;
  timestamp : Z
}.

Definition actionEnum : list string :=
  ["USER_LOGIN"; "USER_LOGOUT"; "USER_CREATED"; "USER_UPDATED"; "USER_DELETED";
   "ESG_RECORD_CREATED"; "ESG_RECORD_UPDATED"; "ESG_RECORD_DELETED";
   "ESG_RECORD_SUBMITTED"; "ESG_RECORD_APPROVED"; "ESG_RECORD_REJECTED";
   "REPORT_GENERATED"; "REPORT_PUBLISHED"; "REPORT_DELETED";
   "SETTINGS_CHANGED"; "PERMISSION_CHANGED"; "DATA_EXPORT";
   "UNAUTHORIZED_ACCESS_ATTEMPT"].

Definition resourceTypeEnum : list string :=
  ["User"; "ESGRecord"; "Report"; "System"].

End AuditLog.

(** ** The store, the runtime and the [async] monad *)

Record DB := {
  users : list User.t;
  esgRecords : list ESGRecord;
  reports : list Report.t;
  auditLogs : list AuditLog.t
}.

(** What a request handler obtains from outside the program: the clock, the
    [Date] constructor (local time), the identifier given to the next created
    document, token verification, and whether the collections answer. *)
Record Runtime := {
  now : Z;
  mkDate : Z -> Z -> Z -> Z -> Z -> Z -> Z;
  newObjectId : string;
  jwtVerify : string -> option string;
  readFails : bool;
  writeFails : bool;
  auditWriteFails : bool
}.

Inductive Completion (A : Type) :=
| Normal (value : A)
| Throw (message : string).
Arguments Normal {A} value.
Arguments Throw {A} message.

Definition Async (A : Type) : Type := DB -> Completion A * DB.

Definition ret {A} (a : A) : Async A := fun db => (Normal a, db).

Definition throw {A} (message : string) : Async A :=
  fun db => (Throw message, db).

Definition bind {A B} (c : Async A) (k : A -> Async B) : Async B :=
  fun db =>
    match c db with
    | (Normal a, db') => k a db'
    | (Throw m, db') => (Throw m, db')
    end.

Definition tryCatch {A} (body : Async A) (handler : string -> Async A)
  : Async A :=
  fun db =>
    match body db with
    | (Normal a, db') => (Normal a, db')
    | (Throw m, db') => handler m db'
    end.

Declare Scope async_scope.
Delimit Scope async_scope with async.
Notation "x <- c1 ;; c2" := (bind c1 (fun x => c2))
  (at level 61, c1 at next level, right associativity) : async_scope.
Notation "' pat <- c1 ;; c2" := (bind c1 (fun x => match x with pat => c2 end))
  (at level 61, pat pattern, c1 at next level, right associativity) : async_scope.
Notation "c1 ;;; c2" := (bind c1 (fun _ => c2))
  (at level 61, right associativity) : async_scope.
Open Scope async_scope.

(** ** Requests and responses *)

Inductive Payload :=
| NoData
| RecordData (record : ESGRecord)
| ReportData (report : Report.t).

Record ResponseBody := {
  success : bool;
  message : string;
  data : Payload
}.

(** [res.status(code).json(body)] *)
Record Response := {
  statusCode : Z;
  json : ResponseBody
}.

Record Request (Body : Type) := {
  authorization : option string;      (* req.headers.authorization *)
  params_id : string;                 (* req.params.id *)
  body : Body;                        (* req.body *)
  user : option User.t;               (* req.user, attached by authenticate *)
  path : string;
  method : string;
  clientIp : string;                  (* getClientIp(req) *)
  clientUserAgent : string            (* getUserAgent(req) *)
}.
Arguments authorization {Body} _.
Arguments params_id {Body} _.
Arguments body {Body} _.
Arguments user {Body} _.
Arguments path {Body} _.
Arguments method {Body} _.
Arguments clientIp {Body} _.
Arguments clientUserAgent {Body} _.

(** [req.userId], set together with [req.user]. *)
Definition userId {Body} (req : Request Body) : option string :=
  option_map User._id (user req).

Definition attachUser {Body} (u : User.t) (req : Request Body) : Request Body :=
  {| authorization := authorization req; params_id := params_id req;
     body := body req; user := Some u; path := path req; method := method req;
     clientIp := clientIp req; clientUserAgent := clientUserAgent req |}.

(** [req.user.role] and [req.user.organization] raise a TypeError when no
    user is attached. *)
Definition reqUser {Body} (req : Request Body) : Async User.t :=
  match user req with
  | Some u => ret u
  | None => throw "Cannot read properties of undefined"
  end.

(** ** utils/helpers.js, continued *)

Definition successResponse (data : Payload) (message : string) : ResponseBody :=
  {| success := true; message := message; data := data |}.

Definition errorResponse (message : string) : ResponseBody :=
  {| success := false; message := message; data := NoData |}.

Definition respond (code : Z) (b : ResponseBody) : Response :=
  {| statusCode := code; json := b |}.

(** [!n || n < lo || n > hi] for an optional integer. *)
Definition outOfRange (n : option Z) (lo hi : Z) : bool :=
  match n with
  | Some v => (v =? 0)%Z || (v <? lo)%Z || (v >? hi)%Z
  | None => true
  end.

Definition getDateRange (rt : Runtime) (type : string) (year : Z)
    (quarter month : option Z) : Completion (Z * Z) :=
  if String.eqb type "annual" then
    Normal (mkDate rt year 0 1 0 0 0, mkDate rt year 11 31 23 59 59)%Z
  else if String.eqb type "quarterly" then
    match quarter with
    | Some q =>
        if outOfRange quarter 1 4 then
          Throw "Valid quarter (1-4) is required for quarterly reports"
        else
          let quarterStartMonth := ((q - 1) * 3)%Z in
          Normal (mkDate rt year quarterStartMonth 1 0 0 0,
                  mkDate rt year (quarterStartMonth + 3) 0 23 59 59)%Z
    | None => Throw "Valid quarter (1-4) is required for quarterly reports"
    end
  else if String.eqb type "monthly" then
    match month with
    | Some m =>
        if outOfRange month 1 12 then
          Throw "Valid month (1-12) is required for monthly reports"
        else
          Normal (mkDate rt year (m - 1) 1 0 0 0,
                  mkDate rt year m 0 23 59 59)%Z
    | None => Throw "Valid month (1-12) is required for monthly reports"
    end
  else Throw "Invalid report type".

Definition liftCompletion {A} (c : Completion A) : Async A := fun db => (c, db).

(** ** Schema validators shared by the models *)

Definition inEnum (s : string) (enum : list string) : bool :=
  existsb (String.eqb s) enum.

Definition required {A} (v : option A) : bool :=
  match v with Some _ => true | None => false end.

Definition minOk (lo : Q) (v : option Q) : bool :=
  match v with Some x => Qle_bool lo x | None => true end.

Definition maxOk (hi : Q) (v : option Q) : bool :=
  match v with Some x => Qle_bool x hi | None => true end.

Definition enumOk (enum : list string) (v : option string) : bool :=
  match v with Some s => inEnum s enum | None => true end.

Definition maxlengthOk (n : nat) (v : option string) : bool :=
  match v with Some s => (String.length s <=? n)%nat | None => true end.

(** A schema default: applied when the field is [undefined]. *)
Definition withDefault {A} (d : A) (v : option A) : option A :=
  match v with Some x => Some x | None => Some d end.

Definition set_users (v : list User.t) (db : DB) : DB :=
  {| users := v; esgRecords := esgRecords db; reports := reports db;
     auditLogs := auditLogs db |}.

Definition set_esgRecords (v : list ESGRecord) (db : DB) : DB :=
  {| users := users db; esgRecords := v; reports := reports db;
     auditLogs := auditLogs db |}.

Definition set_reports (v : list Report.t) (db : DB) : DB :=
  {| users := users db; esgRecords := esgRecords db; reports := v;
     auditLogs := auditLogs db |}.

Definition set_auditLogs (v : list AuditLog.t) (db : DB) : DB :=
  {| users := users db; esgRecords := esgRecords db; reports := reports db;
     auditLogs := v |}.

(** ** models/ESGRecord.js: schema validation, the pre-save hook and the
       collection operations the program uses

    Mongoose's part is modelled from the schema: a save or a creation
    validates the document against the declared validators, then runs the
    pre-save hook, then writes; [updatedAt] is not kept. *)

Module ESGRecordModel.

Definition set_environmental (v : option Environmental) (r : ESGRecord) :=
  {| _id := _id r; organization := organization r;
     reportingPeriod := reportingPeriod r; environmental := v;
     social := social r; governance := governance r; status := status r;
     submittedBy := submittedBy r; reviewedBy := reviewedBy r;
     reviewNotes := reviewNotes r; submittedAt := submittedAt r;
     approvedAt := approvedAt r; createdAt := createdAt r |}.

Definition set_social (v : option Social) (r : ESGRecord) :=
  {| _id := _id r; organization := organization r;
     reportingPeriod := reportingPeriod r; environmental := environmental r;
     social := v; governance := governance r; status := status r;
     submittedBy := submittedBy r; reviewedBy := reviewedBy r;
     reviewNotes := reviewNotes r; submittedAt := submittedAt r;
     approvedAt := approvedAt r; createdAt := createdAt r |}.

Definition set_governance (v : option Governance) (r : ESGRecord) :=
  {| _id := _id r; organization := organization r;
     reportingPeriod := reportingPeriod r; environmental := environmental r;
     social := social r; governance := v; status := status r;
     submittedBy := submittedBy r; reviewedBy := reviewedBy r;
     reviewNotes := reviewNotes r; submittedAt := submittedAt r;
     approvedAt := approvedAt r; createdAt := createdAt r |}.

Definition set_status (v : string) (r : ESGRecord) :=
  {| _id := _id r; organization := organization r;
     reportingPeriod := reportingPeriod r; environmental := environmental r;
     social := social r; governance := governance r; status := v;
     submittedBy := submittedBy r; reviewedBy := reviewedBy r;
     reviewNotes := reviewNotes r; submittedAt := submittedAt r;
     approvedAt := approvedAt r; createdAt := createdAt r |}.

Definition set_reviewedBy (v : option string) (r : ESGRecord) :=
  {| _id := _id r; organization := organization r;
     reportingPeriod := reportingPeriod r; environmental := environmental r;
     social := social r; governance := governance r; status := status r;
     submittedBy := submittedBy r; reviewedBy := v;
     reviewNotes := reviewNotes r; submittedAt := submittedAt r;
     approvedAt := approvedAt r; createdAt := createdAt r |}.

Definition set_reviewNotes (v : option string) (r : ESGRecord) :=
  {| _id := _id r; organization := organization r;
     reportingPeriod := reportingPeriod r; environmental := environmental r;
     social := social r; governance := governance r; status := status r;
     submittedBy := submittedBy r; reviewedBy := reviewedBy r;
     reviewNotes := v; submittedAt := submittedAt r;
     approvedAt := approvedAt r; createdAt := createdAt r |}.

Definition set_submittedAt (v : Z) (r : ESGRecord) :=
  {| _id := _id r; organization := organization r;
     reportingPeriod := reportingPeriod r; environmental := environmental r;
     social := social r; governance := governance r; status := status r;
     submittedBy := submittedBy r; reviewedBy := reviewedBy r;
     reviewNotes := reviewNotes r; submittedAt := Some v;
     approvedAt := approvedAt r; createdAt := createdAt r |}.

Definition set_approvedAt (v : Z) (r : ESGRecord) :=
  {| _id := _id r; organization := organization r;
     reportingPeriod := reportingPeriod r; environmental := environmental r;
     social := social r; governance := governance r; status := status r;
     submittedBy := submittedBy r; reviewedBy := reviewedBy r;
     reviewNotes := reviewNotes r; submittedAt := submittedAt r;
     approvedAt := Some v; createdAt := createdAt r |}.

Definition set_totalCarbonEmissions (v : Q) (e : Environmental)
  : Environmental :=
  {| scope1Emissions := scope1Emissions e; scope2Emissions := scope2Emissions e;
     scope3Emissions := scope3Emissions e; totalCarbonEmissions := Some v;
     energyConsumption := energyConsumption e;
     renewableEnergyPercentage := renewableEnergyPercentage e;
     waterUsage := waterUsage e; wasteGenerated := wasteGenerated e;
     wasteRecycled := wasteRecycled e |}.

Definition statusEnum : list string :=
  ["draft"; "submitted"; "under_review"; "approved"; "rejected"].

Definition complianceStatusEnum : list string :=
  ["compliant"; "partially_compliant"; "non_compliant"; "under_review"].

Definition auditFrequencyEnum : list string :=
  ["monthly"; "quarterly"; "semi_annual"; "annual"].

Definition validEnvironmental (e : Environmental) : bool :=
  required (scope1Emissions e) && minOk 0 (scope1Emissions e)
  && required (scope2Emissions e) && minOk 0 (scope2Emissions e)
  && required (scope3Emissions e) && minOk 0 (scope3Emissions e)
  && minOk 0 (totalCarbonEmissions e)
  && minOk 0 (energyConsumption e)
  && minOk 0 (renewableEnergyPercentage e)
  && maxOk 100 (renewableEnergyPercentage e)
  && minOk 0 (waterUsage e)
  && minOk 0 (wasteGenerated e)
  && minOk 0 (wasteRecycled e).

Definition validSocial (s : Social) : bool :=
  required (totalEmployees s) && minOk 0 (totalEmployees s)
  && minOk 0 (diversityRatio s) && maxOk 100 (diversityRatio s)
  && minOk 0 (femaleEmployeesPercentage s)
  && maxOk 100 (femaleEmployeesPercentage s)
  && minOk 0 (healthAndSafetyIncidents s)
  && minOk 0 (trainingHoursPerEmployee s)
  && minOk 0 (employeeTurnoverRate s) && maxOk 100 (employeeTurnoverRate s)
  && minOk 0 (communityInvestment s).

Definition validGovernance (g : Governance) : bool :=
  minOk 0 (boardIndependence g) && maxOk 100 (boardIndependence g)
  && minOk 0 (femaleDirectorsPercentage g)
  && maxOk 100 (femaleDirectorsPercentage g)
  && enumOk complianceStatusEnum (complianceStatus g)
  && minOk 0 (whistleblowerCases g)
  && minOk 0 (dataBreaches g)
  && enumOk auditFrequencyEnum (auditFrequency g).

Definition validPeriod (p : ReportingPeriod) : bool :=
  (2000 <=? year p)%Z && (year p <=? 2100)%Z
  && match quarter p with
     | Some q => (1 <=? q)%Z && (q <=? 4)%Z
     | None => true
     end
  && match month p with
     | Some m => (1 <=? m)%Z && (m <=? 12)%Z
     | None => true
     end.

(** The schema's validators.  A nested path of a document is always an
    object, so a missing sub-object is validated as the empty one. *)
Definition validate (doc : ESGRecord) : bool :=
  negb (String.eqb (organization doc) "")
  && validPeriod (reportingPeriod doc)
  && validEnvironmental (orEmpty emptyEnvironmental (environmental doc))
  && validSocial (orEmpty emptySocial (social doc))
  && validGovernance (orEmpty emptyGovernance (governance doc))
  && inEnum (status doc) statusEnum
  && negb (String.eqb (submittedBy doc) "")
  && maxlengthOk 1000 (reviewNotes doc).

(** [esgRecordSchema.pre('save', ...)] *)
Definition preSave (this : ESGRecord) : ESGRecord :=
  match environmental this with
  | Some env =>
      set_environmental
        (Some (set_totalCarbonEmissions
                 (JS.orZero (scope1Emissions env)
                  + JS.orZero (scope2Emissions env)
                  + JS.orZero (scope3Emissions env)) env)) this
  | None => this
  end.

Definition hasId (id : string) (r : ESGRecord) : bool := String.eqb (_id r) id.

Definition replaceById (doc : ESGRecord) (rs : list ESGRecord)
  : list ESGRecord :=
  map (fun r => if hasId (_id doc) r then doc else r) rs.

Fixpoint removeById (id : string) (rs : list ESGRecord) : list ESGRecord :=
  match rs with
  | [] => []
  | r :: rs' => if hasId id r then rs' else r :: removeById id rs'
  end.

(** [ESGRecord.findById(id)] *)
Definition findById (rt : Runtime) (id : string) : Async (option ESGRecord) :=
  fun db =>
    if readFails rt then (Throw "ESGRecord.findById failed", db)
    else (Normal (find (hasId id) (esgRecords db)), db).

(** [record.save()] on a document loaded from the collection: validation,
    then the pre-save hook, then the write.  The document the caller holds
    is the one the hook has updated. *)
Definition save (rt : Runtime) (doc : ESGRecord) : Async ESGRecord :=
  fun db =>
    if negb (validate doc) then (Throw "ESGRecord validation failed", db)
    else
      let doc' := preSave doc in
      if writeFails rt then (Throw "ESGRecord.save failed", db)
      else (Normal doc', set_esgRecords (replaceById doc' (esgRecords db)) db).

(** The request body of [POST /api/esg] as [validate('esgRecordCreate')]
    leaves it (unknown keys are stripped), spread together with
    [submittedBy]. *)
Record RecordData := {
  data_organization : string;
  data_reportingPeriod : ReportingPeriod;
  data_environmental : option Environmental;
  data_social : option Social;
  data_governance : option Governance;
  data_submittedBy : option string
}.

Definition defaultEnvironmental (e : Environmental) : Environmental :=
  {| scope1Emissions := withDefault 0 (scope1Emissions e);
     scope2Emissions := withDefault 0 (scope2Emissions e);
     scope3Emissions := withDefault 0 (scope3Emissions e);
     totalCarbonEmissions := totalCarbonEmissions e;
     energyConsumption := withDefault 0 (energyConsumption e);
     renewableEnergyPercentage := withDefault 0 (renewableEnergyPercentage e);
     waterUsage := withDefault 0 (waterUsage e);
     wasteGenerated := withDefault 0 (wasteGenerated e);
     wasteRecycled := withDefault 0 (wasteRecycled e) |}.

Definition defaultSocial (s : Social) : Social :=
  {| totalEmployees := withDefault 0 (totalEmployees s);
     diversityRatio := withDefault 0 (diversityRatio s);
     femaleEmployeesPercentage := withDefault 0 (femaleEmployeesPercentage s);
     healthAndSafetyIncidents := withDefault 0 (healthAndSafetyIncidents s);
     trainingHoursPerEmployee := withDefault 0 (trainingHoursPerEmployee s);
     employeeTurnoverRate := withDefault 0 (employeeTurnoverRate s);
     communityInvestment := withDefault 0 (communityInvestment s) |}.

Definition defaultGovernance (g : Governance) : Governance :=
  {| boardIndependence := withDefault 0 (boardIndependence g);
     femaleDirectorsPercentage := withDefault 0 (femaleDirectorsPercentage g);
     complianceStatus := withDefault "under_review" (complianceStatus g);
     ethicsPolicyConfirmed := withDefault false (ethicsPolicyConfirmed g);
     whistleblowerCases := withDefault 0 (whistleblowerCases g);
     dataBreaches := withDefault 0 (dataBreaches g);
     auditFrequency := withDefault "annual" (auditFrequency g) |}.

(** [new ESGRecord(recordData)]: schema defaults, a new identifier and the
    creation timestamp. *)
Definition newDocument (rt : Runtime) (d : RecordData) : ESGRecord :=
  {| _id := newObjectId rt;
     organization := data_organization d;
     reportingPeriod := data_reportingPeriod d;
     environmental :=
       Some (defaultEnvironmental
               (orEmpty emptyEnvironmental (data_environmental d)));
     social := Some (defaultSocial (orEmpty emptySocial (data_social d)));
     governance :=
       Some (defaultGovernance (orEmpty emptyGovernance (data_governance d)));
     status := "draft";
     submittedBy := match data_submittedBy d with Some u => u | None => "" end;
     reviewedBy := None; reviewNotes := None;
     submittedAt := None; approvedAt := None;
     createdAt := now rt |}.

(** [ESGRecord.create(recordData)] *)
Definition create (rt : Runtime) (d : RecordData) : Async ESGRecord :=
  fun db =>
    let doc := newDocument rt d in
    if negb (validate doc) then (Throw "ESGRecord validation failed", db)
    else
      let doc' := preSave doc in
      if writeFails rt || existsb (hasId (_id doc')) (esgRecords db) then
        (Throw "ESGRecord.create failed", db)
      else (Normal doc', set_esgRecords (esgRecords db ++ [doc']) db).

(** [ESGRecord.find({organization, status: 'approved',
    createdAt: {$gte: startDate, $lte: endDate}}).lean()] *)
Definition findApproved (rt : Runtime) (org : string) (startDate endDate : Z)
  : Async (list ESGRecord) :=
  fun db =>
    if readFails rt then (Throw "ESGRecord.find failed", db)
    else
      (Normal
         (filter
            (fun r =>
               String.eqb (organization r) org
               && String.eqb (status r) "approved"
               && (startDate <=? createdAt r)%Z
               && (createdAt r <=? endDate)%Z)
            (esgRecords db)), db).

(** [ESGRecord.findByIdAndDelete(id)] *)
Definition findByIdAndDelete (rt : Runtime) (id : string)
  : Async (option ESGRecord) :=
  fun db =>
    if readFails rt || writeFails rt then
      (Throw "ESGRecord.findByIdAndDelete failed", db)
    else
      match find (hasId id) (esgRecords db) with
      | Some r =>
          (Normal (Some r), set_esgRecords (removeById id (esgRecords db)) db)
      | None => (Normal None, db)
      end.

End ESGRecordModel.

(** ** models/Report.js *)

Module ReportModel.

Definition scoreOk (x : Q) : bool := Qle_bool 0 x && Qle_bool x 100.

Definition validate (doc : Report.t) : bool :=
  negb (String.eqb (Report.reportTitle doc) "")
  && (String.length (Report.reportTitle doc) <=? 200)%nat
  && negb (String.eqb (Report.organization doc) "")
  && inEnum (Report.reportType doc) Report.reportTypeEnum
  && scoreOk (Summary.environmentalScore (Report.overallScore doc))
  && scoreOk (Summary.socialScore (Report.overallScore doc))
  && scoreOk (Summary.governanceScore (Report.overallScore doc))
  && scoreOk (Summary.totalScore (Report.overallScore doc))
  && required (Report.generatedBy doc)
  && inEnum (Report.status doc) Report.statusEnum
  && maxlengthOk 2000 (Report.notes doc).

Definition hasId (id : string) (r : Report.t) : bool :=
  String.eqb (Report._id r) id.

Definition replaceById (doc : Report.t) (rs : list Report.t) : list Report.t :=
  map (fun r => if hasId (Report._id doc) r then doc else r) rs.

Fixpoint removeById (id : string) (rs : list Report.t) : list Report.t :=
  match rs with
  | [] => []
  | r :: rs' => if hasId id r then rs' else r :: removeById id rs'
  end.

(** The object literal passed to [Report.create] by [generateReport]. *)
Record ReportData := {
  data_reportTitle : string;
  data_organization : string;
  data_reportType : string;
  data_reportingPeriod : Report.Period;
  data_environmentalSummary : Summary.Environmental;
  data_socialSummary : Summary.Social;
  data_governanceSummary : Summary.Governance;
  data_overallScore : Summary.OverallScore;
  data_includedRecords : list string;
  data_generatedBy : option string
}.

(** [new Report(data)]: the schema defaults give [status = 'draft']. *)
Definition newDocument (rt : Runtime) (d : ReportData) : Report.t :=
  {| Report._id := newObjectId rt;
     Report.reportTitle := data_reportTitle d;
     Report.organization := data_organization d;
     Report.reportType := data_reportType d;
     Report.reportingPeriod := data_reportingPeriod d;
     Report.environmentalSummary := data_environmentalSummary d;
     Report.socialSummary := data_socialSummary d;
     Report.governanceSummary := data_governanceSummary d;
     Report.overallScore := data_overallScore d;
     Report.includedRecords := data_includedRecords d;
     Report.generatedBy := data_generatedBy d;
     Report.status := "draft";
     Report.notes := None;
     Report.publishedAt := None;
     Report.createdAt := now rt |}.

(** [Report.create(data)] *)
Definition create (rt : Runtime) (d : ReportData) : Async Report.t :=
  fun db =>
    let doc := newDocument rt d in
    if negb (validate doc) then (Throw "Report validation failed", db)
    else if writeFails rt || existsb (hasId (Report._id doc)) (reports db) then
      (Throw "Report.create failed", db)
    else (Normal doc, set_reports (reports db ++ [doc]) db).

(** [Report.findById(id)] *)
Definition findById (rt : Runtime) (id : string) : Async (option Report.t) :=
  fun db =>
    if readFails rt then (Throw "Report.findById failed", db)
    else (Normal (find (hasId id) (reports db)), db).

(** [report.save()] *)
Definition save (rt : Runtime) (doc : Report.t) : Async Report.t :=
  fun db =>
    if negb (validate doc) then (Throw "Report validation failed", db)
    else if writeFails rt then (Throw "Report.save failed", db)
    else (Normal doc, set_reports (replaceById doc (reports db)) db).

(** [Report.findByIdAndDelete(id)] *)
Definition findByIdAndDelete (rt : Runtime) (id : string)
  : Async (option Report.t) :=
  fun db =>
    if readFails rt || writeFails rt then
      (Throw "Report.findByIdAndDelete failed", db)
    else
      match find (hasId id) (reports db) with
      | Some r => (Normal (Some r), set_reports (removeById id (reports db)) db)
      | None => (Normal None, db)
      end.

End ReportModel.

(** ** models/AuditLog.js and models/User.js *)

Module AuditLogModel.

Definition validate (doc : AuditLog.t) : bool :=
  inEnum (AuditLog.action doc) AuditLog.actionEnum
  && required (AuditLog.performedBy doc)
  && inEnum (AuditLog.resourceType doc) AuditLog.resourceTypeEnum.

(** [AuditLog.create(entry)] *)
Definition create (rt : Runtime) (doc : AuditLog.t) : Async AuditLog.t :=
  fun db =>
    if negb (validate doc) then (Throw "AuditLog validation failed", db)
    else if auditWriteFails rt then (Throw "AuditLog.create failed", db)
    else (Normal doc, set_auditLogs (auditLogs db ++ [doc]) db).

End AuditLogModel.

Module UserModel.

Definition hasId (id : string) (u : User.t) : bool :=
  String.eqb (User._id u) id.

(** [User.findById(id).select('-password')] *)
Definition findById (rt : Runtime) (id : string) : Async (option User.t) :=
  fun db =>
    if readFails rt then (Throw "User.findById failed", db)
    else (Normal (find (hasId id) (users db)), db).

End UserModel.

(** ** services/auditService.js *)

Module AuditService.

(** The argument object of [createLog], with its defaults
    ([resourceId = null], [details = {}], [success = true],
    [errorMessage = null]) filled in by the callers below. *)
Definition createLog (rt : Runtime) (entry : AuditLog.t)
  : Async (option AuditLog.t) :=
  tryCatch
    (auditLog <- AuditLogModel.create rt entry ;;
     ret (Some auditLog))
    (fun error =>
       (* Audit logging should never crash the app *)
       ret None).

Definition entry {Body} (rt : Runtime) (req : Request Body)
    (action : string) (performedBy : option string) (resourceType : string)
    (resourceId : option string) (details : list (string * AuditLog.Detail))
    (success : bool) : AuditLog.t :=
  {| AuditLog.action := action;
     AuditLog.performedBy := performedBy;
     AuditLog.resourceType := resourceType;
     AuditLog.resourceId := resourceId;
     AuditLog.details := details;
     AuditLog.success := success;
     AuditLog.errorMessage := None;
     AuditLog.ipAddress := Some (clientIp req);
     AuditLog.userAgent := Some (clientUserAgent req);
     AuditLog.timestamp := now rt |}.

Definition logESGRecordCreated {Body} rt (performedBy : option string)
    (recordId : string) details (req : Request Body) :=
  createLog rt
    (entry rt req AUDIT_ACTIONS.ESG_RECORD_CREATED performedBy "ESGRecord"
       (Some recordId) details true).

Definition logESGRecordUpdated {Body} rt (performedBy : option string)
    (recordId : string) details (req : Request Body) :=
  createLog rt
    (entry rt req AUDIT_ACTIONS.ESG_RECORD_UPDATED performedBy "ESGRecord"
       (Some recordId) details true).

Definition logESGRecordSubmitted {Body} rt (performedBy : option string)
    (recordId : string) (req : Request Body) :=
  createLog rt
    (entry rt req AUDIT_ACTIONS.ESG_RECORD_SUBMITTED performedBy "ESGRecord"
       (Some recordId) [] true).

Definition logESGRecordApproved {Body} rt (performedBy : option string)
    (recordId : string) (req : Request Body) :=
  createLog rt
    (entry rt req AUDIT_ACTIONS.ESG_RECORD_APPROVED performedBy "ESGRecord"
       (Some recordId) [] true).

Definition logReportGenerated {Body} rt (performedBy : option string)
    (reportId : string) details (req : Request Body) :=
  createLog rt
    (entry rt req AUDIT_ACTIONS.REPORT_GENERATED performedBy "Report"
       (Some reportId) details true).

Definition logUnauthorizedAccess {Body} rt (userId : option string)
    (path method : string) (req : Request Body) :=
  createLog rt
    (entry rt req AUDIT_ACTIONS.UNAUTHORIZED_ACCESS_ATTEMPT userId "System"
       None
       [("path", AuditLog.DString path); ("method", AuditLog.DString method)]
       false).

End AuditService.

(** ** controllers/esgController.js *)

Module EsgController.

Definition internalError : Response :=
  respond HTTP_STATUS.INTERNAL_SERVER_ERROR
    (errorResponse ERROR_MESSAGES.INTERNAL_ERROR).

(** [req.body] of [POST /api/esg] after [validate('esgRecordCreate')]. *)
Record CreateBody := {
  create_organization : string;
  create_reportingPeriod : ReportingPeriod;
  create_environmental : option Environmental;
  create_social : option Social;
  create_governance : option Governance
}.

Definition createESGRecord (rt : Runtime) (req : Request CreateBody)
  : Async Response :=
  tryCatch
    (let recordData :=
       {| ESGRecordModel.data_organization := create_organization (body req);
          ESGRecordModel.data_reportingPeriod :=
            create_reportingPeriod (body req);
          ESGRecordModel.data_environmental := create_environmental (body req);
          ESGRecordModel.data_social := create_social (body req);
          ESGRecordModel.data_governance := create_governance (body req);
          ESGRecordModel.data_submittedBy := userId req |} in
     esgRecord <- ESGRecordModel.create rt recordData ;;
     AuditService.logESGRecordCreated rt (userId req) (_id esgRecord)
       [("organization", AuditLog.DString (organization esgRecord));
        ("year", AuditLog.DNumber (year (reportingPeriod esgRecord)))] req ;;;
     ret (respond HTTP_STATUS.CREATED
            (successResponse (RecordData esgRecord)
               SUCCESS_MESSAGES.ESG_RECORD_CREATED)))
    (fun error => ret internalError).

(** [req.body] of [PUT /api/esg/:id]; the fields of [allowedUpdates]. *)
Record UpdateBody := {
  update_environmental : option Environmental;
  update_social : option Social;
  update_governance : option Governance;
  update_status : option string;
  update_reviewNotes : option string
}.

(** [allowedUpdates.forEach(field => { if (req.body[field] !== undefined)
    record[field] = req.body[field]; })] *)
Definition applyAllowedUpdates (b : UpdateBody) (record : ESGRecord)
  : ESGRecord :=
  let record :=
    match update_environmental b with
    | Some v => ESGRecordModel.set_environmental (Some v) record
    | None => record
    end in
  let record :=
    match update_social b with
    | Some v => ESGRecordModel.set_social (Some v) record
    | None => record
    end in
  let record :=
    match update_governance b with
    | Some v => ESGRecordModel.set_governance (Some v) record
    | None => record
    end in
  let record :=
    match update_status b with
    | Some v => ESGRecordModel.set_status v record
    | None => record
    end in
  match update_reviewNotes b with
  | Some v => ESGRecordModel.set_reviewNotes (Some v) record
  | None => record
  end.

Definition updateESGRecord (rt : Runtime) (req : Request UpdateBody)
  : Async Response :=
  tryCatch
    (let id := params_id req in
     found <- ESGRecordModel.findById rt id ;;
     match found with
     | None =>
         ret (respond HTTP_STATUS.NOT_FOUND
                (errorResponse ERROR_MESSAGES.RESOURCE_NOT_FOUND))
     | Some record =>
         u <- reqUser req ;;
         if String.eqb (User.role u) ROLES.AUDITOR then
           ret (respond HTTP_STATUS.FORBIDDEN
                  (errorResponse "Auditors cannot modify ESG records"))
         else if negb (String.eqb (User.role u) ROLES.ADMINISTRATOR)
                 && negb (String.eqb (organization record)
                            (User.organization u))
         then
           ret (respond HTTP_STATUS.FORBIDDEN
                  (errorResponse ERROR_MESSAGES.INSUFFICIENT_PERMISSIONS))
         else if String.eqb (status record) "approved"
                 && negb (String.eqb (User.role u) ROLES.ADMINISTRATOR)
         then
           ret (respond HTTP_STATUS.FORBIDDEN
                  (errorResponse "Cannot update approved records"))
         else
           let record := applyAllowedUpdates (body req) record in
           record <- ESGRecordModel.save rt record ;;
           AuditService.logESGRecordUpdated rt (userId req) (_id record)
             [("status", AuditLog.DString (status record))] req ;;;
           ret (respond HTTP_STATUS.OK
                  (successResponse (RecordData record)
                     SUCCESS_MESSAGES.ESG_RECORD_UPDATED))
     end)
    (fun error => ret internalError).

Definition submitESGRecord (rt : Runtime) (req : Request unit)
  : Async Response :=
  tryCatch
    (let id := params_id req in
     found <- ESGRecordModel.findById rt id ;;
     match found with
     | None =>
         ret (respond HTTP_STATUS.NOT_FOUND
                (errorResponse ERROR_MESSAGES.RESOURCE_NOT_FOUND))
     | Some record =>
         u <- reqUser req ;;
         if negb (String.eqb (User.role u) ROLES.ADMINISTRATOR)
            && negb (String.eqb (organization record) (User.organization u))
         then
           ret (respond HTTP_STATUS.FORBIDDEN
                  (errorResponse ERROR_MESSAGES.INSUFFICIENT_PERMISSIONS))
         else if negb (String.eqb (status record) "draft") then
           ret (respond HTTP_STATUS.BAD_REQUEST
                  (errorResponse "Only draft records can be submitted"))
         else
           let record := ESGRecordModel.set_status "submitted" record in
           let record := ESGRecordModel.set_submittedAt (now rt) record in
           record <- ESGRecordModel.save rt record ;;
           AuditService.logESGRecordSubmitted rt (userId req) (_id record)
             req ;;;
           ret (respond HTTP_STATUS.OK
                  (successResponse (RecordData record)
                     SUCCESS_MESSAGES.ESG_RECORD_SUBMITTED))
     end)
    (fun error => ret internalError).

(** [req.body] of [POST /api/esg/:id/approve]. *)
Record ApproveBody := {
  approve_reviewNotes : option string
}.

Definition approveESGRecord (rt : Runtime) (req : Request ApproveBody)
  : Async Response :=
  tryCatch
    (let id := params_id req in
     let reviewNotes := approve_reviewNotes (body req) in
     found <- ESGRecordModel.findById rt id ;;
     match found with
     | None =>
         ret (respond HTTP_STATUS.NOT_FOUND
                (errorResponse ERROR_MESSAGES.RESOURCE_NOT_FOUND))
     | Some record =>
         if negb (inEnum (status record) ["submitted"; "under_review"]) then
           ret (respond HTTP_STATUS.BAD_REQUEST
                  (errorResponse
                     "Only submitted or under review records can be approved"))
         else
           let record := ESGRecordModel.set_status "approved" record in
           let record := ESGRecordModel.set_reviewedBy (userId req) record in
           let record := ESGRecordModel.set_approvedAt (now rt) record in
           let record :=
             if JS.truthyStr reviewNotes
             then ESGRecordModel.set_reviewNotes reviewNotes record
             else record in
           record <- ESGRecordModel.save rt record ;;
           AuditService.logESGRecordApproved rt (userId req) (_id record)
             req ;;;
           ret (respond HTTP_STATUS.OK
                  (successResponse (RecordData record)
                     SUCCESS_MESSAGES.ESG_RECORD_APPROVED))
     end)
    (fun error => ret internalError).

Definition deleteESGRecord (rt : Runtime) (req : Request unit)
  : Async Response :=
  tryCatch
    (let id := params_id req in
     found <- ESGRecordModel.findByIdAndDelete rt id ;;
     match found with
     | None =>
         ret (respond HTTP_STATUS.NOT_FOUND
                (errorResponse ERROR_MESSAGES.RESOURCE_NOT_FOUND))
     | Some record =>
         ret (respond HTTP_STATUS.OK
                (successResponse NoData SUCCESS_MESSAGES.ESG_RECORD_DELETED))
     end)
    (fun error => ret internalError).

End EsgController.

(** ** services/esgCalculationService.js: [getRecordsForPeriod] *)

Definition getRecordsForPeriod (rt : Runtime) (org : string)
    (startDate endDate : Z) : Async (list ESGRecord) :=
  tryCatch
    (ESGRecordModel.findApproved rt org startDate endDate)
    (fun error => throw error).

(** ** controllers/reportController.js *)

Module ReportController.

(** [req.body] of [POST /api/reports/generate] after
    [validate('reportGenerate')]. *)
Record GenerateBody := {
  reportTitle : string;
  organization : string;
  reportType : string;
  year : Z;
  quarter : option Z;
  month : option Z;
  startDate : option Z;
  endDate : option Z
}.

(** The first statement of [generateReport]: the window of the report. *)
Definition reportWindow (rt : Runtime) (b : GenerateBody)
  : Completion (Z * Z) :=
  match String.eqb (reportType b) "custom", startDate b, endDate b with
  | true, Some s, Some e => Normal (s, e)
  | _, _, _ => getDateRange rt (reportType b) (year b) (quarter b) (month b)
  end.

Definition generateReport (rt : Runtime) (req : Request GenerateBody)
  : Async Response :=
  tryCatch
    (let b := body req in
     '(reportStartDate, reportEndDate) <- liftCompletion (reportWindow rt b) ;;
     records <-
       getRecordsForPeriod rt (organization b) reportStartDate reportEndDate ;;
     if (List.length records =? 0)%nat then
       ret (respond HTTP_STATUS.BAD_REQUEST
              (errorResponse "No approved ESG records found for this period"))
     else
       let environmentalSummary :=
         ESGCalculationService.aggregateEnvironmentalMetrics records in
       let socialSummary :=
         ESGCalculationService.aggregateSocialMetrics records in
       let governanceSummary :=
         ESGCalculationService.aggregateGovernanceMetrics records in
       let overallScore :=
         ESGCalculationService.calculateOverallScores
           environmentalSummary socialSummary governanceSummary in
       report <-
         ReportModel.create rt
           {| ReportModel.data_reportTitle := reportTitle b;
              ReportModel.data_organization := organization b;
              ReportModel.data_reportType := reportType b;
              ReportModel.data_reportingPeriod :=
                {| Report.startDate := reportStartDate;
                   Report.endDate := reportEndDate;
                   Report.year := year b |};
              ReportModel.data_environmentalSummary := environmentalSummary;
              ReportModel.data_socialSummary := socialSummary;
              ReportModel.data_governanceSummary := governanceSummary;
              ReportModel.data_overallScore := overallScore;
              ReportModel.data_includedRecords := map _id records;
              ReportModel.data_generatedBy := userId req |} ;;
       AuditService.logReportGenerated rt (userId req) (Report._id report)
         [("organization", AuditLog.DString (organization b));
          ("reportType", AuditLog.DString (reportType b));
          ("year", AuditLog.DNumber (year b))] req ;;;
       ret (respond HTTP_STATUS.CREATED
              (successResponse (ReportData report)
                 SUCCESS_MESSAGES.REPORT_GENERATED)))
    (fun error =>
       ret (respond HTTP_STATUS.INTERNAL_SERVER_ERROR
              (errorResponse
                 (if String.eqb error "" then ERROR_MESSAGES.INTERNAL_ERROR
                  else error)))).

(** [req.body] of [PUT /api/reports/:id/status]. *)
Record StatusBody := {
  status : option string;
  notes : option string
}.

Definition updateReportStatus (rt : Runtime) (req : Request StatusBody)
  : Async Response :=
  tryCatch
    (let id := params_id req in
     found <- ReportModel.findById rt id ;;
     match found with
     | None =>
         ret (respond HTTP_STATUS.NOT_FOUND
                (errorResponse ERROR_MESSAGES.RESOURCE_NOT_FOUND))
     | Some report =>
         u <- reqUser req ;;
         if negb (String.eqb (User.role u) ROLES.ADMINISTRATOR)
            && negb (String.eqb (Report.organization report)
                       (User.organization u))
         then
           ret (respond HTTP_STATUS.FORBIDDEN
                  (errorResponse ERROR_MESSAGES.INSUFFICIENT_PERMISSIONS))
         else
           let report :=
             match status (body req) with
             | Some s =>
                 if JS.truthyStr (Some s) then
                   let report := Report.set_status s report in
                   if String.eqb s "published"
                   then Report.set_publishedAt (now rt) report
                   else report
                 else report
             | None => report
             end in
           let report :=
             match notes (body req) with
             | Some n =>
                 if JS.truthyStr (Some n) then Report.set_notes n report
                 else report
             | None => report
             end in
           report <- ReportModel.save rt report ;;
           ret (respond HTTP_STATUS.OK
                  (successResponse (ReportData report)
                     "Report updated successfully"))
     end)
    (fun error =>
       ret (respond HTTP_STATUS.INTERNAL_SERVER_ERROR
              (errorResponse ERROR_MESSAGES.INTERNAL_ERROR))).

Definition deleteReport (rt : Runtime) (req : Request unit) : Async Response :=
  tryCatch
    (let id := params_id req in
     found <- ReportModel.findByIdAndDelete rt id ;;
     match found with
     | None =>
         ret (respond HTTP_STATUS.NOT_FOUND
                (errorResponse ERROR_MESSAGES.RESOURCE_NOT_FOUND))
     | Some report =>
         ret (respond HTTP_STATUS.OK
                (successResponse NoData "Report deleted successfully"))
     end)
    (fun error =>
       ret (respond HTTP_STATUS.INTERNAL_SERVER_ERROR
              (errorResponse ERROR_MESSAGES.INTERNAL_ERROR))).

End ReportController.

(** ** middleware/auth.js, middleware/roleCheck.js, middleware/validator.js *)

(** A middleware either calls [next()] (with the request it may have
    extended) or sends a response. *)
Definition Middleware (Body : Type) : Type :=
  Runtime -> Request Body -> Async (Request Body + Response).

Definition next {Body} (req : Request Body) : Async (Request Body + Response) :=
  ret (inl req).

Definition send {Body} (code : Z) (b : ResponseBody)
  : Async (Request Body + Response) :=
  ret (inr (respond code b)).

Definition authenticate {Body} : Middleware Body := fun rt req =>
  tryCatch
    (match authorization req with
     | None => send HTTP_STATUS.UNAUTHORIZED
                 (errorResponse ERROR_MESSAGES.TOKEN_MISSING)
     | Some authHeader =>
         if String.eqb authHeader ""
            || negb (String.prefix "Bearer " authHeader)
         then send HTTP_STATUS.UNAUTHORIZED
                (errorResponse ERROR_MESSAGES.TOKEN_MISSING)
         else
           let token :=
             String.substring 7 (String.length authHeader - 7) authHeader in
           if String.eqb token "" then
             send HTTP_STATUS.UNAUTHORIZED
               (errorResponse ERROR_MESSAGES.TOKEN_MISSING)
           else
             match jwtVerify rt token with
             | None => send HTTP_STATUS.UNAUTHORIZED
                         (errorResponse ERROR_MESSAGES.TOKEN_INVALID)
             | Some decodedUserId =>
                 found <- UserModel.findById rt decodedUserId ;;
                 match found with
                 | None => send HTTP_STATUS.UNAUTHORIZED
                             (errorResponse ERROR_MESSAGES.USER_NOT_FOUND)
                 | Some u =>
                     if negb (User.isActive u) then
                       send HTTP_STATUS.FORBIDDEN
                         (errorResponse "Your account has been deactivated")
                     else next (attachUser u req)
                 end
             end
     end)
    (fun error =>
       send HTTP_STATUS.INTERNAL_SERVER_ERROR
         (errorResponse ERROR_MESSAGES.INTERNAL_ERROR)).

Definition checkRole {Body} (allowedRoles : list string) : Middleware Body :=
  fun rt req =>
    tryCatch
      (match user req with
       | None => send HTTP_STATUS.UNAUTHORIZED
                   (errorResponse ERROR_MESSAGES.UNAUTHORIZED)
       | Some u =>
           let hasPermission := inEnum (User.role u) allowedRoles in
           if negb hasPermission then
             AuditService.logUnauthorizedAccess rt (Some (User._id u))
               (path req) (method req) req ;;;
             send HTTP_STATUS.FORBIDDEN
               (errorResponse ERROR_MESSAGES.INSUFFICIENT_PERMISSIONS)
           else next req
       end)
      (fun error =>
         send HTTP_STATUS.INTERNAL_SERVER_ERROR
           (errorResponse ERROR_MESSAGES.INTERNAL_ERROR)).



Definition anyRole {Body} : Middleware Body :=
  checkRole [ROLES.ADMINISTRATOR; ROLES.ESG_ANALYST; ROLES.AUDITOR].

Definition isHexDigit (c : ascii) : bool :=
  let n := N_of_ascii c in
  ((48 <=? n) && (n <=? 57) || (65 <=? n) && (n <=? 70)
   || (97 <=? n) && (n <=? 102))%N.

(** [/^[0-9a-fA-F]{24}$/.test(id)] *)
Definition isObjectId (id : string) : bool :=
  (String.length id =? 24)%nat && forallb isHexDigit (list_ascii_of_string id).

Definition validateObjectId {Body} : Middleware Body := fun rt req =>
  if negb (isObjectId (params_id req)) then
    send HTTP_STATUS.BAD_REQUEST (errorResponse "Invalid id format")
  else next req.

(** ** routes/esgRoutes.js, routes/reportRoutes.js *)

(** [router.METHOD(path, m1, ..., mn, asyncHandler(controller))]: the
    middlewares run in order and the controller runs when each of them has
    called [next()]. *)
Fixpoint route {Body} (middlewares : list (Middleware Body))
    (controller : Runtime -> Request Body -> Async Response)
    (rt : Runtime) (req : Request Body) : Async Response :=
  match middlewares with
  | [] => controller rt req
  | m :: rest =>
      r <- m rt req ;;
      match r with
      | inl req' => route rest controller rt req'
      | inr response => ret response
      end
  end.

Module EsgRoutes.


Definition post_approve :=
  route [authenticate; anyRole; validateObjectId]
    EsgController.approveESGRecord.



End EsgRoutes.

Module ReportRoutes.



End ReportRoutes.

(** ** The program as a transition system over the store

    One operation is one request reaching a controller; every request is
    served at its own runtime (clock, identifier, availability of the
    collections). *)

Inductive Operation :=
| CreateESGRecord (req : Request EsgController.CreateBody)
| UpdateESGRecord (req : Request EsgController.UpdateBody)
| SubmitESGRecord (req : Request unit)
| ApproveESGRecord (req : Request EsgController.ApproveBody)
| DeleteESGRecord (req : Request unit)
| GenerateReport (req : Request ReportController.GenerateBody)
| UpdateReportStatus (req : Request ReportController.StatusBody)
| DeleteReport (req : Request unit).

Definition handle (rt : Runtime) (op : Operation) : Async Response :=
  match op with
  | CreateESGRecord req => EsgController.createESGRecord rt req
  | UpdateESGRecord req => EsgController.updateESGRecord rt req
  | SubmitESGRecord req => EsgController.submitESGRecord rt req
  | ApproveESGRecord req => EsgController.approveESGRecord rt req
  | DeleteESGRecord req => EsgController.deleteESGRecord rt req
  | GenerateReport req => ReportController.generateReport rt req
  | UpdateReportStatus req => ReportController.updateReportStatus rt req
  | DeleteReport req => ReportController.deleteReport rt req
  end.

Definition step (rt : Runtime) (op : Operation) (db : DB) : DB :=
  snd (handle rt op db).

Fixpoint run (trace : list (Runtime * Operation)) (db : DB) : DB :=
  match trace with
  | [] => db
  | (rt, op) :: rest => run rest (step rt op db)
  end.

Definition emptyDB : DB :=
  {| users := []; esgRecords := []; reports := []; auditLogs := [] |}.

(** The runtime [rt] with the audit collection failing ([true]) or
    accepting ([false]) its writes. *)
Definition withAuditWriteFails (b : bool) (rt : Runtime) : Runtime :=
  {| now := now rt; mkDate := mkDate rt; newObjectId := newObjectId rt;
     jwtVerify := jwtVerify rt; readFails := readFails rt;
     writeFails := writeFails rt; auditWriteFails := b |}.

(** * Specification vocabulary *)

Module Spec.

(** A missing field counts as [0]. *)
Definition valueOr0 (v : option Q) : Q :=
  match v with Some x => x | None => 0 end.

Definition envField (get : Environmental -> option Q) (r : ESGRecord) : Q :=
  match environmental r with
  | Some e => valueOr0 (get e)
  | None => 0
  end.

Definition govField (get : Governance -> option Q) (r : ESGRecord) : Q :=
  match governance r with
  | Some g => valueOr0 (get g)
  | None => 0
  end.

Fixpoint sumOver (f : ESGRecord -> Q) (rs : list ESGRecord) : Q :=
  match rs with
  | [] => 0
  | r :: rs' => f r + sumOver f rs'
  end.

Definition count (rs : list ESGRecord) : Q :=
  inject_Z (Z.of_nat (List.length rs)).

(** Whether a record's [complianceStatus] is exactly ["compliant"]. *)
Definition compliantRecord (r : ESGRecord) : bool :=
  match governance r with
  | Some g =>
      match complianceStatus g with
      | Some s => String.eqb s "compliant"
      | None => false
      end
  | None => false
  end.

Definition compliantCount (rs : list ESGRecord) : nat :=
  List.length (filter compliantRecord rs).




Definition clamp (x : Q) : Q :=
  if Qle_bool x 0 then 0 else if Qle_bool 100 x then 100 else x.

Definition InRange (x : Q) : Prop := 0 <= x /\ x <= 100.

(** The stored total of a record is the sum of its three scopes. *)
Definition CarbonInvariant (r : ESGRecord) : Prop :=
  match environmental r with
  | Some e =>
      exists t, totalCarbonEmissions e = Some t
                /\ t == valueOr0 (scope1Emissions e)
                        + valueOr0 (scope2Emissions e)
                        + valueOr0 (scope3Emissions e)
  | None => True
  end.

Definition StoreInvariant (db : DB) : Prop :=
  Forall CarbonInvariant (esgRecords db).

(** Two stores hold the same users, records and reports; their audit
    trails may differ. *)
Definition SameData (db1 db2 : DB) : Prop :=
  users db1 = users db2
  /\ esgRecords db1 = esgRecords db2
  /\ reports db1 = reports db2.

(** The position of a report status on the chain
    draft, finalized, published, archived. *)
Definition statusRank (s : string) : option nat :=
  if String.eqb s "draft" then Some 0%nat
  else if String.eqb s "finalized" then Some 1%nat
  else if String.eqb s "published" then Some 2%nat
  else if String.eqb s "archived" then Some 3%nat
  else None.

(** "Every change of a report's status moves strictly forward along the
    chain", for every operation of the program. *)
Definition StatusOnlyMovesForward : Prop :=
  forall rt op db id before after a b,
    find (ReportModel.hasId id) (reports db) = Some before ->
    find (ReportModel.hasId id) (reports (step rt op db)) = Some after ->
    Report.status before <> Report.status after ->
    statusRank (Report.status before) = Some a ->
    statusRank (Report.status after) = Some b ->
    (a < b)%nat.

(** The operation completed with the answer 200. *)
Definition Succeeded (c : Completion Response) : Prop :=
  exists r, c = Normal r /\ statusCode r = HTTP_STATUS.OK.

(** The caller may access the document of organization [org]. *)
Definition Accessible (u : User.t) (org : string) : Prop :=
  User.role u = ROLES.ADMINISTRATOR \/ org = User.organization u.

(** The record [r] of the store was selected by the report query. *)
Definition Eligible (org : string) (startDate endDate : Z) (r : ESGRecord)
  : Prop :=
  organization r = org /\ status r = "approved"
  /\ (startDate <= createdAt r <= endDate)%Z.

(** The computation [c] keeps the property [P] of the store, whether it
    returns or throws. *)
Definition Preserves (P : DB -> Prop) {A} (c : Async A) : Prop :=
  forall db, P db -> P (snd (c db)).

(** A computation that leaves the record collection as it is. *)
Definition KeepsRecords {A} (c : Async A) : Prop :=
  forall db, esgRecords (snd (c db)) = esgRecords db.

(** Run on stores holding the same data, [c1] and [c2] complete alike and
    leave stores holding the same data. *)
Definition AuditBlind {A} (c1 c2 : Async A) : Prop :=
  forall db1 db2, SameData db1 db2 ->
    fst (c1 db1) = fst (c2 db2) /\ SameData (snd (c1 db1)) (snd (c2 db2)).

(** [c] always returns and changes nothing but the audit trail. *)
Definition Quiet {A} (c : Async A) : Prop :=
  forall db, exists a db', c db = (Normal a, db') /\ SameData db db'.

(** The document [approveESGRecord] saves. *)
Definition approvedDocument (rt : Runtime) (record : ESGRecord)
    (req : Request EsgController.ApproveBody) : ESGRecord :=
  let r := ESGRecordModel.set_status "approved" record in
  let r := ESGRecordModel.set_reviewedBy (userId req) r in
  let r := ESGRecordModel.set_approvedAt (now rt) r in
  ESGRecordModel.preSave
    (if JS.truthyStr (EsgController.approve_reviewNotes (body req))
     then ESGRecordModel.set_reviewNotes
            (EsgController.approve_reviewNotes (body req)) r
     else r).

(** The document [updateReportStatus] saves for a request with a status. *)
Definition statusUpdate (rt : Runtime) (s : string) (n : option string)
    (report : Report.t) : Report.t :=
  let report := Report.set_status s report in
  let report :=
    if String.eqb s "published" then Report.set_publishedAt (now rt) report
    else report in
  match n with
  | Some v =>
      if JS.truthyStr (Some v) then Report.set_notes v report else report
  | None => report
  end.

End Spec.

(** * Fixtures used to evaluate the definitions on concrete inputs *)

Module Fixtures.

Definition env (s1 s2 s3 wasteGen wasteRec : Q) : Environmental :=
  {| scope1Emissions := Some s1; scope2Emissions := Some s2;
     scope3Emissions := Some s3; totalCarbonEmissions := None;
     energyConsumption := Some 0; renewableEnergyPercentage := Some 50;
     waterUsage := Some 0; wasteGenerated := Some wasteGen;
     wasteRecycled := Some wasteRec |}.

Definition soc : Social :=
  {| totalEmployees := Some 10; diversityRatio := Some 40;
     femaleEmployeesPercentage := Some 50; healthAndSafetyIncidents := Some 1;
     trainingHoursPerEmployee := Some 20; employeeTurnoverRate := Some 5;
     communityInvestment := Some 1000 |}.

Definition gov (compliance : string) : Governance :=
  {| boardIndependence := Some 60; femaleDirectorsPercentage := Some 30;
     complianceStatus := Some compliance; ethicsPolicyConfirmed := Some true;
     whistleblowerCases := Some 1; dataBreaches := Some 2;
     auditFrequency := Some "annual" |}.

Definition record (id st : string) (e : Environmental) (g : Governance)
  : ESGRecord :=
  {| _id := id; organization := "Acme";
     reportingPeriod := {| year := 2024; quarter := Some 1%Z; month := None |};
     environmental := Some e; social := Some soc; governance := Some g;
     status := st; submittedBy := "0000000000000000000000a1";
     reviewedBy := None; reviewNotes := None;
     submittedAt := None; approvedAt := None; createdAt := 1000 |}.

Definition id1 := "000000000000000000000001".
Definition id2 := "000000000000000000000002".
Definition id3 := "000000000000000000000003".
Definition id4 := "000000000000000000000004".

(** Three records with scope 1 emissions 10, 20 and 30. *)
Definition threeRecords : list ESGRecord :=
  [ record id1 "approved" (env 10 0 0 0 0) (gov "compliant");
    record id2 "approved" (env 20 0 0 0 0) (gov "compliant");
    record id3 "approved" (env 30 0 0 0 0) (gov "non_compliant") ].

(** Four records, two of them compliant. *)
Definition fourRecords : list ESGRecord :=
  [ record id1 "approved" (env 1 2 3 8 2) (gov "compliant");
    record id2 "approved" (env 1 2 3 8 2) (gov "under_review");
    record id3 "approved" (env 1 2 3 8 2) (gov "compliant");
    record id4 "approved" (env 1 2 3 8 2) (gov "non_compliant") ].

(** Summaries whose domain scores are 0.004, 0.00333... and 0.01333...
    before rounding. *)
Definition envSummary : Summary.Environmental :=
  {| Summary.totalScope1Emissions := 99996 # 10;
     Summary.totalScope2Emissions := 0;
     Summary.totalScope3Emissions := 0;
     Summary.totalCarbonEmissions := 99996 # 10;
     Summary.averageRenewableEnergyPercentage := 0;
     Summary.totalEnergyConsumption := 0;
     Summary.totalWaterUsage := 0;
     Summary.wasteRecyclingRate := 0 |}.

Definition socSummary : Summary.Social :=
  {| Summary.averageDiversityRatio := 1 # 100;
     Summary.totalHealthAndSafetyIncidents := 100;
     Summary.averageTrainingHours := 0;
     Summary.averageTurnoverRate := 0;
     Summary.totalCommunityInvestment := 0;
     Summary.averageFemaleEmployeesPercentage := 0 |}.

Definition govSummary : Summary.Governance :=
  {| Summary.averageBoardIndependence := 4 # 100;
     Summary.complianceRate := 0;
     Summary.totalWhistleblowerCases := 0;
     Summary.totalDataBreaches := 10;
     Summary.averageFemaleDirectorsPercentage := 0 |}.

End Fixtures.

(** * Fixtures for the controllers *)

Module Scenario.

(** A stand-in for the [Date] constructor: instants ordered as their
    (year, month, day, hour, minute, second) components are. *)
Definition calendar (y m d h mi s : Z) : Z :=
  ((((((y * 12 + m) * 31 + d) * 24 + h) * 60 + mi) * 60) + s)%Z.

Definition runtime : Runtime :=
  {| now := calendar 2024 1 15 12 0 0;
     mkDate := calendar;
     newObjectId := "0000000000000000000000ff";
     jwtVerify := fun token =>
       if String.eqb token "token-of-analyst"
       then Some "0000000000000000000000a2"
       else if String.eqb token "token-of-admin"
       then Some "0000000000000000000000a1"
       else None;
     readFails := false; writeFails := false; auditWriteFails := false |}.

Definition admin : User.t :=
  {| User._id := "0000000000000000000000a1"; User.role := "administrator";
     User.organization := "Acme"; User.isActive := true |}.

(** An analyst of another organization than the records'. *)
Definition analyst : User.t :=
  {| User._id := "0000000000000000000000a2"; User.role := "esg_analyst";
     User.organization := "Globex"; User.isActive := true |}.

Definition request {Body} (id : string) (b : Body) (u : option User.t)
    (auth : option string) : Request Body :=
  {| authorization := auth; params_id := id; body := b; user := u;
     path := "/"; method := "POST"; clientIp := "127.0.0.1";
     clientUserAgent := "agent" |}.

Definition storedEnv : Environmental :=
  {| scope1Emissions := Some 10; scope2Emissions := Some 20;
     scope3Emissions := Some 30; totalCarbonEmissions := Some 60;
     energyConsumption := Some 0; renewableEnergyPercentage := Some 50;
     waterUsage := Some 0; wasteGenerated := Some 8;
     wasteRecycled := Some 2 |}.

Definition stored (id st : string) : ESGRecord :=
  {| _id := id; organization := "Acme";
     reportingPeriod := {| year := 2024; quarter := Some 1%Z; month := None |};
     environmental := Some storedEnv; social := Some Fixtures.soc;
     governance := Some (Fixtures.gov "compliant");
     status := st; submittedBy := "0000000000000000000000a2";
     reviewedBy := None; reviewNotes := None;
     submittedAt := None; approvedAt := None;
     createdAt := calendar 2024 1 10 9 0 0 |}.

Definition publishedReport : Report.t :=
  {| Report._id := Fixtures.id4;
     Report.reportTitle := "Q1 report";
     Report.organization := "Acme";
     Report.reportType := "quarterly";
     Report.reportingPeriod :=
       {| Report.startDate := calendar 2024 0 1 0 0 0;
          Report.endDate := calendar 2024 3 0 23 59 59;
          Report.year := 2024 |};
     Report.environmentalSummary :=
       ESGCalculationService.aggregateEnvironmentalMetrics
         [stored Fixtures.id3 "approved"];
     Report.socialSummary :=
       ESGCalculationService.aggregateSocialMetrics
         [stored Fixtures.id3 "approved"];
     Report.governanceSummary :=
       ESGCalculationService.aggregateGovernanceMetrics
         [stored Fixtures.id3 "approved"];
     Report.overallScore :=
       {| Summary.environmentalScore := 994 # 10;
          Summary.socialScore := 53;
          Summary.governanceScore := 80;
          Summary.totalScore := 7747 # 100 |};
     Report.includedRecords := [Fixtures.id3];
     Report.generatedBy := Some "0000000000000000000000a1";
     Report.status := "published";
     Report.notes := None;
     Report.publishedAt := Some (calendar 2024 1 12 8 0 0);
     Report.createdAt := calendar 2024 1 11 8 0 0 |}.

(** A store with a draft, a submitted and an approved record of Acme and
    one published report. *)
Definition db : DB :=
  {| users := [admin; analyst];
     esgRecords :=
       [ stored Fixtures.id1 "draft";
         stored Fixtures.id2 "submitted";
         stored Fixtures.id3 "approved" ];
     reports := [publishedReport];
     auditLogs := [] |}.

Definition generateBody (type : string) (q : option Z)
  : ReportController.GenerateBody :=
  {| ReportController.reportTitle := "Report";
     ReportController.organization := "Acme";
     ReportController.reportType := type;
     ReportController.year := 2024;
     ReportController.quarter := q;
     ReportController.month := None;
     ReportController.startDate := None;
     ReportController.endDate := None |}.

Definition overwrittenEnv : Environmental :=
  {| scope1Emissions := Some 1; scope2Emissions := Some 2;
     scope3Emissions := Some 4; totalCarbonEmissions := Some 100;
     energyConsumption := None; renewableEnergyPercentage := None;
     waterUsage := None; wasteGenerated := None; wasteRecycled := None |}.

(** A creation with scopes 10, 20, 30, and an update that overwrites the
    environmental sub-object of the created record (and supplies a wrong
    total). *)
Definition createOp : Operation :=
  CreateESGRecord
    (request ""
       {| EsgController.create_organization := "Acme";
          EsgController.create_reportingPeriod :=
            {| year := 2024; quarter := Some 1%Z; month := None |};
          EsgController.create_environmental :=
            Some (Fixtures.env 10 20 30 0 0);
          EsgController.create_social := None;
          EsgController.create_governance := None |}
       (Some admin) None).

Definition overwriteOp : Operation :=
  UpdateESGRecord
    (request "0000000000000000000000ff"
       {| EsgController.update_environmental := Some overwrittenEnv;
          EsgController.update_social := None;
          EsgController.update_governance := None;
          EsgController.update_status := None;
          EsgController.update_reviewNotes := None |}
       (Some admin) None).

Definition createThenOverwrite : list (Runtime * Operation) :=
  [(runtime, createOp); (runtime, overwriteOp)].

(** An administrator's request to move the published report to draft. *)
Definition backToDraft : Request ReportController.StatusBody :=
  request Fixtures.id4
    {| ReportController.status := Some "draft";
       ReportController.notes := None |}
    (Some admin) None.

End Scenario.


(** ** services/auditService.js: the login and logout entries *)

Module AuditServiceLogins.

Definition USER_LOGIN := "USER_LOGIN".
Definition USER_LOGOUT := "USER_LOGOUT".

(** [logLogin(userId, req, success = true, errorMessage = null)] *)
Definition logLogin {Body} (rt : Runtime) (userId : option string)
    (req : Request Body) (success : bool) (errorMessage : option string)
  : Async (option AuditLog.t) :=
  AuditService.createLog rt
    {| AuditLog.action := USER_LOGIN;
       AuditLog.performedBy := userId;
       AuditLog.resourceType := "User";
       AuditLog.resourceId := userId;
       AuditLog.details := [];
       AuditLog.success := success;
       AuditLog.errorMessage := errorMessage;
       AuditLog.ipAddress := Some (clientIp req);
       AuditLog.userAgent := Some (clientUserAgent req);
       AuditLog.timestamp := now rt |}.

(** [logLogout(userId, req)] *)
Definition logLogout {Body} (rt : Runtime) (userId : option string)
    (req : Request Body) : Async (option AuditLog.t) :=
  AuditService.createLog rt
    (AuditService.entry rt req USER_LOGOUT userId "User" userId [] true).

End AuditServiceLogins.

(** * Further vocabulary *)

Module Props.

Definition socField (get : Social -> option Q) (r : ESGRecord) : Q :=
  match social r with
  | Some s => Spec.valueOr0 (get s)
  | None => 0
  end.


(** The summaries on the right are at least as bad as those on the left:
    no fewer emissions, incidents and breaches, no more diversity, training,
    board independence and compliance. *)
Definition NoBetter
    (e1 : Summary.Environmental) (s1 : Summary.Social) (g1 : Summary.Governance)
    (e2 : Summary.Environmental) (s2 : Summary.Social) (g2 : Summary.Governance)
  : Prop :=
  Summary.totalCarbonEmissions e1 <= Summary.totalCarbonEmissions e2
  /\ Summary.totalHealthAndSafetyIncidents s1
     <= Summary.totalHealthAndSafetyIncidents s2
  /\ Summary.totalDataBreaches g1 <= Summary.totalDataBreaches g2
  /\ Summary.averageDiversityRatio s2 <= Summary.averageDiversityRatio s1
  /\ Summary.averageTrainingHours s2 <= Summary.averageTrainingHours s1
  /\ Summary.averageBoardIndependence g2 <= Summary.averageBoardIndependence g1
  /\ Summary.complianceRate g2 <= Summary.complianceRate g1.

(** The period of a report request is one [generateReport] can resolve. *)
Definition ValidPeriodSpec (b : ReportController.GenerateBody) : Prop :=
  (ReportController.reportType b = "custom"
   /\ ReportController.startDate b <> None
   /\ ReportController.endDate b <> None)
  \/ ReportController.reportType b = "annual"
  \/ (ReportController.reportType b = "quarterly"
      /\ exists q, ReportController.quarter b = Some q /\ (1 <= q <= 4)%Z)
  \/ (ReportController.reportType b = "monthly"
      /\ exists m, ReportController.month b = Some m /\ (1 <= m <= 12)%Z).

(** The audit trail of [db] extends [base]. *)
Definition AuditExtends (base : list AuditLog.t) (db : DB) : Prop :=
  exists added, auditLogs db = (base ++ added)%list.

(** Every stored record passes the schema. *)
Definition AllValid (db : DB) : Prop :=
  Forall (fun r => ESGRecordModel.validate r = true) (esgRecords db).

(** The response [code], [message] with no data. *)
Definition refusal (code : Z) (message : string) : Completion Response :=
  Normal (respond code (errorResponse message)).

End Props.

(** * Further fixtures *)

Module Cases.

(** An environmental summary with emissions above the 10000 ceiling. *)
Definition heavyEmitter : Summary.Environmental :=
  {| Summary.totalScope1Emissions := 12000;
     Summary.totalScope2Emissions := 0;
     Summary.totalScope3Emissions := 0;
     Summary.totalCarbonEmissions := 12000;
     Summary.averageRenewableEnergyPercentage := 0;
     Summary.totalEnergyConsumption := 0;
     Summary.totalWaterUsage := 0;
     Summary.wasteRecyclingRate := 0 |}.

End Cases.

(** ** middleware/auth.js: [optionalAuth] *)

Module OptionalAuth.

(** [jwt.verify(token, secret)] as [optionalAuth] calls it, with no test of
    the token before: an empty token is refused by the library. *)
Definition verify (rt : Runtime) (token : string) : option string :=
  if String.eqb token "" then None else jwtVerify rt token.

Definition optionalAuth {Body} : Middleware Body := fun rt req =>
  tryCatch
    (req' <-
       match authorization req with
       | Some authHeader =>
           if negb (String.eqb authHeader "")
              && String.prefix "Bearer " authHeader
           then
             let token :=
               String.substring 7 (String.length authHeader - 7) authHeader in
             tryCatch
               (match verify rt token with
                | None => throw "JsonWebTokenError"
                | Some decodedUserId =>
                    found <- UserModel.findById rt decodedUserId ;;
                    match found with
                    | Some u =>
                        if User.isActive u then ret (attachUser u req)
                        else ret req
                    | None => ret req
                    end
                end)
               (fun error =>
                  (* Invalid token is ignored for optional auth *)
                  ret req)
           else ret req
       | None => ret req
       end ;;
     next req')
    (fun error => next req).

End OptionalAuth.

(** ** middleware/validator.js: the request schemas

    [schema.validate(req.body, {abortEarly: false, stripUnknown: true})] on
    a body whose fields have their types: [None] when the schema reports an
    error, the value with the defaults filled in and the unknown keys
    removed otherwise. *)

Module Schemas.


(** [Joi.number().integer().min(lo).max(hi).optional()] *)
Definition between (lo hi : Z) (v : option Z) : bool :=
  match v with
  | Some n => (lo <=? n)%Z && (n <=? hi)%Z
  | None => true
  end.










(** [schemas.reportGenerate] *)
Definition reportGenerate (b : ReportController.GenerateBody)
  : option ReportController.GenerateBody :=
  if negb (String.eqb (ReportController.reportTitle b) "")
     && (String.length (ReportController.reportTitle b) <=? 200)%nat
     && negb (String.eqb (ReportController.organization b) "")
     && inEnum (ReportController.reportType b)
          ["annual"; "quarterly"; "monthly"; "custom"]
     && (2000 <=? ReportController.year b)%Z
     && (ReportController.year b <=? 2100)%Z
     && between 1 4 (ReportController.quarter b)
     && between 1 12 (ReportController.month b)
  then Some b
  else None.


End Schemas.

(** ** utils/helpers.js: [getPaginationMeta] on integer arguments *)

Module Pagination.

(** The value of [Math.ceil(total / limit)]: a division by zero gives an
    infinity, or [NaN] for [0 / 0]. *)
Inductive Pages :=
| Finite (n : Z)
| PlusInfinity
| MinusInfinity
| NotANumber.

Definition ceilOfQuotient (total limit : Z) : Pages :=
  if (limit =? 0)%Z then
    if (total =? 0)%Z then NotANumber
    else if (0 <? total)%Z then PlusInfinity else MinusInfinity
  else Finite (- ((- total) / limit))%Z.

(** [page < totalPages] *)
Definition lessThan (page : Z) (p : Pages) : bool :=
  match p with
  | Finite n => (page <? n)%Z
  | PlusInfinity => true
  | MinusInfinity => false
  | NotANumber => false
  end.

Record Meta := {
  total : Z;
  page : Z;
  limit : Z;
  totalPages : Pages;
  hasNextPage : bool;
  hasPrevPage : bool
}.

Definition getPaginationMeta (total page limit : Z) : Meta :=
  let totalPages := ceilOfQuotient total limit in
  {| total := total;
     page := page;
     limit := limit;
     totalPages := totalPages;
     hasNextPage := lessThan page totalPages;
     hasPrevPage := (1 <? page)%Z |}.

End Pagination.

(** * Vocabulary for the access rules *)

Module Access.

(** The request carries a bearer token that verifies to the user [uid]. *)
Definition Presents {Body} (rt : Runtime) (req : Request Body) (uid : string)
  : Prop :=
  exists token,
    authorization req = Some ("Bearer " ++ token)
    /\ token <> "" /\ jwtVerify rt token = Some uid.

(** The entry [checkRole] writes when it turns a user away. *)
Definition deniedEntry {Body} (rt : Runtime) (req : Request Body) (u : User.t)
  : AuditLog.t :=
  AuditService.entry rt req AUDIT_ACTIONS.UNAUTHORIZED_ACCESS_ATTEMPT
    (Some (User._id u)) "System" None
    [("path", AuditLog.DString (path req));
     ("method", AuditLog.DString (method req))] false.


(** The action under which an operation is audited, if it is. *)
Definition auditAction (op : Operation) : option string :=
  match op with
  | CreateESGRecord _ => Some AUDIT_ACTIONS.ESG_RECORD_CREATED
  | UpdateESGRecord _ => Some AUDIT_ACTIONS.ESG_RECORD_UPDATED
  | SubmitESGRecord _ => Some AUDIT_ACTIONS.ESG_RECORD_SUBMITTED
  | ApproveESGRecord _ => Some AUDIT_ACTIONS.ESG_RECORD_APPROVED
  | GenerateReport _ => Some AUDIT_ACTIONS.REPORT_GENERATED
  | DeleteESGRecord _ | UpdateReportStatus _ | DeleteReport _ => None
  end.

(** [req.userId] of the request of an operation. *)
Definition caller (op : Operation) : option string :=
  match op with
  | CreateESGRecord req => userId req
  | UpdateESGRecord req => userId req
  | SubmitESGRecord req => userId req
  | ApproveESGRecord req => userId req
  | DeleteESGRecord req => userId req
  | GenerateReport req => userId req
  | UpdateReportStatus req => userId req
  | DeleteReport req => userId req
  end.

(** The answer is a 200 or a 201. *)
Definition Accepted (r : Response) : Prop :=
  statusCode r = HTTP_STATUS.OK \/ statusCode r = HTTP_STATUS.CREATED.

(** Run from [db], the computation [c] either leaves the audit trail as it
    is, or returns an accepted answer and has appended one successful entry
    for [action], made by [actor] at [instant]. *)
Definition AuditedOnce (action : option string) (actor : option string)
    (instant : Z) (c : Async Response) : Prop :=
  forall db,
    auditLogs (snd (c db)) = auditLogs db
    \/ exists e r,
         auditLogs (snd (c db)) = (auditLogs db ++ [e])%list
         /\ fst (c db) = Normal r /\ Accepted r
         /\ Some (AuditLog.action e) = action
         /\ AuditLog.performedBy e = actor
         /\ actor <> None
         /\ AuditLog.success e = true
         /\ AuditLog.timestamp e = instant.

(** A computation that leaves the audit trail as it is. *)
Definition Silent {A} (c : Async A) : Prop :=
  forall db, auditLogs (snd (c db)) = auditLogs db.

End Access.

Module Actors.

Definition acmeAnalyst : User.t :=
  {| User._id := "0000000000000000000000a3"; User.role := "esg_analyst";
     User.organization := "Acme"; User.isActive := true |}.

Definition auditor : User.t :=
  {| User._id := "0000000000000000000000a4"; User.role := "auditor";
     User.organization := "Acme"; User.isActive := true |}.

(** A body that sets the status and nothing else. *)
Definition statusOnly (s : string) : EsgController.UpdateBody :=
  {| EsgController.update_environmental := None;
     EsgController.update_social := None;
     EsgController.update_governance := None;
     EsgController.update_status := Some s;
     EsgController.update_reviewNotes := None |}.

Definition noNotes : EsgController.ApproveBody :=
  {| EsgController.approve_reviewNotes := None |}.

(** The runtime of the scenario with tokens for the two users above. *)
Definition runtime : Runtime :=
  {| now := now Scenario.runtime;
     mkDate := mkDate Scenario.runtime;
     newObjectId := newObjectId Scenario.runtime;
     jwtVerify := fun token =>
       if String.eqb token "token-of-auditor" then Some (User._id auditor)
       else if String.eqb token "token-of-acme-analyst"
       then Some (User._id acmeAnalyst)
       else jwtVerify Scenario.runtime token;
     readFails := false; writeFails := false; auditWriteFails := false |}.

Definition db : DB :=
  {| users := [Scenario.admin; Scenario.analyst; acmeAnalyst; auditor];
     esgRecords := esgRecords Scenario.db;
     reports := reports Scenario.db;
     auditLogs := [] |}.

End Actors.


(** Splits the conjunctions of a goal without unfolding definitions. *)
Ltac split_all := repeat match goal with |- _ /\ _ => split end.

(** * Rounding and clamping *)

Section Rounding.

Import Spec.

Lemma roundToDecimal_2 x :
  roundToDecimal x 2 = inject_Z (Qfloor (x * 100 + (1 # 2))) / 100.
Proof. reflexivity. Qed.


Lemma roundToDecimal_range x : InRange x -> InRange (roundToDecimal x 2).
Proof.
  intros [H0 H1]. rewrite roundToDecimal_2.
  assert (Hk0 : (0 <= Qfloor (x * 100 + (1 # 2)))%Z).
  { change 0%Z with (Qfloor 0). apply Qfloor_resp_le. lra. }
  assert (Hk1 : (Qfloor (x * 100 + (1 # 2)) <= 10000)%Z).
  { change 10000%Z with (Qfloor (10000 + (1 # 2))).
    apply Qfloor_resp_le. lra. }
  set (k := Qfloor (x * 100 + (1 # 2))) in *.
  unfold InRange, Qdiv. change (/ 100) with (1 # 100).
  assert (0 <= inject_Z k)
    by (change 0 with (inject_Z 0); rewrite <- Zle_Qle; exact Hk0).
  assert (inject_Z k <= 10000)
    by (change 10000 with (inject_Z 10000); rewrite <- Zle_Qle; exact Hk1).
  split; lra.
Qed.

Lemma roundToDecimal_compat x y :
  x == y -> roundToDecimal x 2 == roundToDecimal y 2.
Proof.
  intros H. rewrite !roundToDecimal_2.
  assert (E : Qfloor (x * 100 + (1 # 2)) = Qfloor (y * 100 + (1 # 2)))
    by (apply Qfloor_comp; rewrite H; reflexivity).
  rewrite E. reflexivity.
Qed.

Lemma orZero_value v : JS.orZero v == valueOr0 v.
Proof.
  destruct v as [x|]; simpl; [|reflexivity].
  destruct (Qeq_bool x 0) eqn:E; [|reflexivity].
  apply Qeq_bool_iff in E. symmetry; exact E.
Qed.

Lemma Qle_bool_false x y : Qle_bool x y = false -> y < x.
Proof.
  intros H. apply Qnot_le_lt. intros Hle.
  apply Qle_bool_iff in Hle. congruence.
Qed.

Lemma clamp_minmax x : JS.Math_min 100 (JS.Math_max 0 x) == clamp x.
Proof.
  unfold JS.Math_min, JS.Math_max, clamp.
  destruct (Qle_bool x 0) eqn:E0.
  - apply Qle_bool_iff in E0.
    rewrite (Q.max_l 0 x E0). apply Q.min_r. lra.
  - apply Qle_bool_false in E0.
    rewrite (Q.max_r 0 x) by lra.
    destruct (Qle_bool 100 x) eqn:E1.
    + apply Qle_bool_iff in E1. apply Q.min_l. exact E1.
    + apply Qle_bool_false in E1. apply Q.min_r. lra.
Qed.


End Rounding.

(** * The aggregation engine *)

Section Aggregation.

Import Spec ESGCalculationService.

Lemma envField_orZero (f : Environmental -> option Q) r :
  f emptyEnvironmental = None ->
  JS.orZero (f (orEmpty emptyEnvironmental (environmental r))) == envField f r.
Proof.
  intros Hf. rewrite orZero_value. unfold envField.
  destruct (environmental r); simpl; [reflexivity|].
  rewrite Hf. reflexivity.
Qed.

Lemma govField_orZero (f : Governance -> option Q) r :
  f emptyGovernance = None ->
  JS.orZero (f (orEmpty emptyGovernance (governance r))) == govField f r.
Proof.
  intros Hf. rewrite orZero_value. unfold govField.
  destruct (governance r); simpl; [reflexivity|].
  rewrite Hf. reflexivity.
Qed.

Lemma isCompliant_compliantRecord r :
  isCompliant (orEmpty emptyGovernance (governance r)) = compliantRecord r.
Proof. unfold compliantRecord. destruct (governance r); reflexivity. Qed.

(** The [reduce] of the environmental aggregator adds, field by field,
    the sum over the records to the accumulator. *)
Lemma fold_envStep rs : forall acc,
  let t := fold_left envStep rs acc in
  scope1 t == scope1 acc + sumOver (envField scope1Emissions) rs
  /\ scope2 t == scope2 acc + sumOver (envField scope2Emissions) rs
  /\ scope3 t == scope3 acc + sumOver (envField scope3Emissions) rs
  /\ renewableEnergy t
     == renewableEnergy acc + sumOver (envField renewableEnergyPercentage) rs
  /\ energyConsumptionAcc t
     == energyConsumptionAcc acc + sumOver (envField energyConsumption) rs
  /\ waterUsageAcc t == waterUsageAcc acc + sumOver (envField waterUsage) rs
  /\ wasteGeneratedAcc t
     == wasteGeneratedAcc acc + sumOver (envField wasteGenerated) rs
  /\ wasteRecycledAcc t
     == wasteRecycledAcc acc + sumOver (envField wasteRecycled) rs.
Proof.
  induction rs as [|r rs IH]; intros acc; cbn [fold_left sumOver].
  - cbv zeta. repeat split; lra.
  - specialize (IH (envStep acc r)). cbv zeta in IH |- *.
    destruct IH as (H1 & H2 & H3 & H4 & H5 & H6 & H7 & H8).
    cbn [envStep scope1 scope2 scope3 renewableEnergy energyConsumptionAcc
         waterUsageAcc wasteGeneratedAcc wasteRecycledAcc] in *.
    pose proof (envField_orZero scope1Emissions r eq_refl).
    pose proof (envField_orZero scope2Emissions r eq_refl).
    pose proof (envField_orZero scope3Emissions r eq_refl).
    pose proof (envField_orZero renewableEnergyPercentage r eq_refl).
    pose proof (envField_orZero energyConsumption r eq_refl).
    pose proof (envField_orZero waterUsage r eq_refl).
    pose proof (envField_orZero wasteGenerated r eq_refl).
    pose proof (envField_orZero wasteRecycled r eq_refl).
    repeat split; lra.
Qed.

Lemma inject_count_succ n :
  inject_Z (Z.of_nat (S n)) == inject_Z (Z.of_nat n) + 1.
Proof.
  rewrite Nat2Z.inj_succ. unfold Z.succ. rewrite inject_Z_plus. reflexivity.
Qed.

Lemma fold_govStep rs : forall acc,
  let t := fold_left govStep rs acc in
  boardIndependenceAcc t
  == boardIndependenceAcc acc + sumOver (govField boardIndependence) rs
  /\ compliant t == compliant acc + inject_Z (Z.of_nat (compliantCount rs))
  /\ whistleblower t
     == whistleblower acc + sumOver (govField whistleblowerCases) rs
  /\ dataBreachesAcc t
     == dataBreachesAcc acc + sumOver (govField dataBreaches) rs
  /\ femaleDirectors t
     == femaleDirectors acc + sumOver (govField femaleDirectorsPercentage) rs.
Proof.
  induction rs as [|r rs IH]; intros acc; cbn [fold_left sumOver].
  - cbv zeta. unfold compliantCount. cbn [filter List.length Z.of_nat].
    change (inject_Z 0) with 0. repeat split; lra.
  - specialize (IH (govStep acc r)). cbv zeta in IH |- *.
    destruct IH as (H1 & H2 & H3 & H4 & H5).
    cbn [govStep boardIndependenceAcc compliant whistleblower dataBreachesAcc
         femaleDirectors] in *.
    pose proof (govField_orZero boardIndependence r eq_refl).
    pose proof (govField_orZero whistleblowerCases r eq_refl).
    pose proof (govField_orZero dataBreaches r eq_refl).
    pose proof (govField_orZero femaleDirectorsPercentage r eq_refl).
    rewrite isCompliant_compliantRecord in H2.
    assert (Hc : inject_Z (Z.of_nat (compliantCount (r :: rs)))
                 == (if compliantRecord r then 1 else 0)
                    + inject_Z (Z.of_nat (compliantCount rs))).
    { unfold compliantCount. cbn [filter].
      destruct (compliantRecord r); cbn [List.length].
      - rewrite inject_count_succ. lra.
      - lra. }
    repeat split; lra.
Qed.

Lemma count_nonzero rs : rs <> [] -> ~ count rs == 0.
Proof.
  intros Hne. unfold count. destruct rs as [|r rs]; [congruence|].
  cbn [List.length]. rewrite inject_count_succ.
  assert (0 <= inject_Z (Z.of_nat (List.length rs))).
  { change 0 with (inject_Z 0). rewrite <- Zle_Qle. lia. }
  lra.
Qed.

Lemma length_nonzero (rs : list ESGRecord) :
  rs <> [] -> (List.length rs =? 0)%nat = false.
Proof. destruct rs; [congruence|reflexivity]. Qed.


End Aggregation.

(** * Claims on the aggregation engine *)

Section AggregationClaims.

Import Spec ESGCalculationService.


Example aggregate_three_records :
  let out := aggregateEnvironmentalMetrics Fixtures.threeRecords in
  Summary.totalScope1Emissions out == 60
  /\ Summary.totalCarbonEmissions out == 60
  /\ Summary.averageRenewableEnergyPercentage out == 50
  /\ Summary.wasteRecyclingRate out == 0.
Proof. cbv zeta. split_all; reflexivity. Qed.

Example aggregate_four_records :
  let out := aggregateEnvironmentalMetrics Fixtures.fourRecords in
  Summary.totalCarbonEmissions out == 24
  /\ Summary.wasteRecyclingRate out == 25
  /\ Summary.complianceRate (aggregateGovernanceMetrics Fixtures.fourRecords)
     == 50.
Proof. cbv zeta. split_all; reflexivity. Qed.





Example scores_of_fixture :
  let out := calculateOverallScores Fixtures.envSummary Fixtures.socSummary
               Fixtures.govSummary in
  Summary.environmentalScore out == 0
  /\ Summary.socialScore out == 0
  /\ Summary.governanceScore out == 1 # 100
  /\ Summary.totalScore out == 1 # 100.
Proof. cbv zeta. split_all; reflexivity. Qed.

(** C10.  The total score is the rounded mean of the three clamped domain
    scores taken before they are rounded, and for some summaries it differs
    from the rounded mean of the three rounded domain scores returned with
    it. *)
Theorem totalScore_uses_unrounded_scores :
  (forall env soc gov,
     let out := calculateOverallScores env soc gov in
     let e := clamp (100 - (Summary.totalCarbonEmissions env / 10000) * 100) in
     let s := clamp ((Summary.averageDiversityRatio soc
                      + (100 - Summary.totalHealthAndSafetyIncidents soc)
                      + Summary.averageTrainingHours soc) / 3) in
     let g := clamp ((Summary.averageBoardIndependence gov
                      + Summary.complianceRate gov
                      + (100 - Summary.totalDataBreaches gov * 10)) / 3) in
     Summary.totalScore out == roundToDecimal ((e + s + g) / 3) 2)
  /\ exists env soc gov,
       let out := calculateOverallScores env soc gov in
       ~ Summary.totalScore out
         == roundToDecimal
              ((Summary.environmentalScore out + Summary.socialScore out
                + Summary.governanceScore out) / 3) 2.
Proof.
  split.
  - intros env soc gov out e s g. subst out e s g.
    unfold calculateOverallScores. cbn [Summary.totalScore].
    apply roundToDecimal_compat. rewrite !clamp_minmax. reflexivity.
  - exists Fixtures.envSummary, Fixtures.socSummary, Fixtures.govSummary.
    cbv zeta. intros H. vm_compute in H. discriminate H.
Qed.

End AggregationClaims.

(** * Reasoning about [Async] computations *)

Section Preservation.

Import Spec.

Variable P : DB -> Prop.

Lemma Preserves_ret {A} (a : A) : Preserves P (ret a).
Proof. intros db H. exact H. Qed.

Lemma Preserves_throw {A} m : Preserves P (@throw A m).
Proof. intros db H. exact H. Qed.

Lemma Preserves_lift {A} (c : Completion A) : Preserves P (liftCompletion c).
Proof. intros db H. exact H. Qed.

Lemma Preserves_bind {A B} (c : Async A) (k : A -> Async B) :
  Preserves P c -> (forall a, Preserves P (k a)) -> Preserves P (bind c k).
Proof.
  intros Hc Hk db H. unfold bind.
  specialize (Hc db H). destruct (c db) as [[a|m] db']; cbn [snd] in *.
  - apply Hk. exact Hc.
  - exact Hc.
Qed.

Lemma Preserves_tryCatch {A} (c : Async A) (h : string -> Async A) :
  Preserves P c -> (forall m, Preserves P (h m)) -> Preserves P (tryCatch c h).
Proof.
  intros Hc Hh db H. unfold tryCatch.
  specialize (Hc db H). destruct (c db) as [[a|m] db']; cbn [snd] in *.
  - exact Hc.
  - apply Hh. exact Hc.
Qed.

Lemma Preserves_reqUser {Body} (req : Request Body) : Preserves P (reqUser req).
Proof.
  unfold reqUser. destruct (user req);
    [apply Preserves_ret | apply Preserves_throw].
Qed.

End Preservation.

(** Decomposes a goal [Preserves P c] along the structure of [c], leaving
    the collection operations. *)
Ltac preserve_step :=
  match goal with
  | |- Spec.Preserves _ (bind _ _) => apply Preserves_bind; [|intro]
  | |- Spec.Preserves _ (tryCatch _ _) => apply Preserves_tryCatch; [|intro]
  | |- Spec.Preserves _ (ret _) => apply Preserves_ret
  | |- Spec.Preserves _ (throw _) => apply Preserves_throw
  | |- Spec.Preserves _ (liftCompletion _) => apply Preserves_lift
  | |- Spec.Preserves _ (reqUser _) => apply Preserves_reqUser
  | |- Spec.Preserves _ (match ?x with _ => _ end) => destruct x
  | |- Spec.Preserves _ (let _ := _ in _) => cbv zeta
  end.

Ltac preserve := repeat preserve_step.

(** * The carbon-total invariant of the record store *)

Section CarbonTotal.

Import Spec.

Lemma preSave_CarbonInvariant doc :
  CarbonInvariant (ESGRecordModel.preSave doc).
Proof.
  unfold CarbonInvariant, ESGRecordModel.preSave.
  destruct (environmental doc) as [e|] eqn:E.
  - cbn [ESGRecordModel.set_environmental environmental
         ESGRecordModel.set_totalCarbonEmissions totalCarbonEmissions
         scope1Emissions scope2Emissions scope3Emissions].
    eexists. split; [reflexivity|].
    rewrite !orZero_value. reflexivity.
  - rewrite E. exact I.
Qed.

Lemma replaceById_Forall (Q : ESGRecord -> Prop) doc rs :
  Q doc -> Forall Q rs -> Forall Q (ESGRecordModel.replaceById doc rs).
Proof.
  intros Hdoc Hrs. unfold ESGRecordModel.replaceById.
  induction Hrs as [|r rs Hr _ IH]; cbn [map]; constructor; [|exact IH].
  destruct (ESGRecordModel.hasId (_id doc) r); assumption.
Qed.

Lemma removeById_Forall (Q : ESGRecord -> Prop) id rs :
  Forall Q rs -> Forall Q (ESGRecordModel.removeById id rs).
Proof.
  induction 1 as [|r rs Hr Hrs IH]; cbn [ESGRecordModel.removeById].
  - constructor.
  - destruct (ESGRecordModel.hasId id r); [exact Hrs|].
    constructor; assumption.
Qed.

Lemma save_preserves rt doc :
  Preserves StoreInvariant (ESGRecordModel.save rt doc).
Proof.
  intros db H. unfold ESGRecordModel.save.
  destruct (negb (ESGRecordModel.validate doc)); [exact H|].
  destruct (writeFails rt); [exact H|].
  cbn [snd]. unfold StoreInvariant. cbn [set_esgRecords esgRecords].
  apply replaceById_Forall; [apply preSave_CarbonInvariant | exact H].
Qed.

Lemma create_preserves rt d :
  Preserves StoreInvariant (ESGRecordModel.create rt d).
Proof.
  intros db H. unfold ESGRecordModel.create.
  destruct (negb (ESGRecordModel.validate _)); [exact H|].
  destruct (writeFails rt || _); [exact H|].
  cbn [snd]. unfold StoreInvariant. cbn [set_esgRecords esgRecords].
  apply Forall_app. split; [exact H|].
  constructor; [apply preSave_CarbonInvariant | constructor].
Qed.

Lemma findByIdAndDelete_preserves rt id :
  Preserves StoreInvariant (ESGRecordModel.findByIdAndDelete rt id).
Proof.
  intros db H. unfold ESGRecordModel.findByIdAndDelete.
  destruct (readFails rt || writeFails rt); [exact H|].
  destruct (find _ _); [|exact H].
  cbn [snd]. unfold StoreInvariant. cbn [set_esgRecords esgRecords].
  apply removeById_Forall. exact H.
Qed.

Lemma KeepsRecords_preserves {A} (c : Async A) :
  KeepsRecords c -> Preserves StoreInvariant c.
Proof. intros Hc db H. unfold StoreInvariant. rewrite Hc. exact H. Qed.

Lemma findById_keeps rt id : KeepsRecords (ESGRecordModel.findById rt id).
Proof.
  intros db. unfold ESGRecordModel.findById.
  destruct (readFails rt); reflexivity.
Qed.

Lemma findApproved_keeps rt org s e :
  KeepsRecords (ESGRecordModel.findApproved rt org s e).
Proof.
  intros db. unfold ESGRecordModel.findApproved.
  destruct (readFails rt); reflexivity.
Qed.

Lemma createLog_keeps rt entry : KeepsRecords (AuditService.createLog rt entry).
Proof.
  intros db.
  unfold AuditService.createLog, tryCatch, bind, AuditLogModel.create.
  destruct (negb (AuditLogModel.validate entry)); [reflexivity|].
  destruct (auditWriteFails rt); reflexivity.
Qed.

Lemma report_create_keeps rt d : KeepsRecords (ReportModel.create rt d).
Proof.
  intros db. unfold ReportModel.create.
  destruct (negb _); [reflexivity|]. destruct (writeFails rt || _); reflexivity.
Qed.

Lemma report_findById_keeps rt id : KeepsRecords (ReportModel.findById rt id).
Proof.
  intros db. unfold ReportModel.findById. destruct (readFails rt); reflexivity.
Qed.

Lemma report_save_keeps rt doc : KeepsRecords (ReportModel.save rt doc).
Proof.
  intros db. unfold ReportModel.save.
  destruct (negb _); [reflexivity|]. destruct (writeFails rt); reflexivity.
Qed.

Lemma report_delete_keeps rt id :
  KeepsRecords (ReportModel.findByIdAndDelete rt id).
Proof.
  intros db. unfold ReportModel.findByIdAndDelete.
  destruct (readFails rt || writeFails rt); [reflexivity|].
  destruct (find _ _); reflexivity.
Qed.

Lemma handle_preserves rt op : Preserves StoreInvariant (handle rt op).
Proof.
  destruct op; cbn [handle];
    unfold EsgController.createESGRecord, EsgController.updateESGRecord,
      EsgController.submitESGRecord, EsgController.approveESGRecord,
      EsgController.deleteESGRecord, ReportController.generateReport,
      ReportController.updateReportStatus, ReportController.deleteReport,
      getRecordsForPeriod,
      AuditService.logESGRecordCreated, AuditService.logESGRecordUpdated,
      AuditService.logESGRecordSubmitted, AuditService.logESGRecordApproved,
      AuditService.logReportGenerated;
    preserve;
    first
      [ apply save_preserves
      | apply create_preserves
      | apply findByIdAndDelete_preserves
      | apply KeepsRecords_preserves;
        first [ apply findById_keeps | apply findApproved_keeps
              | apply createLog_keeps | apply report_create_keeps
              | apply report_findById_keeps | apply report_save_keeps
              | apply report_delete_keeps ] ].
Qed.

(** C7.  After every persist the stored total equals the sum of the three
    scopes, a missing scope counting as 0: the document written by a save
    or by a creation carries the total the pre-save hook computes from its
    scopes, and a store in which every record satisfies the equation still
    does after any sequence of operations (creations, updates that
    overwrite the environmental sub-object, submissions, approvals,
    deletions, report operations). *)
Theorem totalCarbonEmissions_invariant :
  (forall rt doc db doc' db',
     ESGRecordModel.save rt doc db = (Normal doc', db') ->
     CarbonInvariant doc'
     /\ esgRecords db' = ESGRecordModel.replaceById doc' (esgRecords db))
  /\ (forall rt d db doc' db',
        ESGRecordModel.create rt d db = (Normal doc', db') ->
        CarbonInvariant doc' /\ esgRecords db' = (esgRecords db ++ [doc'])%list)
  /\ (forall (trace : list (Runtime * Operation)) (db : DB),
        StoreInvariant db -> StoreInvariant (run trace db)).
Proof.
  split; [|split].
  - intros rt doc db doc' db'. unfold ESGRecordModel.save.
    destruct (negb (ESGRecordModel.validate doc)); [discriminate|].
    destruct (writeFails rt); [discriminate|].
    intros H. injection H as <- <-.
    split; [apply preSave_CarbonInvariant | reflexivity].
  - intros rt d db doc' db'. unfold ESGRecordModel.create.
    destruct (negb (ESGRecordModel.validate _)); [discriminate|].
    destruct (writeFails rt || _); [discriminate|].
    intros H. injection H as <- <-.
    split; [apply preSave_CarbonInvariant | reflexivity].
  - intros trace. induction trace as [|[rt op] rest IH]; intros db H;
      cbn [run].
    + exact H.
    + apply IH. unfold step. apply handle_preserves. exact H.
Qed.

End CarbonTotal.

(** * Facts about the collection operations *)

Section Collections.

Import Spec.

Lemma find_hasId id rs r :
  find (ESGRecordModel.hasId id) rs = Some r -> _id r = id.
Proof.
  intros H. apply find_some in H. destruct H as [_ H].
  unfold ESGRecordModel.hasId in H. apply String.eqb_eq in H. exact H.
Qed.

Lemma find_replaceById doc rs r :
  find (ESGRecordModel.hasId (_id doc)) rs = Some r ->
  find (ESGRecordModel.hasId (_id doc)) (ESGRecordModel.replaceById doc rs)
  = Some doc.
Proof.
  unfold ESGRecordModel.replaceById.
  induction rs as [|x rs IH]; cbn [find map]; [discriminate|].
  destruct (ESGRecordModel.hasId (_id doc) x) eqn:E.
  - intros _. unfold ESGRecordModel.hasId at 1. rewrite String.eqb_refl.
    reflexivity.
  - rewrite E. exact IH.
Qed.

Lemma report_find_hasId id rs r :
  find (ReportModel.hasId id) rs = Some r -> Report._id r = id.
Proof.
  intros H. apply find_some in H. destruct H as [_ H].
  unfold ReportModel.hasId in H. apply String.eqb_eq in H. exact H.
Qed.

Lemma report_find_replaceById doc rs r :
  find (ReportModel.hasId (Report._id doc)) rs = Some r ->
  find (ReportModel.hasId (Report._id doc)) (ReportModel.replaceById doc rs)
  = Some doc.
Proof.
  unfold ReportModel.replaceById.
  induction rs as [|x rs IH]; cbn [find map]; [discriminate|].
  destruct (ReportModel.hasId (Report._id doc) x) eqn:E.
  - intros _. unfold ReportModel.hasId at 1. rewrite String.eqb_refl.
    reflexivity.
  - rewrite E. exact IH.
Qed.

(** Writing an audit entry always returns, and changes nothing but the
    audit trail; when the write fails it returns [null] and changes
    nothing at all. *)
Lemma createLog_returns rt entry db :
  exists log db',
    AuditService.createLog rt entry db = (Normal log, db')
    /\ SameData db db'
    /\ (auditWriteFails rt = true -> log = None /\ db' = db).
Proof.
  unfold AuditService.createLog, tryCatch, bind, ret, AuditLogModel.create.
  destruct (negb (AuditLogModel.validate entry)).
  - exists None, db. repeat split; reflexivity.
  - destruct (auditWriteFails rt).
    + exists None, db. repeat split; reflexivity.
    + eexists _, _. split; [reflexivity|].
      split; [repeat split; reflexivity | discriminate].
Qed.

Lemma SameData_refl db : SameData db db.
Proof. repeat split; reflexivity. Qed.

Lemma SameData_trans a b c : SameData a b -> SameData b c -> SameData a c.
Proof.
  intros (H1 & H2 & H3) (H4 & H5 & H6).
  repeat split; congruence.
Qed.

Lemma validate_status_change r s :
  ESGRecordModel.validate r = true ->
  inEnum s ESGRecordModel.statusEnum = true ->
  ESGRecordModel.validate (ESGRecordModel.set_status s r) = true.
Proof.
  unfold ESGRecordModel.validate.
  cbn [ESGRecordModel.set_status organization reportingPeriod environmental
       social governance status submittedBy reviewNotes].
  intros H Hs. rewrite !andb_true_iff in *. rewrite Hs. tauto.
Qed.

Lemma validate_submittedAt r t :
  ESGRecordModel.validate (ESGRecordModel.set_submittedAt t r)
  = ESGRecordModel.validate r.
Proof. reflexivity. Qed.

Lemma validate_approvedAt r t :
  ESGRecordModel.validate (ESGRecordModel.set_approvedAt t r)
  = ESGRecordModel.validate r.
Proof. reflexivity. Qed.

Lemma validate_reviewedBy r v :
  ESGRecordModel.validate (ESGRecordModel.set_reviewedBy v r)
  = ESGRecordModel.validate r.
Proof. reflexivity. Qed.

Lemma validate_reviewNotes r v :
  ESGRecordModel.validate r = true ->
  maxlengthOk 1000 v = true ->
  ESGRecordModel.validate (ESGRecordModel.set_reviewNotes v r) = true.
Proof.
  unfold ESGRecordModel.validate.
  cbn [ESGRecordModel.set_reviewNotes organization reportingPeriod
       environmental social governance status submittedBy reviewNotes].
  intros H Hv. rewrite !andb_true_iff in *. rewrite Hv. tauto.
Qed.

(** The pre-save hook touches the carbon total only. *)
Lemma preSave_fields doc :
  let doc' := ESGRecordModel.preSave doc in
  _id doc' = _id doc /\ status doc' = status doc
  /\ organization doc' = organization doc
  /\ submittedAt doc' = submittedAt doc /\ approvedAt doc' = approvedAt doc
  /\ reviewedBy doc' = reviewedBy doc /\ reviewNotes doc' = reviewNotes doc.
Proof.
  unfold ESGRecordModel.preSave.
  destruct (environmental doc); cbv zeta; repeat split; reflexivity.
Qed.

(** A save that passes validation and reaches the collection. *)
Lemma save_accepted rt doc db :
  ESGRecordModel.validate doc = true -> writeFails rt = false ->
  ESGRecordModel.save rt doc db
  = (Normal (ESGRecordModel.preSave doc),
     set_esgRecords
       (ESGRecordModel.replaceById (ESGRecordModel.preSave doc) (esgRecords db))
       db).
Proof.
  intros Hv Hw. unfold ESGRecordModel.save. rewrite Hv, Hw. reflexivity.
Qed.

Lemma findById_found rt id db :
  readFails rt = false ->
  ESGRecordModel.findById rt id db
  = (Normal (find (ESGRecordModel.hasId id) (esgRecords db)), db).
Proof. intros Hr. unfold ESGRecordModel.findById. rewrite Hr. reflexivity. Qed.

End Collections.

(** * The status guards of submission and approval *)

Section StatusGuards.

Import Spec.

Lemma accessible_guard u org :
  Accessible u org ->
  negb (String.eqb (User.role u) ROLES.ADMINISTRATOR)
  && negb (String.eqb org (User.organization u)) = false.
Proof.
  intros [H|H]; rewrite H, String.eqb_refl; cbn [negb andb];
    [reflexivity | apply andb_false_r].
Qed.

Variable rt : Runtime.
Variable db : DB.
Variable record : ESGRecord.
Hypothesis Hread : readFails rt = false.
Hypothesis Hfind :
  find (ESGRecordModel.hasId (_id record)) (esgRecords db) = Some record.

Lemma submitESGRecord_not_draft (req : Request unit) u :
  params_id req = _id record -> user req = Some u ->
  Accessible u (organization record) ->
  status record <> "draft" ->
  EsgController.submitESGRecord rt req db
  = (Normal (respond HTTP_STATUS.BAD_REQUEST
               (errorResponse "Only draft records can be submitted")), db).
Proof.
  intros Hid Hu Hacc Hst.
  unfold EsgController.submitESGRecord, tryCatch, bind.
  rewrite Hid, (findById_found rt _ db Hread), Hfind.
  unfold reqUser. rewrite Hu. cbn [ret].
  rewrite (accessible_guard u _ Hacc).
  apply String.eqb_neq in Hst. rewrite Hst. reflexivity.
Qed.

Lemma submitESGRecord_draft (req : Request unit) u :
  params_id req = _id record -> user req = Some u ->
  Accessible u (organization record) ->
  ESGRecordModel.validate record = true -> writeFails rt = false ->
  status record = "draft" ->
  let record' :=
    ESGRecordModel.preSave
      (ESGRecordModel.set_submittedAt (now rt)
         (ESGRecordModel.set_status "submitted" record)) in
  exists db',
    EsgController.submitESGRecord rt req db
    = (Normal (respond HTTP_STATUS.OK
                 (successResponse (RecordData record')
                    SUCCESS_MESSAGES.ESG_RECORD_SUBMITTED)), db')
    /\ SameData
         (set_esgRecords
            (ESGRecordModel.replaceById record' (esgRecords db)) db) db'.
Proof.
  intros Hid Hu Hacc Hval Hwrite Hst record'.
  unfold EsgController.submitESGRecord, tryCatch, bind.
  rewrite Hid, (findById_found rt _ db Hread), Hfind.
  unfold reqUser. rewrite Hu. cbn [ret].
  rewrite (accessible_guard u _ Hacc).
  rewrite Hst. cbn [String.eqb Ascii.eqb Bool.eqb negb].
  rewrite save_accepted;
    [| rewrite validate_submittedAt; apply validate_status_change;
       [exact Hval | reflexivity]
     | exact Hwrite].
  fold record'. unfold AuditService.logESGRecordSubmitted.
  match goal with
  | |- context [AuditService.createLog rt ?e ?d] =>
      destruct (createLog_returns rt e d) as (lg & db' & Hlog & Hsame & _)
  end.
  rewrite Hlog. exists db'. split; [reflexivity | exact Hsame].
Qed.

Lemma approveESGRecord_refused (req : Request EsgController.ApproveBody) :
  params_id req = _id record ->
  status record <> "submitted" -> status record <> "under_review" ->
  EsgController.approveESGRecord rt req db
  = (Normal (respond HTTP_STATUS.BAD_REQUEST
               (errorResponse
                  "Only submitted or under review records can be approved")),
     db).
Proof.
  intros Hid Hs1 Hs2.
  unfold EsgController.approveESGRecord, tryCatch, bind.
  rewrite Hid, (findById_found rt _ db Hread), Hfind.
  apply String.eqb_neq in Hs1, Hs2.
  unfold inEnum. cbn [existsb]. rewrite Hs1, Hs2. reflexivity.
Qed.

Lemma approveESGRecord_accepted (req : Request EsgController.ApproveBody) :
  params_id req = _id record ->
  maxlengthOk 1000 (EsgController.approve_reviewNotes (body req)) = true ->
  ESGRecordModel.validate record = true -> writeFails rt = false ->
  status record = "submitted" \/ status record = "under_review" ->
  exists db',
    EsgController.approveESGRecord rt req db
    = (Normal (respond HTTP_STATUS.OK
                 (successResponse (RecordData (approvedDocument rt record req))
                    SUCCESS_MESSAGES.ESG_RECORD_APPROVED)), db')
    /\ SameData
         (set_esgRecords
            (ESGRecordModel.replaceById (approvedDocument rt record req) (esgRecords db))
            db) db'.
Proof.
  intros Hid Hnotes Hval Hwrite Hst.
  unfold EsgController.approveESGRecord, tryCatch, bind.
  rewrite Hid, (findById_found rt _ db Hread), Hfind.
  assert (Hin : inEnum (status record) ["submitted"; "under_review"] = true).
  { destruct Hst as [E|E]; rewrite E; reflexivity. }
  rewrite Hin. cbn [negb].
  rewrite save_accepted; [| | exact Hwrite].
  - unfold AuditService.logESGRecordApproved.
    match goal with
    | |- context [AuditService.createLog rt ?e ?d] =>
        destruct (createLog_returns rt e d) as (lg & db' & Hlog & Hsame & _)
    end.
    rewrite Hlog. exists db'. split; [reflexivity | exact Hsame].
  - assert (Hbase :
      ESGRecordModel.validate
        (ESGRecordModel.set_approvedAt (now rt)
           (ESGRecordModel.set_reviewedBy (userId req)
              (ESGRecordModel.set_status "approved" record))) = true).
    { rewrite validate_approvedAt, validate_reviewedBy.
      apply validate_status_change; [exact Hval | reflexivity]. }
    destruct (JS.truthyStr _); [|exact Hbase].
    apply validate_reviewNotes; assumption.
Qed.

Lemma approvedDocument_fields (req : Request EsgController.ApproveBody) :
  _id (approvedDocument rt record req) = _id record
  /\ status (approvedDocument rt record req) = "approved"
  /\ reviewedBy (approvedDocument rt record req) = userId req
  /\ approvedAt (approvedDocument rt record req) = Some (now rt).
Proof.
  unfold approvedDocument. cbv zeta.
  match goal with
  | |- context [ESGRecordModel.preSave ?d] =>
      destruct (preSave_fields d) as (E1 & E2 & _ & _ & E5 & E6 & _)
  end.
  rewrite E1, E2, E5, E6.
  destruct (JS.truthyStr _); repeat split; reflexivity.
Qed.

End StatusGuards.

Section Middlewares.

Lemma substring_full s : String.substring 0 (String.length s) s = s.
Proof.
  induction s as [|c s IH]; cbn [String.substring String.length];
    [reflexivity | rewrite IH; reflexivity].
Qed.

Lemma bearer_token token :
  String.substring 7 (String.length ("Bearer " ++ token) - 7)
    ("Bearer " ++ token) = token.
Proof.
  cbn [String.append String.length Nat.sub String.substring].
  rewrite Nat.sub_0_r. apply substring_full.
Qed.

Lemma authenticate_accepts {Body} rt (req : Request Body) db token u :
  readFails rt = false ->
  authorization req = Some ("Bearer " ++ token) -> token <> "" ->
  jwtVerify rt token = Some (User._id u) ->
  find (UserModel.hasId (User._id u)) (users db) = Some u ->
  User.isActive u = true ->
  authenticate rt req db = (Normal (inl (attachUser u req)), db).
Proof.
  intros Hread Hauth Htok Hjwt Hu Hact.
  unfold authenticate, tryCatch. rewrite Hauth.
  replace (String.eqb ("Bearer " ++ token) "") with false by reflexivity.
  replace (String.prefix "Bearer " ("Bearer " ++ token)) with true
    by (symmetry; apply String.prefix_correct; destruct token; reflexivity).
  cbn [orb negb]. rewrite bearer_token.
  apply String.eqb_neq in Htok. rewrite Htok, Hjwt.
  unfold bind, UserModel.findById. rewrite Hread, Hu, Hact.
  reflexivity.
Qed.

Lemma checkRole_passes {Body} allowed rt (req : Request Body) db u :
  user req = Some u -> inEnum (User.role u) allowed = true ->
  checkRole allowed rt req db = (Normal (inl req), db).
Proof.
  intros Hu Hin. unfold checkRole, tryCatch. rewrite Hu, Hin. reflexivity.
Qed.

Lemma anyRole_passes {Body} rt (req : Request Body) db u :
  user req = Some u -> In (User.role u) User.roleEnum ->
  anyRole rt req db = (Normal (inl req), db).
Proof.
  intros Hu Hin. apply (checkRole_passes _ rt req db u Hu).
  unfold inEnum. apply existsb_exists.
  exists (User.role u). split; [exact Hin | apply String.eqb_refl].
Qed.

Lemma validateObjectId_passes {Body} rt (req : Request Body) db :
  isObjectId (params_id req) = true ->
  validateObjectId rt req db = (Normal (inl req), db).
Proof. intros H. unfold validateObjectId. rewrite H. reflexivity. Qed.

End Middlewares.

Section WorkflowClaims.

Import Spec.

(** C6.  For an existing record the caller may access, submission succeeds
    exactly when the record is a draft (the stored record becomes
    submitted, stamped with the submission time) and approval succeeds
    exactly when it is submitted or under review (the stored record becomes
    approved, reviewed by the caller, stamped with the approval time); in
    every other status the operation answers 400 and the store is
    unchanged.  Success is that of a request the schema accepts on a store
    that accepts the write. *)
Theorem submit_and_approve_status_guards
    (rt : Runtime) (db : DB) (record : ESGRecord) :
  readFails rt = false ->
  find (ESGRecordModel.hasId (_id record)) (esgRecords db) = Some record ->
  (forall (req : Request unit) (u : User.t),
     params_id req = _id record -> user req = Some u ->
     Accessible u (organization record) ->
     let result := EsgController.submitESGRecord rt req db in
     (status record <> "draft" ->
      result
      = (Normal (respond HTTP_STATUS.BAD_REQUEST
                   (errorResponse "Only draft records can be submitted")),
         db))
     /\ (ESGRecordModel.validate record = true -> writeFails rt = false ->
         (status record = "draft" ->
          exists record',
            fst result
            = Normal (respond HTTP_STATUS.OK
                        (successResponse (RecordData record')
                           SUCCESS_MESSAGES.ESG_RECORD_SUBMITTED))
            /\ status record' = "submitted"
            /\ submittedAt record' = Some (now rt)
            /\ find (ESGRecordModel.hasId (_id record))
                 (esgRecords (snd result)) = Some record')
         /\ (Succeeded (fst result) <-> status record = "draft")))
  /\ (forall (req : Request EsgController.ApproveBody),
        params_id req = _id record ->
        let result := EsgController.approveESGRecord rt req db in
        (status record <> "submitted" /\ status record <> "under_review" ->
         result
         = (Normal
              (respond HTTP_STATUS.BAD_REQUEST
                 (errorResponse
                    "Only submitted or under review records can be approved")),
            db))
        /\ (ESGRecordModel.validate record = true ->
            maxlengthOk 1000 (EsgController.approve_reviewNotes (body req))
            = true ->
            writeFails rt = false ->
            (status record = "submitted" \/ status record = "under_review" ->
             exists record',
               fst result
               = Normal (respond HTTP_STATUS.OK
                           (successResponse (RecordData record')
                              SUCCESS_MESSAGES.ESG_RECORD_APPROVED))
               /\ status record' = "approved"
               /\ reviewedBy record' = userId req
               /\ approvedAt record' = Some (now rt)
               /\ find (ESGRecordModel.hasId (_id record))
                    (esgRecords (snd result)) = Some record')
            /\ (Succeeded (fst result)
                <-> status record = "submitted"
                    \/ status record = "under_review"))).
Proof.
  intros Hread Hfind. split.
  - intros req u Hid Hu Hacc result.
    assert (Hrefuse :
      status record <> "draft" ->
      result
      = (Normal (respond HTTP_STATUS.BAD_REQUEST
                   (errorResponse "Only draft records can be submitted")),
         db)).
    { intros Hst.
      exact (submitESGRecord_not_draft rt db record Hread Hfind req u
               Hid Hu Hacc Hst). }
    split; [exact Hrefuse|].
    intros Hval Hwrite.
    assert (Haccept :
      status record = "draft" ->
      exists record',
        fst result
        = Normal (respond HTTP_STATUS.OK
                    (successResponse (RecordData record')
                       SUCCESS_MESSAGES.ESG_RECORD_SUBMITTED))
        /\ status record' = "submitted"
        /\ submittedAt record' = Some (now rt)
        /\ find (ESGRecordModel.hasId (_id record)) (esgRecords (snd result))
           = Some record').
    { intros Hst. subst result.
      destruct (submitESGRecord_draft rt db record Hread Hfind req u
                  Hid Hu Hacc Hval Hwrite Hst) as (db' & Hrun & Hsame).
      cbv zeta in Hrun, Hsame. rewrite Hrun. cbn [fst snd].
      eexists. split; [reflexivity|].
      match goal with
      | |- context [ESGRecordModel.preSave ?d] =>
          destruct (preSave_fields d) as (E1 & E2 & _ & E4 & _)
      end.
      split; [rewrite E2; reflexivity|].
      split; [rewrite E4; reflexivity|].
      destruct Hsame as (_ & Hrecs & _). rewrite <- Hrecs.
      cbn [set_esgRecords esgRecords].
      cbn [ESGRecordModel.set_submittedAt ESGRecordModel.set_status _id] in E1.
      rewrite <- E1. eapply find_replaceById. rewrite E1. exact Hfind. }
    split; [exact Haccept|].
    split.
    + intros (r & Hr & Hcode).
      destruct (String.eqb (status record) "draft") eqn:E;
        [apply String.eqb_eq in E; exact E|].
      apply String.eqb_neq in E. rewrite (Hrefuse E) in Hr.
      cbn [fst] in Hr. injection Hr as <-. discriminate Hcode.
    + intros Hst. destruct (Haccept Hst) as (record' & Hr & _).
      eexists. split; [exact Hr | reflexivity].
  - intros req Hid result.
    assert (Hrefuse :
      status record <> "submitted" /\ status record <> "under_review" ->
      result
      = (Normal
           (respond HTTP_STATUS.BAD_REQUEST
              (errorResponse
                 "Only submitted or under review records can be approved")),
         db)).
    { intros [Hs1 Hs2].
      exact (approveESGRecord_refused rt db record Hread Hfind req
               Hid Hs1 Hs2). }
    split; [exact Hrefuse|].
    intros Hval Hnotes Hwrite.
    assert (Haccept :
      status record = "submitted" \/ status record = "under_review" ->
      exists record',
        fst result
        = Normal (respond HTTP_STATUS.OK
                    (successResponse (RecordData record')
                       SUCCESS_MESSAGES.ESG_RECORD_APPROVED))
        /\ status record' = "approved"
        /\ reviewedBy record' = userId req
        /\ approvedAt record' = Some (now rt)
        /\ find (ESGRecordModel.hasId (_id record)) (esgRecords (snd result))
           = Some record').
    { intros Hst. subst result.
      destruct (approveESGRecord_accepted rt db record Hread Hfind req
                  Hid Hnotes Hval Hwrite Hst) as (db' & Hrun & Hsame).
      destruct (approvedDocument_fields rt record req) as (E1 & E2 & E3 & E4).
      rewrite Hrun. cbn [fst snd].
      exists (approvedDocument rt record req).
      split; [reflexivity|]. split; [exact E2|]. split; [exact E3|].
      split; [exact E4|].
      destruct Hsame as (_ & Hrecs & _). rewrite <- Hrecs.
      cbn [set_esgRecords esgRecords].
      rewrite <- E1. eapply find_replaceById. rewrite E1. exact Hfind. }
    split; [exact Haccept|].
    split.
    + intros (r & Hr & Hcode).
      destruct (String.eqb (status record) "submitted") eqn:E1;
        [apply String.eqb_eq in E1; left; exact E1|].
      destruct (String.eqb (status record) "under_review") eqn:E2;
        [apply String.eqb_eq in E2; right; exact E2|].
      apply String.eqb_neq in E1, E2. rewrite (Hrefuse (conj E1 E2)) in Hr.
      cbn [fst] in Hr. injection Hr as <-. discriminate Hcode.
    + intros Hst. destruct (Haccept Hst) as (record' & Hr & _).
      eexists. split; [exact Hr | reflexivity].
Qed.

Lemma submit_and_approve_status_guards_witness :
  let req := Scenario.request Fixtures.id1 tt (Some Scenario.admin) None in
  readFails Scenario.runtime = false
  /\ ESGRecordModel.validate (Scenario.stored Fixtures.id1 "draft") = true
  /\ Succeeded
       (fst (EsgController.submitESGRecord Scenario.runtime req Scenario.db))
  /\ exists record',
       fst (EsgController.submitESGRecord Scenario.runtime req Scenario.db)
       = Normal (respond HTTP_STATUS.OK
                   (successResponse (RecordData record')
                      SUCCESS_MESSAGES.ESG_RECORD_SUBMITTED))
       /\ status record' = "submitted"
       /\ submittedAt record' = Some (now Scenario.runtime)
       /\ find (ESGRecordModel.hasId Fixtures.id1)
            (esgRecords
               (snd (EsgController.submitESGRecord Scenario.runtime req
                       Scenario.db)))
          = Some record'.
Proof.
  intros req.
  pose proof (proj2
                (proj1
                   (submit_and_approve_status_guards Scenario.runtime
                      Scenario.db (Scenario.stored Fixtures.id1 "draft")
                      eq_refl eq_refl)
                   req Scenario.admin eq_refl eq_refl (or_introl eq_refl))
                eq_refl eq_refl) as [Haccept Hiff].
  split; [reflexivity|]. split; [reflexivity|].
  split; [exact (proj2 Hiff eq_refl) | exact (Haccept eq_refl)].
Defined.

(** C9.  Approval has no role and no organization precondition: a request
    authenticated as any active user, of any of the three roles and of any
    organization (the record's submitter included), approves an existing
    record that is submitted or under review; the route passes every role
    and the controller checks existence and status only. *)
Theorem approve_route_open_to_every_user
    (rt : Runtime) (db : DB) (record : ESGRecord) (u : User.t)
    (token : string) (req : Request EsgController.ApproveBody) :
  readFails rt = false -> writeFails rt = false ->
  authorization req = Some ("Bearer " ++ token) -> token <> "" ->
  jwtVerify rt token = Some (User._id u) ->
  find (UserModel.hasId (User._id u)) (users db) = Some u ->
  User.isActive u = true ->
  In (User.role u) User.roleEnum ->
  params_id req = _id record -> isObjectId (_id record) = true ->
  find (ESGRecordModel.hasId (_id record)) (esgRecords db) = Some record ->
  ESGRecordModel.validate record = true ->
  maxlengthOk 1000 (EsgController.approve_reviewNotes (body req)) = true ->
  status record = "submitted" \/ status record = "under_review" ->
  let result := EsgRoutes.post_approve rt req db in
  exists record',
    fst result
    = Normal (respond HTTP_STATUS.OK
                (successResponse (RecordData record')
                   SUCCESS_MESSAGES.ESG_RECORD_APPROVED))
    /\ status record' = "approved"
    /\ reviewedBy record' = Some (User._id u)
    /\ approvedAt record' = Some (now rt)
    /\ find (ESGRecordModel.hasId (_id record)) (esgRecords (snd result))
       = Some record'.
Proof.
  intros Hread Hwrite Hauth Htok Hjwt Hu Hact Hrole Hid Hoid Hfind Hval
         Hnotes Hst result.
  subst result. unfold EsgRoutes.post_approve. cbn [route]. unfold bind.
  rewrite (authenticate_accepts rt req db token u Hread Hauth Htok Hjwt Hu
             Hact).
  rewrite (anyRole_passes rt (attachUser u req) db u eq_refl Hrole).
  rewrite (validateObjectId_passes rt (attachUser u req) db)
    by (cbn [attachUser params_id]; rewrite Hid; exact Hoid).
  destruct (approveESGRecord_accepted rt db record Hread Hfind
              (attachUser u req) Hid Hnotes Hval Hwrite Hst)
    as (db' & Hrun & Hsame).
  destruct (approvedDocument_fields rt record (attachUser u req))
    as (E1 & E2 & E3 & E4).
  rewrite Hrun. cbn [fst snd].
  exists (approvedDocument rt record (attachUser u req)).
  split; [reflexivity|]. split; [exact E2|]. split; [exact E3|].
  split; [exact E4|].
  destruct Hsame as (_ & Hrecs & _). rewrite <- Hrecs.
  cbn [set_esgRecords esgRecords].
  rewrite <- E1. eapply find_replaceById. rewrite E1. exact Hfind.
Qed.

End WorkflowClaims.

Section ReportStatus.

Import Spec.

Lemma report_validate_update r s n :
  ReportModel.validate r = true ->
  inEnum s Report.statusEnum = true ->
  maxlengthOk 2000 n = true ->
  forall r',
    Report.reportTitle r' = Report.reportTitle r ->
    Report.organization r' = Report.organization r ->
    Report.reportType r' = Report.reportType r ->
    Report.overallScore r' = Report.overallScore r ->
    Report.generatedBy r' = Report.generatedBy r ->
    Report.status r' = s -> Report.notes r' = n ->
    ReportModel.validate r' = true.
Proof.
  intros Hv Hs Hn r' E1 E2 E3 E4 E5 E6 E7.
  unfold ReportModel.validate in *.
  rewrite E1, E2, E3, E4, E5, E6, E7.
  rewrite !andb_true_iff in *. rewrite Hs, Hn. tauto.
Qed.

Lemma statusUpdate_fields rt s n report :
  let r' := statusUpdate rt s n report in
  Report._id r' = Report._id report
  /\ Report.reportTitle r' = Report.reportTitle report
  /\ Report.organization r' = Report.organization report
  /\ Report.reportType r' = Report.reportType report
  /\ Report.overallScore r' = Report.overallScore report
  /\ Report.generatedBy r' = Report.generatedBy report
  /\ Report.status r' = s
  /\ (s = "published" -> Report.publishedAt r' = Some (now rt))
  /\ (s <> "published" -> Report.publishedAt r' = Report.publishedAt report)
  /\ Report.notes r'
     = (if JS.truthyStr n then n else Report.notes report).
Proof.
  unfold statusUpdate. cbv zeta.
  destruct (String.eqb s "published") eqn:Ep.
  - apply String.eqb_eq in Ep.
    destruct n as [v|]; [destruct (JS.truthyStr (Some v))|];
      split_all; try reflexivity; intros; congruence.
  - apply String.eqb_neq in Ep.
    destruct n as [v|]; [destruct (JS.truthyStr (Some v))|];
      split_all; try reflexivity; intros; congruence.
Qed.

Lemma inEnum_In s enum : In s enum -> inEnum s enum = true.
Proof.
  intros H. unfold inEnum. apply existsb_exists.
  exists s. split; [exact H | apply String.eqb_refl].
Qed.

(** C5, as the program has it.  [updateReportStatus] sets the status of a
    report to the requested one, whichever of draft, finalized, published
    and archived it is and whatever the current status (a backward move
    included), and a request for published stamps publishedAt with the
    current time. *)
Theorem updateReportStatus_sets_requested_status
    (rt : Runtime) (db : DB) (report : Report.t) (u : User.t) (s : string)
    (req : Request ReportController.StatusBody) :
  readFails rt = false -> writeFails rt = false ->
  params_id req = Report._id report ->
  find (ReportModel.hasId (Report._id report)) (reports db) = Some report ->
  ReportModel.validate report = true ->
  user req = Some u -> Accessible u (Report.organization report) ->
  ReportController.status (body req) = Some s -> In s Report.statusEnum ->
  maxlengthOk 2000 (ReportController.notes (body req)) = true ->
  let result := ReportController.updateReportStatus rt req db in
  exists report',
    fst result
    = Normal (respond HTTP_STATUS.OK
                (successResponse (ReportData report')
                   "Report updated successfully"))
    /\ Report.status report' = s
    /\ (s = "published" -> Report.publishedAt report' = Some (now rt))
    /\ (s <> "published" ->
        Report.publishedAt report' = Report.publishedAt report)
    /\ find (ReportModel.hasId (Report._id report)) (reports (snd result))
       = Some report'.
Proof.
  intros Hread Hwrite Hid Hfind Hval Hu Hacc Hs Hin Hnotes result.
  destruct (statusUpdate_fields rt s (ReportController.notes (body req)) report)
    as (E1 & E2 & E3 & E4 & E5 & E6 & E7 & E8 & E9 & E10).
  set (report' := statusUpdate rt s (ReportController.notes (body req)) report)
    in *.
  assert (Htruthy : JS.truthyStr (Some s) = true).
  { destruct Hin as [<-|[<-|[<-|[<-|[]]]]]; reflexivity. }
  assert (Hval' : ReportModel.validate report' = true).
  { apply (report_validate_update report s (Report.notes report') Hval
             (inEnum_In _ _ Hin)); try assumption; try reflexivity.
    rewrite E10. destruct (JS.truthyStr _); [exact Hnotes|].
    unfold ReportModel.validate in Hval. rewrite !andb_true_iff in Hval.
    tauto. }
  assert (Hrun : result
                 = (Normal (respond HTTP_STATUS.OK
                              (successResponse (ReportData report')
                                 "Report updated successfully")),
                    set_reports (ReportModel.replaceById report' (reports db))
                      db)).
  { subst result.
    unfold ReportController.updateReportStatus, tryCatch, bind.
    rewrite Hid. unfold ReportModel.findById. rewrite Hread, Hfind.
    unfold reqUser. rewrite Hu. cbn [ret].
    rewrite (accessible_guard u _ Hacc), Hs, Htruthy.
    fold (statusUpdate rt s (ReportController.notes (body req)) report).
    fold report'. unfold ReportModel.save. rewrite Hval', Hwrite.
    reflexivity. }
  rewrite Hrun. cbn [fst snd set_reports reports].
  exists report'. split; [reflexivity|]. split; [exact E7|].
  split; [exact E8|]. split; [exact E9|].
  rewrite <- E1. eapply report_find_replaceById. rewrite E1. exact Hfind.
Qed.

Lemma updateReportStatus_sets_requested_status_witness :
  readFails Scenario.runtime = false
  /\ ReportModel.validate Scenario.publishedReport = true
  /\ In "draft" Report.statusEnum
  /\ exists report',
       fst (ReportController.updateReportStatus Scenario.runtime Scenario.backToDraft
              Scenario.db)
       = Normal (respond HTTP_STATUS.OK
                   (successResponse (ReportData report')
                      "Report updated successfully"))
       /\ Report.status report' = "draft".
Proof.
  split; [reflexivity|]. split; [reflexivity|].
  split; [left; reflexivity|].
  destruct (updateReportStatus_sets_requested_status Scenario.runtime
              Scenario.db Scenario.publishedReport Scenario.admin "draft"
              Scenario.backToDraft eq_refl eq_refl eq_refl eq_refl eq_refl eq_refl
              (or_introl eq_refl) eq_refl (or_introl eq_refl) eq_refl)
    as (report' & H1 & H2 & _).
  exists report'. split; assumption.
Defined.

(** C5, as stated, fails: an administrator's request moves a published
    report back to draft. *)
Lemma status_moves_backward : ~ StatusOnlyMovesForward.
Proof.
  intros H.
  specialize (H Scenario.runtime (UpdateReportStatus Scenario.backToDraft) Scenario.db
                Fixtures.id4 Scenario.publishedReport
                (Report.set_status "draft" Scenario.publishedReport)
                2%nat 0%nat eq_refl eq_refl).
  cbn in H. specialize (H ltac:(discriminate) eq_refl eq_refl). lia.
Qed.

End ReportStatus.

Section ReportGeneration.

Import Spec.

Lemma getRecordsForPeriod_eq rt org s e db :
  getRecordsForPeriod rt org s e db
  = if readFails rt then (Throw "ESGRecord.find failed", db)
    else (Normal
            (filter
               (fun r =>
                  String.eqb (organization r) org
                  && String.eqb (status r) "approved"
                  && (s <=? createdAt r)%Z && (createdAt r <=? e)%Z)
               (esgRecords db)), db).
Proof.
  unfold getRecordsForPeriod, tryCatch, ESGRecordModel.findApproved, throw.
  destruct (readFails rt); reflexivity.
Qed.

Lemma getRecordsForPeriod_eligible rt org s e db records db' :
  getRecordsForPeriod rt org s e db = (Normal records, db') ->
  db' = db
  /\ Forall (fun r => In r (esgRecords db) /\ Eligible org s e r) records.
Proof.
  rewrite getRecordsForPeriod_eq. destruct (readFails rt); [discriminate|].
  intros H. injection H as <- <-. split; [reflexivity|].
  apply Forall_forall. intros r Hr. apply filter_In in Hr.
  destruct Hr as [Hin Hr]. split; [exact Hin|].
  rewrite !andb_true_iff in Hr. destruct Hr as [[[H1 H2] H3] H4].
  apply String.eqb_eq in H1, H2. unfold Eligible.
  split_all; try assumption; lia.
Qed.

(** C4.  When the query for the resolved period returns no record, report
    generation answers 400 and leaves the store as it is (no report, no
    audit entry); a report enters the store only when the query returned at
    least one record, each of them approved, of the organization and
    created within the window, and the report lists exactly them. *)
Theorem generateReport_refuses_empty_period
    (rt : Runtime) (req : Request ReportController.GenerateBody) (db : DB) :
  (forall s e,
     ReportController.reportWindow rt (body req) = Normal (s, e) ->
     getRecordsForPeriod rt (ReportController.organization (body req)) s e db
     = (Normal [], db) ->
     ReportController.generateReport rt req db
     = (Normal (respond HTTP_STATUS.BAD_REQUEST
                  (errorResponse
                     "No approved ESG records found for this period")), db))
  /\ (forall report,
        In report (reports (snd (ReportController.generateReport rt req db))) ->
        ~ In report (reports db) ->
        exists s e records,
          ReportController.reportWindow rt (body req) = Normal (s, e)
          /\ getRecordsForPeriod rt
               (ReportController.organization (body req)) s e db
             = (Normal records, db)
          /\ records <> []
          /\ Forall
               (Eligible (ReportController.organization (body req)) s e)
               records
          /\ Report.includedRecords report = map _id records
          /\ fst (ReportController.generateReport rt req db)
             = Normal (respond HTTP_STATUS.CREATED
                         (successResponse (ReportData report)
                            SUCCESS_MESSAGES.REPORT_GENERATED))).
Proof.
  split.
  - intros s e Hwin Hrecs.
    unfold ReportController.generateReport, tryCatch, bind, liftCompletion.
    rewrite Hwin, Hrecs. reflexivity.
  - intros report Hin Hnew.
    unfold ReportController.generateReport, tryCatch, bind, liftCompletion
      in Hin |- *.
    destruct (ReportController.reportWindow rt (body req))
      as [[s e]|m] eqn:Hwin; [|contradiction].
    destruct (getRecordsForPeriod rt
                (ReportController.organization (body req)) s e db)
      as [[records|m] db1] eqn:Hrecs.
    2:{ rewrite getRecordsForPeriod_eq in Hrecs.
        destruct (readFails rt); [|discriminate].
        injection Hrecs as _ <-. contradiction. }
    destruct (getRecordsForPeriod_eligible _ _ _ _ _ _ _ Hrecs)
      as [-> Helig].
    destruct (List.length records =? 0)%nat eqn:Hlen; [contradiction|].
    unfold ReportModel.create in Hin |- *.
    match type of Hin with
    | context [ReportModel.validate ?d] =>
        set (doc := d) in *; destruct (negb (ReportModel.validate doc))
    end; [contradiction|].
    destruct (writeFails rt || existsb _ (reports db)); [contradiction|].
    unfold AuditService.logReportGenerated in Hin |- *.
    match type of Hin with
    | context [AuditService.createLog rt ?en ?d] =>
        destruct (createLog_returns rt en d) as (lg & db' & Hlog & Hsame & _)
    end.
    rewrite Hlog in Hin |- *. cbn [snd fst ret] in Hin |- *.
    destruct Hsame as (_ & _ & Hreports). rewrite <- Hreports in Hin.
    cbn [set_reports reports] in Hin.
    apply in_app_or in Hin. destruct Hin as [Hin|[<-|[]]]; [contradiction|].
    exists s, e, records. split_all; try reflexivity.
    + exact Hrecs.
    + intros ->. discriminate Hlen.
    + eapply Forall_impl; [|exact Helig]. intros r [_ Hr]. exact Hr.
Qed.

End ReportGeneration.

(** * Independence from the audit trail *)

Section AuditIndependence.

Import Spec.

Lemma SameData_sym a b : SameData a b -> SameData b a.
Proof. intros (H1 & H2 & H3). repeat split; congruence. Qed.

Lemma AuditBlind_ret {A} (a : A) : AuditBlind (ret a) (ret a).
Proof. intros db1 db2 H. split; [reflexivity | exact H]. Qed.

Lemma AuditBlind_throw {A} m : AuditBlind (@throw A m) (@throw A m).
Proof. intros db1 db2 H. split; [reflexivity | exact H]. Qed.

Lemma AuditBlind_lift {A} (c : Completion A) :
  AuditBlind (liftCompletion c) (liftCompletion c).
Proof. intros db1 db2 H. split; [reflexivity | exact H]. Qed.

Lemma AuditBlind_reqUser {Body} (req : Request Body) :
  AuditBlind (reqUser req) (reqUser req).
Proof.
  unfold reqUser. destruct (user req);
    [apply AuditBlind_ret | apply AuditBlind_throw].
Qed.

Lemma AuditBlind_bind {A B} (c1 c2 : Async A) (k1 k2 : A -> Async B) :
  AuditBlind c1 c2 -> (forall a, AuditBlind (k1 a) (k2 a)) ->
  AuditBlind (bind c1 k1) (bind c2 k2).
Proof.
  intros Hc Hk db1 db2 H. unfold bind.
  destruct (Hc db1 db2 H) as [Hr Hs].
  destruct (c1 db1) as [[a1|m1] d1], (c2 db2) as [[a2|m2] d2];
    cbn [fst snd] in *; try discriminate.
  - injection Hr as <-. apply Hk. exact Hs.
  - injection Hr as <-. split; [reflexivity | exact Hs].
Qed.

Lemma AuditBlind_tryCatch {A} (c1 c2 : Async A) (h1 h2 : string -> Async A) :
  AuditBlind c1 c2 -> (forall m, AuditBlind (h1 m) (h2 m)) ->
  AuditBlind (tryCatch c1 h1) (tryCatch c2 h2).
Proof.
  intros Hc Hh db1 db2 H. unfold tryCatch.
  destruct (Hc db1 db2 H) as [Hr Hs].
  destruct (c1 db1) as [[a1|m1] d1], (c2 db2) as [[a2|m2] d2];
    cbn [fst snd] in *; try discriminate.
  - split; assumption.
  - injection Hr as <-. apply Hh. exact Hs.
Qed.

(** A statement [await auditService.log...(...)] whose result is not
    used. *)
Lemma AuditBlind_after_quiet {A B C} (c1 : Async A) (c2 : Async B)
    (k1 k2 : Async C) :
  Quiet c1 -> Quiet c2 -> AuditBlind k1 k2 ->
  AuditBlind (bind c1 (fun _ => k1)) (bind c2 (fun _ => k2)).
Proof.
  intros Q1 Q2 Hk db1 db2 H. unfold bind.
  destruct (Q1 db1) as (a1 & d1 & E1 & S1).
  destruct (Q2 db2) as (a2 & d2 & E2 & S2).
  rewrite E1, E2. apply Hk.
  eapply SameData_trans; [apply SameData_sym; exact S1|].
  eapply SameData_trans; [exact H | exact S2].
Qed.

Lemma createLog_quiet rt entry : Quiet (AuditService.createLog rt entry).
Proof.
  intros db. destruct (createLog_returns rt entry db) as (l & d & E & S & _).
  exists l, d. split; assumption.
Qed.

Variable rt : Runtime.
Variables b1 b2 : bool.

Ltac same_data :=
  unfold SameData;
  cbn [fst snd set_esgRecords set_reports users esgRecords reports];
  repeat split; congruence.

Lemma findById_blind id :
  AuditBlind
    (ESGRecordModel.findById (withAuditWriteFails b1 rt) id)
    (ESGRecordModel.findById (withAuditWriteFails b2 rt) id).
Proof.
  unfold ESGRecordModel.findById.
  intros db1 db2 (Hu & Hr & Hp).
  cbn [withAuditWriteFails readFails]. rewrite Hr.
  destruct (readFails rt); same_data.
Qed.

Lemma save_blind doc :
  AuditBlind
    (ESGRecordModel.save (withAuditWriteFails b1 rt) doc)
    (ESGRecordModel.save (withAuditWriteFails b2 rt) doc).
Proof.
  unfold ESGRecordModel.save.
  intros db1 db2 (Hu & Hr & Hp).
  cbn [withAuditWriteFails writeFails]. rewrite Hr.
  destruct (negb _); [|destruct (writeFails rt)];
    same_data.
Qed.

Lemma create_blind d :
  AuditBlind
    (ESGRecordModel.create (withAuditWriteFails b1 rt) d)
    (ESGRecordModel.create (withAuditWriteFails b2 rt) d).
Proof.
  unfold ESGRecordModel.create.
  intros db1 db2 (Hu & Hr & Hp).
  change (ESGRecordModel.newDocument (withAuditWriteFails b1 rt) d)
    with (ESGRecordModel.newDocument rt d).
  change (ESGRecordModel.newDocument (withAuditWriteFails b2 rt) d)
    with (ESGRecordModel.newDocument rt d).
  cbn [withAuditWriteFails writeFails]. rewrite Hr.
  destruct (negb _); [|destruct (writeFails rt || _)];
    same_data.
Qed.

Lemma findByIdAndDelete_blind id :
  AuditBlind
    (ESGRecordModel.findByIdAndDelete (withAuditWriteFails b1 rt) id)
    (ESGRecordModel.findByIdAndDelete (withAuditWriteFails b2 rt) id).
Proof.
  unfold ESGRecordModel.findByIdAndDelete.
  intros db1 db2 (Hu & Hr & Hp).
  cbn [withAuditWriteFails readFails writeFails]. rewrite Hr.
  destruct (readFails rt || writeFails rt); [|destruct (find _ _)];
    same_data.
Qed.

Lemma getRecordsForPeriod_blind org s e :
  AuditBlind
    (getRecordsForPeriod (withAuditWriteFails b1 rt) org s e)
    (getRecordsForPeriod (withAuditWriteFails b2 rt) org s e).
Proof.
  intros db1 db2 (Hu & Hr & Hp). rewrite !getRecordsForPeriod_eq.
  cbn [withAuditWriteFails readFails]. rewrite Hr.
  destruct (readFails rt); same_data.
Qed.

Lemma report_create_blind d :
  AuditBlind
    (ReportModel.create (withAuditWriteFails b1 rt) d)
    (ReportModel.create (withAuditWriteFails b2 rt) d).
Proof.
  unfold ReportModel.create.
  intros db1 db2 (Hu & Hr & Hp).
  change (ReportModel.newDocument (withAuditWriteFails b1 rt) d)
    with (ReportModel.newDocument rt d).
  change (ReportModel.newDocument (withAuditWriteFails b2 rt) d)
    with (ReportModel.newDocument rt d).
  cbn [withAuditWriteFails writeFails]. rewrite Hp.
  destruct (negb _); [|destruct (writeFails rt || _)];
    same_data.
Qed.

Lemma report_findById_blind id :
  AuditBlind
    (ReportModel.findById (withAuditWriteFails b1 rt) id)
    (ReportModel.findById (withAuditWriteFails b2 rt) id).
Proof.
  unfold ReportModel.findById.
  intros db1 db2 (Hu & Hr & Hp).
  cbn [withAuditWriteFails readFails]. rewrite Hp.
  destruct (readFails rt); same_data.
Qed.

Lemma report_save_blind doc :
  AuditBlind
    (ReportModel.save (withAuditWriteFails b1 rt) doc)
    (ReportModel.save (withAuditWriteFails b2 rt) doc).
Proof.
  unfold ReportModel.save.
  intros db1 db2 (Hu & Hr & Hp).
  cbn [withAuditWriteFails writeFails]. rewrite Hp.
  destruct (negb _); [|destruct (writeFails rt)];
    same_data.
Qed.

Lemma report_delete_blind id :
  AuditBlind
    (ReportModel.findByIdAndDelete (withAuditWriteFails b1 rt) id)
    (ReportModel.findByIdAndDelete (withAuditWriteFails b2 rt) id).
Proof.
  unfold ReportModel.findByIdAndDelete.
  intros db1 db2 (Hu & Hr & Hp).
  cbn [withAuditWriteFails readFails writeFails]. rewrite Hp.
  destruct (readFails rt || writeFails rt); [|destruct (find _ _)];
    same_data.
Qed.

Ltac blind_step :=
  match goal with
  | |- Spec.AuditBlind (bind (AuditService.createLog _ _) _)
         (bind (AuditService.createLog _ _) _) =>
      apply AuditBlind_after_quiet;
      [apply createLog_quiet | apply createLog_quiet |]
  | |- Spec.AuditBlind (bind _ _) (bind _ _) => apply AuditBlind_bind; [|intro]
  | |- Spec.AuditBlind (tryCatch _ _) (tryCatch _ _) =>
      apply AuditBlind_tryCatch; [|intro]
  | |- Spec.AuditBlind (ret _) (ret _) => apply AuditBlind_ret
  | |- Spec.AuditBlind (throw _) (throw _) => apply AuditBlind_throw
  | |- Spec.AuditBlind (liftCompletion _) (liftCompletion _) =>
      apply AuditBlind_lift
  | |- Spec.AuditBlind (reqUser _) (reqUser _) => apply AuditBlind_reqUser
  | |- Spec.AuditBlind (ESGRecordModel.findById _ _) _ => apply findById_blind
  | |- Spec.AuditBlind (ESGRecordModel.save _ _) _ => apply save_blind
  | |- Spec.AuditBlind (ESGRecordModel.create _ _) _ => apply create_blind
  | |- Spec.AuditBlind (ESGRecordModel.findByIdAndDelete _ _) _ =>
      apply findByIdAndDelete_blind
  | |- Spec.AuditBlind (getRecordsForPeriod _ _ _ _) _ =>
      apply getRecordsForPeriod_blind
  | |- Spec.AuditBlind (ReportModel.create _ _) _ => apply report_create_blind
  | |- Spec.AuditBlind (ReportModel.findById _ _) _ => apply report_findById_blind
  | |- Spec.AuditBlind (ReportModel.save _ _) _ => apply report_save_blind
  | |- Spec.AuditBlind (ReportModel.findByIdAndDelete _ _) _ =>
      apply report_delete_blind
  | |- Spec.AuditBlind (match ?x with _ => _ end) _ => destruct x
  end.

Lemma handle_blind op :
  AuditBlind (handle (withAuditWriteFails b1 rt) op)
    (handle (withAuditWriteFails b2 rt) op).
Proof.
  destruct op; cbn [handle];
    unfold EsgController.createESGRecord, EsgController.updateESGRecord,
      EsgController.submitESGRecord, EsgController.approveESGRecord,
      EsgController.deleteESGRecord, ReportController.generateReport,
      ReportController.updateReportStatus, ReportController.deleteReport,
      AuditService.logESGRecordCreated, AuditService.logESGRecordUpdated,
      AuditService.logESGRecordSubmitted, AuditService.logESGRecordApproved,
      AuditService.logReportGenerated;
    repeat blind_step.
Qed.

Lemma checkRole_blind {Body} allowed (req : Request Body) :
  AuditBlind
    (checkRole allowed (withAuditWriteFails b1 rt) req)
    (checkRole allowed (withAuditWriteFails b2 rt) req).
Proof.
  unfold checkRole, AuditService.logUnauthorizedAccess, send, next.
  cbv zeta. repeat blind_step.
Qed.

End AuditIndependence.

Section RemainingClaims.

Import Spec.

(** C8.  A failure while writing an audit entry stays inside the audit
    service: [createLog] returns (with [null] when the write failed, the
    store untouched) instead of throwing, and every operation, as well as
    the role check that records refused accesses, gives the same response
    and leaves the same users, records and reports whether the audit
    collection accepts or rejects the write.  The same holds of any
    statement [await auditService.log...(...)] followed by code that does not
    read the audit trail, which is how every caller uses the service. *)
Theorem audit_failure_never_reaches_the_caller (rt : Runtime) :
  (forall entry db,
     exists log db',
       AuditService.createLog rt entry db = (Normal log, db')
       /\ SameData db db'
       /\ (auditWriteFails rt = true -> log = None /\ db' = db))
  /\ (forall op db,
        let written := handle (withAuditWriteFails false rt) op db in
        let failed := handle (withAuditWriteFails true rt) op db in
        fst written = fst failed /\ SameData (snd written) (snd failed))
  /\ (forall Body allowedRoles (req : Request Body) db,
        let written :=
          checkRole allowedRoles (withAuditWriteFails false rt) req db in
        let failed :=
          checkRole allowedRoles (withAuditWriteFails true rt) req db in
        fst written = fst failed /\ SameData (snd written) (snd failed))
  /\ (forall C entry (rest : Async C) db,
        AuditBlind rest rest ->
        let written :=
          (AuditService.createLog (withAuditWriteFails false rt) entry ;;;
           rest) db in
        let failed :=
          (AuditService.createLog (withAuditWriteFails true rt) entry ;;;
           rest) db in
        fst written = fst failed /\ SameData (snd written) (snd failed)).
Proof.
  split_all.
  - intros entry db. apply createLog_returns.
  - intros op db. cbv zeta.
    apply (handle_blind rt false true op db db (SameData_refl db)).
  - intros Body allowedRoles req db. cbv zeta.
    apply (checkRole_blind rt false true allowedRoles req db db
             (SameData_refl db)).
  - intros C entry rest db Hrest. cbv zeta.
    apply (AuditBlind_after_quiet _ _ rest rest
             (createLog_quiet _ entry) (createLog_quiet _ entry) Hrest
             db db (SameData_refl db)).
Qed.

Lemma audit_failure_never_reaches_the_caller_witness :
  let req := Scenario.request Fixtures.id1 tt (Some Scenario.admin) None in
  let failing := withAuditWriteFails true Scenario.runtime in
  auditWriteFails failing = true
  /\ fst (handle (withAuditWriteFails false Scenario.runtime)
            (SubmitESGRecord req) Scenario.db)
     = fst (handle failing (SubmitESGRecord req) Scenario.db).
Proof.
  intros req failing. split; [reflexivity|].
  exact (proj1
           (proj1 (proj2 (audit_failure_never_reaches_the_caller
                            Scenario.runtime))
              (SubmitESGRecord req) Scenario.db)).
Defined.

Example submit_under_audit_failure :
  let req := Scenario.request Fixtures.id1 tt (Some Scenario.admin) None in
  let result :=
    EsgController.submitESGRecord
      (withAuditWriteFails true Scenario.runtime) req Scenario.db in
  option_map statusCode
    (match fst result with Normal r => Some r | Throw _ => None end)
  = Some 200%Z
  /\ map status (esgRecords (snd result))
     = ["submitted"; "submitted"; "approved"]
  /\ auditLogs (snd result) = [].
Proof. cbv zeta. split_all; reflexivity. Qed.

Lemma generateReport_refuses_empty_period_witness :
  let req :=
    Scenario.request "" (Scenario.generateBody "quarterly" (Some 2%Z))
      (Some Scenario.admin) None in
  ReportController.reportWindow Scenario.runtime (body req)
  = Normal (Scenario.calendar 2024 3 1 0 0 0,
            Scenario.calendar 2024 6 0 23 59 59)
  /\ getRecordsForPeriod Scenario.runtime "Acme"
       (Scenario.calendar 2024 3 1 0 0 0)
       (Scenario.calendar 2024 6 0 23 59 59) Scenario.db
     = (Normal [], Scenario.db)
  /\ ReportController.generateReport Scenario.runtime req Scenario.db
     = (Normal (respond HTTP_STATUS.BAD_REQUEST
                  (errorResponse
                     "No approved ESG records found for this period")),
        Scenario.db).
Proof.
  intros req. split; [reflexivity|]. split; [reflexivity|].
  exact (proj1
           (generateReport_refuses_empty_period Scenario.runtime req
              Scenario.db)
           _ _ eq_refl eq_refl).
Defined.

Example generateReport_first_quarter :
  let req :=
    Scenario.request "" (Scenario.generateBody "quarterly" (Some 1%Z))
      (Some Scenario.admin) None in
  let result :=
    ReportController.generateReport Scenario.runtime req Scenario.db in
  map Report.includedRecords (reports (snd result))
  = [[Fixtures.id3]; [Fixtures.id3]]
  /\ map Report.status (reports (snd result)) = ["published"; "draft"].
Proof. cbv zeta. split; reflexivity. Qed.

Lemma approve_route_open_to_every_user_witness :
  let req :=
    Scenario.request Fixtures.id2
      {| EsgController.approve_reviewNotes := None |} None
      (Some "Bearer token-of-analyst") in
  User.role Scenario.analyst = ROLES.ESG_ANALYST
  /\ User.organization Scenario.analyst
     <> organization (Scenario.stored Fixtures.id2 "submitted")
  /\ submittedBy (Scenario.stored Fixtures.id2 "submitted")
     = User._id Scenario.analyst
  /\ exists record',
       fst (EsgRoutes.post_approve Scenario.runtime req Scenario.db)
       = Normal (respond HTTP_STATUS.OK
                   (successResponse (RecordData record')
                      SUCCESS_MESSAGES.ESG_RECORD_APPROVED))
       /\ status record' = "approved"
       /\ reviewedBy record' = Some (User._id Scenario.analyst).
Proof.
  intros req. split; [reflexivity|]. split; [discriminate|].
  split; [reflexivity|].
  destruct (approve_route_open_to_every_user Scenario.runtime Scenario.db
              (Scenario.stored Fixtures.id2 "submitted") Scenario.analyst
              "token-of-analyst" req
              eq_refl eq_refl eq_refl ltac:(discriminate) eq_refl eq_refl
              eq_refl (or_intror (or_introl eq_refl)) eq_refl eq_refl eq_refl
              eq_refl eq_refl (or_introl eq_refl))
    as (record' & H1 & H2 & H3 & _).
  exists record'. split_all; assumption.
Defined.

Lemma totalCarbonEmissions_invariant_witness :
  StoreInvariant emptyDB
  /\ StoreInvariant (run Scenario.createThenOverwrite emptyDB).
Proof.
  assert (H : StoreInvariant emptyDB) by constructor.
  split; [exact H|].
  exact (proj2 (proj2 totalCarbonEmissions_invariant)
           Scenario.createThenOverwrite emptyDB H).
Defined.

Example createThenOverwrite_totals :
  map (fun r => option_map totalCarbonEmissions (environmental r))
    (esgRecords (run [(Scenario.runtime, Scenario.createOp)] emptyDB))
  = [Some (Some 60)]
  /\ map (fun r => option_map totalCarbonEmissions (environmental r))
       (esgRecords (run Scenario.createThenOverwrite emptyDB))
     = [Some (Some 7)].
Proof. split; reflexivity. Qed.

End RemainingClaims.


(** * More on rounding and percentages *)

Section RoundingMore.

Import Spec Props.

Lemma pow10_pos d : 0 < JS.Math_pow 10 d.
Proof. unfold JS.Math_pow. apply Qpower_0_lt. reflexivity. Qed.

Lemma Qfloor_half k : Qfloor (inject_Z k + (1 # 2)) = k.
Proof.
  pose proof (Qfloor_le (inject_Z k + (1 # 2))) as Hlo.
  pose proof (Qlt_floor (inject_Z k + (1 # 2))) as Hhi.
  set (f := Qfloor (inject_Z k + (1 # 2))) in *.
  rewrite inject_Z_plus in Hhi. change (inject_Z 1) with 1 in Hhi.
  assert (H1 : (f < k + 1)%Z).
  { rewrite Zlt_Qlt, inject_Z_plus. change (inject_Z 1) with 1. lra. }
  assert (H2 : (k < f + 1)%Z).
  { rewrite Zlt_Qlt, inject_Z_plus. change (inject_Z 1) with 1. lra. }
  lia.
Qed.


(** X2.  Rounding a value that is already rounded changes nothing. *)
Theorem roundToDecimal_idempotent (x : Q) (d : Z) :
  roundToDecimal (roundToDecimal x d) d == roundToDecimal x d.
Proof.
  pose proof (pow10_pos d) as Hp.
  unfold roundToDecimal at 1. unfold JS.Math_round.
  set (p := JS.Math_pow 10 d) in *.
  assert (E : roundToDecimal x d * p
              == inject_Z (JS.Math_round (x * p))).
  { unfold roundToDecimal. fold p. field. lra. }
  assert (F : Qfloor (roundToDecimal x d * p + (1 # 2))
              = JS.Math_round (x * p)).
  { rewrite <- (Qfloor_half (JS.Math_round (x * p))).
    apply Qfloor_comp. rewrite E. reflexivity. }
  rewrite F. unfold roundToDecimal. fold p. reflexivity.
Qed.

Lemma roundToDecimal_le (x y : Q) (d : Z) :
  x <= y -> roundToDecimal x d <= roundToDecimal y d.
Proof.
  intros Hxy. pose proof (pow10_pos d) as Hp.
  unfold roundToDecimal, JS.Math_round.
  set (p := JS.Math_pow 10 d) in *.
  assert (Hk : (Qfloor (x * p + (1 # 2)) <= Qfloor (y * p + (1 # 2)))%Z).
  { apply Qfloor_resp_le.
    assert (x * p <= y * p) by (apply Qmult_le_compat_r; lra). lra. }
  rewrite Zle_Qle in Hk. unfold Qdiv.
  apply Qmult_le_compat_r; [exact Hk|].
  apply Qlt_le_weak, Qinv_lt_0_compat. exact Hp.
Qed.

(** X3.  Rounding keeps the order of its arguments. *)
Theorem roundToDecimal_monotone (x y : Q) (d : Z) :
  x <= y -> roundToDecimal x d <= roundToDecimal y d.
Proof. apply roundToDecimal_le. Qed.

Lemma roundToDecimal_monotone_witness :
  (1 # 3) <= (1 # 2) /\ roundToDecimal (1 # 3) 2 <= roundToDecimal (1 # 2) 2.
Proof.
  split; [discriminate|].
  apply (roundToDecimal_monotone (1 # 3) (1 # 2) 2). discriminate.
Defined.

Example roundToDecimal_negative_tie :
  roundToDecimal (- (25 # 1000)) 2 == - (2 # 100)
  /\ roundToDecimal (25 # 1000) 2 == 3 # 100
  /\ roundToDecimal (12345 # 1000) 1 == 123 # 10
  /\ roundToDecimal 1234 (-2) == 1200.
Proof. split_all; reflexivity. Qed.

Lemma calculatePercentage_bounds (part total : Q) :
  (total == 0 -> calculatePercentage part total 2 == 0)
  /\ (0 <= part -> part <= total -> 0 < total ->
      InRange (calculatePercentage part total 2)).
Proof.
  unfold calculatePercentage. split.
  - intros H. apply Qeq_bool_iff in H. rewrite H. reflexivity.
  - intros H0 H1 Ht.
    destruct (Qeq_bool total 0) eqn:E.
    + unfold InRange. lra.
    + apply roundToDecimal_range. unfold InRange.
      assert (Hi : 0 < / total) by (apply Qinv_lt_0_compat; exact Ht).
      assert (Ha : 0 <= part * / total)
        by (apply Qmult_le_0_compat; lra).
      assert (Hb : part * / total <= total * / total)
        by (apply Qmult_le_compat_r; lra).
      assert (Hc : total * / total == 1) by (field; lra).
      unfold Qdiv. split; lra.
Qed.

(** X4.  A percentage of a part within its total lies in [0,100], and the
    percentage of an empty total is 0 instead of a division by zero. *)
Theorem calculatePercentage_range (part total : Q) :
  (total == 0 -> calculatePercentage part total 2 == 0)
  /\ (0 <= part -> part <= total -> 0 < total ->
      InRange (calculatePercentage part total 2)).
Proof. apply calculatePercentage_bounds. Qed.

Lemma calculatePercentage_range_witness :
  0 <= 2 /\ 2 <= 8 /\ 0 < 8 /\ InRange (calculatePercentage 2 8 2).
Proof.
  split; [discriminate|]. split; [discriminate|]. split; [reflexivity|].
  apply (proj2 (calculatePercentage_range 2 8)); [discriminate | discriminate | reflexivity].
Defined.

End RoundingMore.


(** * More on the aggregation engine *)

Section AggregationMore.

Import Spec Props ESGCalculationService.

Lemma socField_orZero (f : Social -> option Q) r :
  f emptySocial = None ->
  JS.orZero (f (orEmpty emptySocial (social r))) == socField f r.
Proof.
  intros Hf. rewrite orZero_value. unfold socField.
  destruct (social r); simpl; [reflexivity|].
  rewrite Hf. reflexivity.
Qed.

Lemma fold_socialStep rs : forall acc,
  let t := fold_left socialStep rs acc in
  diversityRatioAcc t
  == diversityRatioAcc acc + sumOver (socField diversityRatio) rs
  /\ healthIncidents t
     == healthIncidents acc + sumOver (socField healthAndSafetyIncidents) rs
  /\ trainingHours t
     == trainingHours acc + sumOver (socField trainingHoursPerEmployee) rs
  /\ turnoverRate t
     == turnoverRate acc + sumOver (socField employeeTurnoverRate) rs
  /\ communityInvestmentAcc t
     == communityInvestmentAcc acc + sumOver (socField communityInvestment) rs
  /\ femalePercentage t
     == femalePercentage acc
        + sumOver (socField femaleEmployeesPercentage) rs.
Proof.
  induction rs as [|r rs IH]; intros acc; cbn [fold_left sumOver].
  - cbv zeta. split_all; lra.
  - specialize (IH (socialStep acc r)). cbv zeta in IH |- *.
    destruct IH as (H1 & H2 & H3 & H4 & H5 & H6).
    cbn [socialStep diversityRatioAcc healthIncidents trainingHours
         turnoverRate communityInvestmentAcc femalePercentage] in *.
    pose proof (socField_orZero diversityRatio r eq_refl).
    pose proof (socField_orZero healthAndSafetyIncidents r eq_refl).
    pose proof (socField_orZero trainingHoursPerEmployee r eq_refl).
    pose proof (socField_orZero employeeTurnoverRate r eq_refl).
    pose proof (socField_orZero communityInvestment r eq_refl).
    pose proof (socField_orZero femaleEmployeesPercentage r eq_refl).
    split_all; lra.
Qed.



Example aggregate_social_four_records :
  let out := aggregateSocialMetrics Fixtures.fourRecords in
  Summary.averageDiversityRatio out == 40
  /\ Summary.totalHealthAndSafetyIncidents out == 4
  /\ Summary.totalCommunityInvestment out == 4000.
Proof. cbv zeta. split_all; reflexivity. Qed.

(** ** Bounds of the summaries *)

Lemma minOk_value v : minOk 0 v = true -> 0 <= valueOr0 v.
Proof.
  destruct v as [x|]; cbn [minOk valueOr0]; [|intros _; lra].
  intros H. apply Qle_bool_iff in H. exact H.
Qed.

Lemma maxOk_value v : maxOk 100 v = true -> valueOr0 v <= 100.
Proof.
  destruct v as [x|]; cbn [maxOk valueOr0]; [|intros _; lra].
  intros H. apply Qle_bool_iff in H. exact H.
Qed.

Lemma envField_value (f : Environmental -> option Q) r :
  f emptyEnvironmental = None ->
  envField f r = valueOr0 (f (orEmpty emptyEnvironmental (environmental r))).
Proof.
  intros Hf. unfold envField. destruct (environmental r); cbn [orEmpty];
    [reflexivity | rewrite Hf; reflexivity].
Qed.

Lemma socField_value (f : Social -> option Q) r :
  f emptySocial = None ->
  socField f r = valueOr0 (f (orEmpty emptySocial (social r))).
Proof.
  intros Hf. unfold socField. destruct (social r); cbn [orEmpty];
    [reflexivity | rewrite Hf; reflexivity].
Qed.

Lemma govField_value (f : Governance -> option Q) r :
  f emptyGovernance = None ->
  govField f r = valueOr0 (f (orEmpty emptyGovernance (governance r))).
Proof.
  intros Hf. unfold govField. destruct (governance r); cbn [orEmpty];
    [reflexivity | rewrite Hf; reflexivity].
Qed.

Lemma sumOver_nonneg f rs :
  Forall (fun r => 0 <= f r) rs -> 0 <= sumOver f rs.
Proof.
  induction 1 as [|r rs Hr _ IH]; cbn [sumOver]; lra.
Qed.

Lemma sumOver_le_100 f rs :
  Forall (fun r => f r <= 100) rs -> sumOver f rs <= 100 * count rs.
Proof.
  unfold count.
  induction 1 as [|r rs Hr _ IH]; cbn [sumOver List.length].
  - change (inject_Z (Z.of_nat 0)) with 0. lra.
  - rewrite inject_count_succ. lra.
Qed.

Lemma count_positive rs : rs <> [] -> 0 < count rs.
Proof.
  intros Hne. pose proof (count_nonzero rs Hne) as Hnz.
  assert (0 <= count rs).
  { unfold count. change 0 with (inject_Z 0). rewrite <- Zle_Qle. lia. }
  apply Qle_lt_or_eq in H. destruct H as [H|H]; [exact H|].
  exfalso. apply Hnz. symmetry. exact H.
Qed.

Lemma roundToDecimal_nonneg x : 0 <= x -> 0 <= roundToDecimal x 2.
Proof.
  intros H. apply (roundToDecimal_le 0 x 2) in H.
  assert (E : roundToDecimal 0 2 == 0) by reflexivity. lra.
Qed.

Lemma mean_range s n :
  0 < n -> 0 <= s -> s <= 100 * n -> InRange (s / n).
Proof.
  intros Hn H0 H1. unfold InRange, Qdiv.
  assert (Hi : 0 < / n) by (apply Qinv_lt_0_compat; exact Hn).
  assert (Ha : 0 <= s * / n) by (apply Qmult_le_0_compat; lra).
  assert (Hb : s * / n <= 100 * n * / n)
    by (apply Qmult_le_compat_r; lra).
  assert (Hc : 100 * n * / n == 100) by (field; lra).
  split; lra.
Qed.


Ltac pick_validator :=
  let e := fresh in
  let H := fresh in
  intros e H;
  unfold ESGRecordModel.validEnvironmental, ESGRecordModel.validSocial,
    ESGRecordModel.validGovernance in H;
  rewrite !andb_true_iff in H; tauto.

Lemma validate_parts r :
  ESGRecordModel.validate r = true ->
  ESGRecordModel.validEnvironmental
    (orEmpty emptyEnvironmental (environmental r)) = true
  /\ ESGRecordModel.validSocial (orEmpty emptySocial (social r)) = true
  /\ ESGRecordModel.validGovernance
       (orEmpty emptyGovernance (governance r)) = true.
Proof.
  unfold ESGRecordModel.validate. rewrite !andb_true_iff. tauto.
Qed.

Lemma valid_envField_min f rs :
  f emptyEnvironmental = None ->
  (forall e, ESGRecordModel.validEnvironmental e = true ->
             minOk 0 (f e) = true) ->
  Forall (fun r => ESGRecordModel.validate r = true) rs ->
  Forall (fun r => 0 <= envField f r) rs.
Proof.
  intros Hf Hsel. apply Forall_impl. intros r Hr.
  rewrite (envField_value f r Hf). apply minOk_value, Hsel.
  apply (validate_parts r Hr).
Qed.

Lemma valid_envField_max f rs :
  f emptyEnvironmental = None ->
  (forall e, ESGRecordModel.validEnvironmental e = true ->
             maxOk 100 (f e) = true) ->
  Forall (fun r => ESGRecordModel.validate r = true) rs ->
  Forall (fun r => envField f r <= 100) rs.
Proof.
  intros Hf Hsel. apply Forall_impl. intros r Hr.
  rewrite (envField_value f r Hf). apply maxOk_value, Hsel.
  apply (validate_parts r Hr).
Qed.

Lemma valid_socField_min f rs :
  f emptySocial = None ->
  (forall e, ESGRecordModel.validSocial e = true -> minOk 0 (f e) = true) ->
  Forall (fun r => ESGRecordModel.validate r = true) rs ->
  Forall (fun r => 0 <= socField f r) rs.
Proof.
  intros Hf Hsel. apply Forall_impl. intros r Hr.
  rewrite (socField_value f r Hf). apply minOk_value, Hsel.
  apply (validate_parts r Hr).
Qed.

Lemma valid_socField_max f rs :
  f emptySocial = None ->
  (forall e, ESGRecordModel.validSocial e = true -> maxOk 100 (f e) = true) ->
  Forall (fun r => ESGRecordModel.validate r = true) rs ->
  Forall (fun r => socField f r <= 100) rs.
Proof.
  intros Hf Hsel. apply Forall_impl. intros r Hr.
  rewrite (socField_value f r Hf). apply maxOk_value, Hsel.
  apply (validate_parts r Hr).
Qed.

Lemma valid_govField_min f rs :
  f emptyGovernance = None ->
  (forall e, ESGRecordModel.validGovernance e = true ->
             minOk 0 (f e) = true) ->
  Forall (fun r => ESGRecordModel.validate r = true) rs ->
  Forall (fun r => 0 <= govField f r) rs.
Proof.
  intros Hf Hsel. apply Forall_impl. intros r Hr.
  rewrite (govField_value f r Hf). apply minOk_value, Hsel.
  apply (validate_parts r Hr).
Qed.

Lemma valid_govField_max f rs :
  f emptyGovernance = None ->
  (forall e, ESGRecordModel.validGovernance e = true ->
             maxOk 100 (f e) = true) ->
  Forall (fun r => ESGRecordModel.validate r = true) rs ->
  Forall (fun r => govField f r <= 100) rs.
Proof.
  intros Hf Hsel. apply Forall_impl. intros r Hr.
  rewrite (govField_value f r Hf). apply maxOk_value, Hsel.
  apply (validate_parts r Hr).
Qed.

Lemma rounded_mean_nonneg s n :
  0 < n -> 0 <= s -> 0 <= roundToDecimal (s / n) 2.
Proof.
  intros Hn H0. apply roundToDecimal_nonneg. unfold Qdiv.
  apply Qmult_le_0_compat; [exact H0|].
  apply Qlt_le_weak, Qinv_lt_0_compat. exact Hn.
Qed.

Lemma rounded_mean_range s n :
  0 < n -> 0 <= s -> s <= 100 * n -> InRange (roundToDecimal (s / n) 2).
Proof.
  intros Hn H0 H1. apply roundToDecimal_range, mean_range; assumption.
Qed.

Lemma compliantCount_le rs :
  (Z.of_nat (compliantCount rs) <= Z.of_nat (List.length rs))%Z.
Proof.
  unfold compliantCount. apply Nat2Z.inj_le, filter_length_le.
Qed.

(** X6.  Records that pass the schema give summaries within the schema's
    bounds: every total is non-negative and every average of a percentage
    field, as well as the compliance rate, lies in [0,100].  The recycling
    rate is non-negative (it has no upper bound: the schema does not relate
    the waste recycled to the waste generated). *)
Theorem summaries_within_bounds (records : list ESGRecord) :
  records <> [] ->
  Forall (fun r => ESGRecordModel.validate r = true) records ->
  let env := aggregateEnvironmentalMetrics records in
  let soc := aggregateSocialMetrics records in
  let gov := aggregateGovernanceMetrics records in
  (0 <= Summary.totalScope1Emissions env
   /\ 0 <= Summary.totalScope2Emissions env
   /\ 0 <= Summary.totalScope3Emissions env
   /\ 0 <= Summary.totalCarbonEmissions env
   /\ InRange (Summary.averageRenewableEnergyPercentage env)
   /\ 0 <= Summary.totalEnergyConsumption env
   /\ 0 <= Summary.totalWaterUsage env
   /\ 0 <= Summary.wasteRecyclingRate env)
  /\ (InRange (Summary.averageDiversityRatio soc)
      /\ 0 <= Summary.totalHealthAndSafetyIncidents soc
      /\ 0 <= Summary.averageTrainingHours soc
      /\ InRange (Summary.averageTurnoverRate soc)
      /\ 0 <= Summary.totalCommunityInvestment soc
      /\ InRange (Summary.averageFemaleEmployeesPercentage soc))
  /\ (InRange (Summary.averageBoardIndependence gov)
      /\ InRange (Summary.complianceRate gov)
      /\ 0 <= Summary.totalWhistleblowerCases gov
      /\ 0 <= Summary.totalDataBreaches gov
      /\ InRange (Summary.averageFemaleDirectorsPercentage gov)).
Proof.
  intros Hne Hvalid env soc gov.
  pose proof (count_positive records Hne) as Hn.
  assert (Hlen := length_nonzero records Hne).
  split; [|split].
  - destruct (fold_envStep records envInit)
      as (H1 & H2 & H3 & H4 & H5 & H6 & H7 & H8).
    cbn [envInit scope1 scope2 scope3 renewableEnergy energyConsumptionAcc
         waterUsageAcc wasteGeneratedAcc wasteRecycledAcc] in *.
    pose proof (sumOver_nonneg _ _
      (valid_envField_min scope1Emissions records eq_refl
         ltac:(pick_validator) Hvalid)) as B1.
    pose proof (sumOver_nonneg _ _
      (valid_envField_min scope2Emissions records eq_refl
         ltac:(pick_validator) Hvalid)) as B2.
    pose proof (sumOver_nonneg _ _
      (valid_envField_min scope3Emissions records eq_refl
         ltac:(pick_validator) Hvalid)) as B3.
    pose proof (sumOver_nonneg _ _
      (valid_envField_min renewableEnergyPercentage records eq_refl
         ltac:(pick_validator) Hvalid)) as B4.
    pose proof (sumOver_le_100 _ _
      (valid_envField_max renewableEnergyPercentage records eq_refl
         ltac:(pick_validator) Hvalid)) as B4'.
    pose proof (sumOver_nonneg _ _
      (valid_envField_min energyConsumption records eq_refl
         ltac:(pick_validator) Hvalid)) as B5.
    pose proof (sumOver_nonneg _ _
      (valid_envField_min waterUsage records eq_refl
         ltac:(pick_validator) Hvalid)) as B6.
    pose proof (sumOver_nonneg _ _
      (valid_envField_min wasteGenerated records eq_refl
         ltac:(pick_validator) Hvalid)) as B7.
    pose proof (sumOver_nonneg _ _
      (valid_envField_min wasteRecycled records eq_refl
         ltac:(pick_validator) Hvalid)) as B8.
    subst env. unfold aggregateEnvironmentalMetrics. rewrite Hlen.
    cbn [Summary.totalScope1Emissions Summary.totalScope2Emissions
         Summary.totalScope3Emissions Summary.totalCarbonEmissions
         Summary.averageRenewableEnergyPercentage
         Summary.totalEnergyConsumption Summary.totalWaterUsage
         Summary.wasteRecyclingRate].
    set (t := fold_left envStep records envInit) in *.
    split_all; try (apply roundToDecimal_nonneg; lra).
    + unfold calculateTotalEmissions. apply roundToDecimal_nonneg.
      rewrite !orZero_value. cbn [valueOr0]. lra.
    + unfold recordCount. fold (count records).
      apply rounded_mean_range; [exact Hn | lra | lra].
    + unfold calculateWasteRecyclingRate, JS.falsyNum, calculatePercentage.
      rewrite orb_diag.
      destruct (Qeq_bool (wasteGeneratedAcc t) 0) eqn:E; [lra|].
      assert (Hnz : ~ wasteGeneratedAcc t == 0).
      { intros Heq. apply Qeq_bool_iff in Heq. congruence. }
      apply roundToDecimal_nonneg. rewrite orZero_value. cbn [valueOr0].
      assert (Hi : 0 < / wasteGeneratedAcc t).
      { apply Qinv_lt_0_compat.
        assert (0 <= wasteGeneratedAcc t) by lra.
        apply Qle_lt_or_eq in H. destruct H as [H|H]; [exact H|].
        exfalso. apply Hnz. symmetry. exact H. }
      assert (0 <= wasteRecycledAcc t * / wasteGeneratedAcc t)
        by (apply Qmult_le_0_compat; lra).
      unfold Qdiv. lra.
  - destruct (fold_socialStep records socialInit)
      as (H1 & H2 & H3 & H4 & H5 & H6).
    cbn [socialInit diversityRatioAcc healthIncidents trainingHours
         turnoverRate communityInvestmentAcc femalePercentage] in *.
    pose proof (sumOver_nonneg _ _
      (valid_socField_min diversityRatio records eq_refl
         ltac:(pick_validator) Hvalid)) as B1.
    pose proof (sumOver_le_100 _ _
      (valid_socField_max diversityRatio records eq_refl
         ltac:(pick_validator) Hvalid)) as B1'.
    pose proof (sumOver_nonneg _ _
      (valid_socField_min healthAndSafetyIncidents records eq_refl
         ltac:(pick_validator) Hvalid)) as B2.
    pose proof (sumOver_nonneg _ _
      (valid_socField_min trainingHoursPerEmployee records eq_refl
         ltac:(pick_validator) Hvalid)) as B3.
    pose proof (sumOver_nonneg _ _
      (valid_socField_min employeeTurnoverRate records eq_refl
         ltac:(pick_validator) Hvalid)) as B4.
    pose proof (sumOver_le_100 _ _
      (valid_socField_max employeeTurnoverRate records eq_refl
         ltac:(pick_validator) Hvalid)) as B4'.
    pose proof (sumOver_nonneg _ _
      (valid_socField_min communityInvestment records eq_refl
         ltac:(pick_validator) Hvalid)) as B5.
    pose proof (sumOver_nonneg _ _
      (valid_socField_min femaleEmployeesPercentage records eq_refl
         ltac:(pick_validator) Hvalid)) as B6.
    pose proof (sumOver_le_100 _ _
      (valid_socField_max femaleEmployeesPercentage records eq_refl
         ltac:(pick_validator) Hvalid)) as B6'.
    subst soc. unfold aggregateSocialMetrics. rewrite Hlen.
    cbn [Summary.averageDiversityRatio Summary.totalHealthAndSafetyIncidents
         Summary.averageTrainingHours Summary.averageTurnoverRate
         Summary.totalCommunityInvestment
         Summary.averageFemaleEmployeesPercentage].
    set (t := fold_left socialStep records socialInit) in *.
    unfold recordCount. fold (count records).
    split_all;
      try (apply rounded_mean_range; [exact Hn | lra | lra]);
      try (apply rounded_mean_nonneg; [exact Hn | lra]);
      try (apply roundToDecimal_nonneg); lra.
  - destruct (fold_govStep records govInit) as (H1 & H2 & H3 & H4 & H5).
    cbn [govInit boardIndependenceAcc compliant whistleblower
         dataBreachesAcc femaleDirectors] in *.
    pose proof (sumOver_nonneg _ _
      (valid_govField_min boardIndependence records eq_refl
         ltac:(pick_validator) Hvalid)) as B1.
    pose proof (sumOver_le_100 _ _
      (valid_govField_max boardIndependence records eq_refl
         ltac:(pick_validator) Hvalid)) as B1'.
    pose proof (sumOver_nonneg _ _
      (valid_govField_min whistleblowerCases records eq_refl
         ltac:(pick_validator) Hvalid)) as B3.
    pose proof (sumOver_nonneg _ _
      (valid_govField_min dataBreaches records eq_refl
         ltac:(pick_validator) Hvalid)) as B4.
    pose proof (sumOver_nonneg _ _
      (valid_govField_min femaleDirectorsPercentage records eq_refl
         ltac:(pick_validator) Hvalid)) as B5.
    pose proof (sumOver_le_100 _ _
      (valid_govField_max femaleDirectorsPercentage records eq_refl
         ltac:(pick_validator) Hvalid)) as B5'.
    assert (C0 : 0 <= inject_Z (Z.of_nat (compliantCount records))).
    { change 0 with (inject_Z 0). rewrite <- Zle_Qle. lia. }
    assert (C1 : inject_Z (Z.of_nat (compliantCount records))
                 <= count records).
    { unfold count. rewrite <- Zle_Qle. apply compliantCount_le. }
    subst gov. unfold aggregateGovernanceMetrics. rewrite Hlen.
    cbn [Summary.averageBoardIndependence Summary.complianceRate
         Summary.totalWhistleblowerCases Summary.totalDataBreaches
         Summary.averageFemaleDirectorsPercentage].
    set (t := fold_left govStep records govInit) in *.
    unfold recordCount. fold (count records).
    split_all;
      try (apply rounded_mean_range; [exact Hn | lra | lra]); try lra.
    apply (proj2 (calculatePercentage_bounds (compliant t) (count records)));
      lra.
Qed.

Lemma summaries_within_bounds_witness :
  Fixtures.fourRecords <> []
  /\ Forall (fun r => ESGRecordModel.validate r = true) Fixtures.fourRecords
  /\ InRange
       (Summary.averageRenewableEnergyPercentage
          (aggregateEnvironmentalMetrics Fixtures.fourRecords))
  /\ InRange
       (Summary.complianceRate
          (aggregateGovernanceMetrics Fixtures.fourRecords)).
Proof.
  assert (Hv : Forall (fun r => ESGRecordModel.validate r = true)
                 Fixtures.fourRecords)
    by (repeat constructor).
  pose proof (summaries_within_bounds Fixtures.fourRecords
                ltac:(discriminate) Hv) as (He & _ & Hg).
  split; [discriminate|]. split; [exact Hv|].
  split; [exact (proj1 (proj2 (proj2 (proj2 (proj2 He)))))
         | exact (proj1 (proj2 Hg))].
Defined.

Example recycling_rate_above_100 :
  let records :=
    [Fixtures.record Fixtures.id1 "approved" (Fixtures.env 1 1 1 1 2)
       (Fixtures.gov "compliant")] in
  Forall (fun r => ESGRecordModel.validate r = true) records
  /\ Summary.wasteRecyclingRate (aggregateEnvironmentalMetrics records)
     == 200.
Proof. cbv zeta. split; [repeat constructor | reflexivity]. Qed.

(** ** Scores *)

Lemma clamp_le x y :
  x <= y ->
  JS.Math_min 100 (JS.Math_max 0 x) <= JS.Math_min 100 (JS.Math_max 0 y).
Proof.
  intros H. unfold JS.Math_min, JS.Math_max.
  apply Q.min_le_compat_l, Q.max_le_compat_l. exact H.
Qed.

Lemma clamp_low x : x <= 0 -> JS.Math_min 100 (JS.Math_max 0 x) == 0.
Proof.
  intros H. rewrite clamp_minmax. unfold clamp.
  apply Qle_bool_iff in H. rewrite H. reflexivity.
Qed.

Lemma clamp_high x : 100 <= x -> JS.Math_min 100 (JS.Math_max 0 x) == 100.
Proof.
  intros H. rewrite clamp_minmax. unfold clamp.
  destruct (Qle_bool x 0) eqn:E.
  - apply Qle_bool_iff in E. lra.
  - apply Qle_bool_iff in H. rewrite H. reflexivity.
Qed.

(** X7.  The scores never improve when the summaries get worse: with no fewer
    emissions, incidents and breaches and no more diversity, training,
    board independence and compliance, each of the four scores is at most
    what it was. *)
Theorem calculateOverallScores_monotone
    (e1 e2 : Summary.Environmental) (s1 s2 : Summary.Social)
    (g1 g2 : Summary.Governance) :
  NoBetter e1 s1 g1 e2 s2 g2 ->
  let before := calculateOverallScores e1 s1 g1 in
  let after := calculateOverallScores e2 s2 g2 in
  Summary.environmentalScore after <= Summary.environmentalScore before
  /\ Summary.socialScore after <= Summary.socialScore before
  /\ Summary.governanceScore after <= Summary.governanceScore before
  /\ Summary.totalScore after <= Summary.totalScore before.
Proof.
  intros (H1 & H2 & H3 & H4 & H5 & H6 & H7) before after.
  subst before after. unfold calculateOverallScores.
  cbn [Summary.environmentalScore Summary.socialScore
       Summary.governanceScore Summary.totalScore].
  assert (He :
    100 - Summary.totalCarbonEmissions e2 / 10000 * 100
    <= 100 - Summary.totalCarbonEmissions e1 / 10000 * 100).
  { unfold Qdiv. change (/ 10000) with (1 # 10000). lra. }
  assert (Hs :
    (Summary.averageDiversityRatio s2
     + (100 - Summary.totalHealthAndSafetyIncidents s2)
     + Summary.averageTrainingHours s2) / 3
    <= (Summary.averageDiversityRatio s1
        + (100 - Summary.totalHealthAndSafetyIncidents s1)
        + Summary.averageTrainingHours s1) / 3).
  { unfold Qdiv. change (/ 3) with (1 # 3). lra. }
  assert (Hg :
    (Summary.averageBoardIndependence g2 + Summary.complianceRate g2
     + (100 - Summary.totalDataBreaches g2 * 10)) / 3
    <= (Summary.averageBoardIndependence g1 + Summary.complianceRate g1
        + (100 - Summary.totalDataBreaches g1 * 10)) / 3).
  { unfold Qdiv. change (/ 3) with (1 # 3). lra. }
  apply clamp_le in He, Hs, Hg.
  split_all; try (apply roundToDecimal_le; assumption).
  apply roundToDecimal_le.
  unfold Qdiv in *. change (/ 3) with (1 # 3) in *.
  change (/ 10000) with (1 # 10000) in *. lra.
Qed.

Lemma calculateOverallScores_monotone_witness :
  let better := aggregateEnvironmentalMetrics Fixtures.fourRecords in
  let soc := aggregateSocialMetrics Fixtures.fourRecords in
  let gov := aggregateGovernanceMetrics Fixtures.fourRecords in
  NoBetter better soc gov Cases.heavyEmitter soc gov
  /\ Summary.totalScore (calculateOverallScores Cases.heavyEmitter soc gov)
     <= Summary.totalScore (calculateOverallScores better soc gov).
Proof.
  intros better soc gov.
  assert (H : NoBetter better soc gov Cases.heavyEmitter soc gov).
  { unfold NoBetter. split_all; apply Qle_bool_iff; reflexivity. }
  split; [exact H|].
  apply (calculateOverallScores_monotone better Cases.heavyEmitter soc soc
           gov gov H).
Defined.

(** X8.  The scores saturate: 10000 units of emissions or more give an
    environmental score of 0 and none give 100; incidents that outweigh
    100 + diversity + training give a social score of 0; breaches whose
    tenfold outweighs 100 + board independence + compliance give a
    governance score of 0. *)
Theorem calculateOverallScores_saturation
    (e : Summary.Environmental) (s : Summary.Social) (g : Summary.Governance) :
  let out := calculateOverallScores e s g in
  (10000 <= Summary.totalCarbonEmissions e ->
   Summary.environmentalScore out == 0)
  /\ (Summary.totalCarbonEmissions e <= 0 ->
      Summary.environmentalScore out == 100)
  /\ (100 + Summary.averageDiversityRatio s + Summary.averageTrainingHours s
      <= Summary.totalHealthAndSafetyIncidents s ->
      Summary.socialScore out == 0)
  /\ (100 + Summary.averageBoardIndependence g + Summary.complianceRate g
      <= Summary.totalDataBreaches g * 10 ->
      Summary.governanceScore out == 0).
Proof.
  intros out. subst out. unfold calculateOverallScores.
  cbn [Summary.environmentalScore Summary.socialScore
       Summary.governanceScore].
  assert (R0 : roundToDecimal 0 2 == 0) by reflexivity.
  assert (R100 : roundToDecimal 100 2 == 100) by reflexivity.
  split_all; intros H.
  - rewrite (roundToDecimal_compat _ 0); [exact R0|].
    apply clamp_low. unfold Qdiv. change (/ 10000) with (1 # 10000). lra.
  - rewrite (roundToDecimal_compat _ 100); [exact R100|].
    apply clamp_high. unfold Qdiv. change (/ 10000) with (1 # 10000). lra.
  - rewrite (roundToDecimal_compat _ 0); [exact R0|].
    apply clamp_low. unfold Qdiv. change (/ 3) with (1 # 3). lra.
  - rewrite (roundToDecimal_compat _ 0); [exact R0|].
    apply clamp_low. unfold Qdiv. change (/ 3) with (1 # 3). lra.
Qed.

Lemma calculateOverallScores_saturation_witness :
  10000 <= Summary.totalCarbonEmissions Cases.heavyEmitter
  /\ Summary.environmentalScore
       (calculateOverallScores Cases.heavyEmitter Fixtures.socSummary
          Fixtures.govSummary) == 0.
Proof.
  assert (H : 10000 <= Summary.totalCarbonEmissions Cases.heavyEmitter)
    by (apply Qle_bool_iff; reflexivity).
  split; [exact H|].
  exact (proj1 (calculateOverallScores_saturation Cases.heavyEmitter
                  Fixtures.socSummary Fixtures.govSummary) H).
Defined.


End AggregationMore.


(** * Period resolution and report generation *)

Section PeriodAndGeneration.

Import Spec Props.

Lemma outOfRange_false n lo hi :
  (0 < lo)%Z ->
  outOfRange n lo hi = false <-> exists v, n = Some v /\ (lo <= v <= hi)%Z.
Proof.
  intros Hlo. unfold outOfRange. destruct n as [v|].
  - rewrite !orb_false_iff, Z.eqb_neq, Z.ltb_ge, Z.gtb_ltb, Z.ltb_ge.
    split.
    + intros [[H1 H2] H3]. exists v. split; [reflexivity | lia].
    + intros (w & E & H). injection E as <-. lia.
  - split; [discriminate | intros (v & E & _); discriminate].
Qed.

Lemma getDateRange_returns rt type y q m :
  (exists w, getDateRange rt type y q m = Normal w)
  <-> type = "annual"
      \/ (type = "quarterly" /\ exists v, q = Some v /\ (1 <= v <= 4)%Z)
      \/ (type = "monthly" /\ exists v, m = Some v /\ (1 <= v <= 12)%Z).
Proof.
  unfold getDateRange.
  destruct (String.eqb type "annual") eqn:Ea.
  { apply String.eqb_eq in Ea. split; [intros _; left; exact Ea|].
    intros _. eexists. reflexivity. }
  apply String.eqb_neq in Ea.
  destruct (String.eqb type "quarterly") eqn:Eq.
  { apply String.eqb_eq in Eq. subst type.
    destruct q as [v|].
    - destruct (outOfRange (Some v) 1 4) eqn:Eo.
      + split; [intros [w H]; discriminate|].
        intros [H|[[_ (v' & E & Hr)]|[H _]]]; try discriminate.
        injection E as <-.
        assert (Hf : outOfRange (Some v) 1 4 = false)
          by (apply outOfRange_false; [lia | exists v; split; [reflexivity | exact Hr]]).
        congruence.
      + split; [|intros _; eexists; reflexivity].
        intros _. right. left. split; [reflexivity|].
        apply outOfRange_false in Eo; [exact Eo | lia].
    - split; [intros [w H]; discriminate|].
      intros [H|[[_ (v' & E & _)]|[H _]]]; discriminate. }
  apply String.eqb_neq in Eq.
  destruct (String.eqb type "monthly") eqn:Em.
  { apply String.eqb_eq in Em. subst type.
    destruct m as [v|].
    - destruct (outOfRange (Some v) 1 12) eqn:Eo.
      + split; [intros [w H]; discriminate|].
        intros [H|[[H _]|[_ (v' & E & Hr)]]]; try discriminate.
        injection E as <-.
        assert (Hf : outOfRange (Some v) 1 12 = false)
          by (apply outOfRange_false; [lia | exists v; split; [reflexivity | exact Hr]]).
        congruence.
      + split; [|intros _; eexists; reflexivity].
        intros _. right. right. split; [reflexivity|].
        apply outOfRange_false in Eo; [exact Eo | lia].
    - split; [intros [w H]; discriminate|].
      intros [H|[[H _]|[_ (v' & E & _)]]]; discriminate. }
  apply String.eqb_neq in Em.
  split; [intros [w H]; discriminate|].
  intros [H|[[H _]|[H _]]]; contradiction.
Qed.

Lemma getDateRange_message rt type y q m msg :
  getDateRange rt type y q m = Throw msg ->
  msg = "Valid quarter (1-4) is required for quarterly reports"
  \/ msg = "Valid month (1-12) is required for monthly reports"
  \/ msg = "Invalid report type".
Proof.
  unfold getDateRange.
  destruct (String.eqb type "annual"); [discriminate|].
  destruct (String.eqb type "quarterly").
  { destruct q as [v|]; [destruct (outOfRange (Some v) 1 4)|];
      intros H; try discriminate; injection H as <-; left; reflexivity. }
  destruct (String.eqb type "monthly").
  { destruct m as [v|]; [destruct (outOfRange (Some v) 1 12)|];
      intros H; try discriminate; injection H as <-; right; left;
      reflexivity. }
  intros H. injection H as <-. right. right. reflexivity.
Qed.

Lemma reportWindow_returns rt b :
  (exists w, ReportController.reportWindow rt b = Normal w)
  <-> ValidPeriodSpec b.
Proof.
  unfold ReportController.reportWindow, ValidPeriodSpec.
  pose proof (getDateRange_returns rt (ReportController.reportType b)
                (ReportController.year b) (ReportController.quarter b)
                (ReportController.month b)) as G.
  destruct (String.eqb (ReportController.reportType b) "custom") eqn:Ec.
  - apply String.eqb_eq in Ec.
    destruct (ReportController.startDate b) as [s|],
             (ReportController.endDate b) as [e|].
    + split; [|intros _; eexists; reflexivity].
      intros _. left. split; [exact Ec|]. split; discriminate.
    + rewrite G, Ec. split.
      * intros [H|[[H _]|[H _]]]; discriminate.
      * intros [(_ & _ & H)|[H|[[H _]|[H _]]]];
          [contradiction | discriminate..].
    + rewrite G, Ec. split.
      * intros [H|[[H _]|[H _]]]; discriminate.
      * intros [(_ & H & _)|[H|[[H _]|[H _]]]];
          [contradiction | discriminate..].
    + rewrite G, Ec. split.
      * intros [H|[[H _]|[H _]]]; discriminate.
      * intros [(_ & H & _)|[H|[[H _]|[H _]]]];
          [contradiction | discriminate..].
  - apply String.eqb_neq in Ec.
    split.
    + intros H. right. apply G. exact H.
    + intros [(H & _)|H]; [contradiction|]. apply G. exact H.
Qed.

(** X9.  A report request whose period cannot be resolved (an unknown type,
    a quarter outside 1..4, a month outside 1..12, a custom type lacking one
    of its two dates) is answered 500 with the message of the error, and the
    store stays as it is; the period is resolved exactly for the valid
    specifications. *)
Theorem generateReport_unresolved_period
    (rt : Runtime) (req : Request ReportController.GenerateBody) (db : DB) :
  ((exists w, ReportController.reportWindow rt (body req) = Normal w)
   <-> ValidPeriodSpec (body req))
  /\ (forall m,
        ReportController.reportWindow rt (body req) = Throw m ->
        ReportController.generateReport rt req db
        = (refusal HTTP_STATUS.INTERNAL_SERVER_ERROR m, db)
        /\ (m = "Valid quarter (1-4) is required for quarterly reports"
            \/ m = "Valid month (1-12) is required for monthly reports"
            \/ m = "Invalid report type")).
Proof.
  split; [apply reportWindow_returns|].
  intros m Hm.
  assert (Hmsg : m = "Valid quarter (1-4) is required for quarterly reports"
                 \/ m = "Valid month (1-12) is required for monthly reports"
                 \/ m = "Invalid report type").
  { unfold ReportController.reportWindow in Hm.
    destruct (String.eqb _ "custom"), (ReportController.startDate (body req)),
      (ReportController.endDate (body req));
      try discriminate; eapply getDateRange_message; exact Hm. }
  split; [|exact Hmsg].
  unfold ReportController.generateReport, tryCatch, bind, liftCompletion.
  rewrite Hm. unfold ret, refusal.
  destruct Hmsg as [-> | [-> | ->]]; reflexivity.
Qed.

End PeriodAndGeneration.


(** * Report generation, the successful path *)

Section GenerationSucceeds.

Import Spec Props.

(** What [createLog] does, in one equation: the entry is appended when it
    passes the schema and the collection accepts it, and dropped otherwise. *)
Lemma createLog_eq rt e db :
  AuditService.createLog rt e db
  = if AuditLogModel.validate e && negb (auditWriteFails rt)
    then (Normal (Some e), set_auditLogs (auditLogs db ++ [e]) db)
    else (Normal None, db).
Proof.
  unfold AuditService.createLog, tryCatch, bind, ret, AuditLogModel.create.
  destruct (AuditLogModel.validate e); [|reflexivity].
  destruct (auditWriteFails rt); reflexivity.
Qed.

Lemma createLog_esgRecords rt e db :
  esgRecords (snd (AuditService.createLog rt e db)) = esgRecords db.
Proof.
  rewrite createLog_eq.
  destruct (AuditLogModel.validate e && negb (auditWriteFails rt));
    reflexivity.
Qed.


Lemma createLog_normal rt e db :
  exists log, fst (AuditService.createLog rt e db) = Normal log.
Proof.
  rewrite createLog_eq.
  destruct (AuditLogModel.validate e && negb (auditWriteFails rt));
    eexists; reflexivity.
Qed.



End GenerationSucceeds.


(** * Invariants of the store under every operation *)

Section HandleInvariant.

Import Spec.

Variable P : DB -> Prop.

Hypothesis Hsave : forall rt doc, Preserves P (ESGRecordModel.save rt doc).
Hypothesis Hcreate : forall rt d, Preserves P (ESGRecordModel.create rt d).
Hypothesis Hdelete :
  forall rt id, Preserves P (ESGRecordModel.findByIdAndDelete rt id).
Hypothesis Hreport_create :
  forall rt d, Preserves P (ReportModel.create rt d).
Hypothesis Hreport_save : forall rt doc, Preserves P (ReportModel.save rt doc).
Hypothesis Hreport_delete :
  forall rt id, Preserves P (ReportModel.findByIdAndDelete rt id).
Hypothesis Hlog : forall rt e, Preserves P (AuditService.createLog rt e).

Lemma findById_invariant rt id : Preserves P (ESGRecordModel.findById rt id).
Proof.
  intros db H. unfold ESGRecordModel.findById.
  destruct (readFails rt); exact H.
Qed.

Lemma findApproved_invariant rt org s e :
  Preserves P (ESGRecordModel.findApproved rt org s e).
Proof.
  intros db H. unfold ESGRecordModel.findApproved.
  destruct (readFails rt); exact H.
Qed.

Lemma report_findById_invariant rt id :
  Preserves P (ReportModel.findById rt id).
Proof.
  intros db H. unfold ReportModel.findById.
  destruct (readFails rt); exact H.
Qed.

Lemma handle_invariant rt op : Preserves P (handle rt op).
Proof.
  destruct op; cbn [handle];
    unfold EsgController.createESGRecord, EsgController.updateESGRecord,
      EsgController.submitESGRecord, EsgController.approveESGRecord,
      EsgController.deleteESGRecord, ReportController.generateReport,
      ReportController.updateReportStatus, ReportController.deleteReport,
      getRecordsForPeriod,
      AuditService.logESGRecordCreated, AuditService.logESGRecordUpdated,
      AuditService.logESGRecordSubmitted, AuditService.logESGRecordApproved,
      AuditService.logReportGenerated;
    preserve;
    first
      [ apply Hsave | apply Hcreate | apply Hdelete | apply Hreport_create
      | apply Hreport_save | apply Hreport_delete | apply Hlog
      | apply findById_invariant | apply findApproved_invariant
      | apply report_findById_invariant ].
Qed.

Lemma run_invariant trace : forall db, P db -> P (run trace db).
Proof.
  induction trace as [|[rt op] rest IH]; intros db H; cbn [run].
  - exact H.
  - apply IH. unfold step. apply handle_invariant. exact H.
Qed.

End HandleInvariant.

Section SchemaValidity.

Import Spec Props.

(** The total the pre-save hook writes passes the schema: the three scopes of
    a validated document are present and not negative. *)
Lemma validate_preSave doc :
  ESGRecordModel.validate doc = true ->
  ESGRecordModel.validate (ESGRecordModel.preSave doc) = true.
Proof.
  intros H. unfold ESGRecordModel.preSave.
  destruct (environmental doc) as [env|] eqn:E; [|exact H].
  unfold ESGRecordModel.validate in *.
  cbn [ESGRecordModel.set_environmental organization reportingPeriod
       environmental social governance status submittedBy reviewNotes orEmpty].
  rewrite E in H. cbn [orEmpty] in H.
  rewrite !andb_true_iff in H.
  destruct H as [[[[[[[H1 H2] H3] H4] H5] H6] H7] H8].
  rewrite H1, H2, H4, H5, H6, H7, H8. cbn [andb].
  rewrite !andb_true_r.
  unfold ESGRecordModel.validEnvironmental in *.
  cbn [ESGRecordModel.set_totalCarbonEmissions scope1Emissions
       scope2Emissions scope3Emissions totalCarbonEmissions energyConsumption
       renewableEnergyPercentage waterUsage wasteGenerated wasteRecycled].
  rewrite !andb_true_iff in H3.
  destruct H3 as [[[[[[[[[[[[R1 M1] R2] M2] R3] M3] _] A1] A2] A3] A4] A5] A6].
  rewrite R1, M1, R2, M2, R3, M3, A1, A2, A3, A4, A5, A6. cbn [andb].
  rewrite !andb_true_r.
  unfold minOk at 1. apply Qle_bool_iff.
  rewrite !orZero_value.
  destruct (scope1Emissions env) as [x1|]; [|discriminate].
  destruct (scope2Emissions env) as [x2|]; [|discriminate].
  destruct (scope3Emissions env) as [x3|]; [|discriminate].
  cbn [minOk valueOr0] in *.
  apply Qle_bool_iff in M1, M2, M3. lra.
Qed.

Lemma save_AllValid rt doc : Preserves AllValid (ESGRecordModel.save rt doc).
Proof.
  intros db H. unfold ESGRecordModel.save.
  destruct (ESGRecordModel.validate doc) eqn:V; [|exact H].
  cbn [negb]. destruct (writeFails rt); [exact H|].
  cbn [snd]. unfold AllValid. cbn [set_esgRecords esgRecords].
  apply replaceById_Forall; [apply validate_preSave; exact V | exact H].
Qed.

Lemma create_AllValid rt d : Preserves AllValid (ESGRecordModel.create rt d).
Proof.
  intros db H. unfold ESGRecordModel.create.
  destruct (ESGRecordModel.validate (ESGRecordModel.newDocument rt d)) eqn:V;
    [|exact H].
  cbn [negb]. destruct (writeFails rt || _); [exact H|].
  cbn [snd]. unfold AllValid. cbn [set_esgRecords esgRecords].
  apply Forall_app. split; [exact H|].
  constructor; [apply validate_preSave; exact V | constructor].
Qed.

Lemma delete_AllValid rt id :
  Preserves AllValid (ESGRecordModel.findByIdAndDelete rt id).
Proof.
  intros db H. unfold ESGRecordModel.findByIdAndDelete.
  destruct (readFails rt || writeFails rt); [exact H|].
  destruct (find _ _); [|exact H].
  cbn [snd]. unfold AllValid. cbn [set_esgRecords esgRecords].
  apply removeById_Forall. exact H.
Qed.

Lemma KeepsRecords_AllValid {A} (c : Async A) :
  KeepsRecords c -> Preserves AllValid c.
Proof. intros Hc db H. unfold AllValid. rewrite Hc. exact H. Qed.

(** X20.  A store in which every record passes the record schema still is one
    after any sequence of operations.  The schema is checked before the
    pre-save hook writes the carbon total, so the stored document is not the
    validated one; it passes all the same, the total being a sum of three
    scopes that were checked to be present and not negative.  Hence an update
    can never leave a negative emission, a percentage above 100 or an unknown
    status in the store. *)
Theorem stored_records_stay_valid
    (trace : list (Runtime * Operation)) (db : DB) :
  AllValid db -> AllValid (run trace db).
Proof.
  apply run_invariant.
  - apply save_AllValid.
  - apply create_AllValid.
  - apply delete_AllValid.
  - intros rt d. apply KeepsRecords_AllValid, report_create_keeps.
  - intros rt d. apply KeepsRecords_AllValid, report_save_keeps.
  - intros rt d. apply KeepsRecords_AllValid, report_delete_keeps.
  - intros rt d. apply KeepsRecords_AllValid, createLog_keeps.
Qed.

Lemma stored_records_stay_valid_witness :
  AllValid Scenario.db
  /\ AllValid (run Scenario.createThenOverwrite Scenario.db).
Proof.
  assert (H : AllValid Scenario.db).
  { unfold AllValid, Scenario.db. cbn [esgRecords].
    repeat constructor. }
  split; [exact H|].
  exact (stored_records_stay_valid Scenario.createThenOverwrite Scenario.db H).
Defined.

End SchemaValidity.

Section AuditTrail.

Import Spec Props.

Variable base : list AuditLog.t.

Lemma AuditExtends_refl db : auditLogs db = base -> AuditExtends base db.
Proof. intros H. exists []. rewrite app_nil_r. exact H. Qed.

Lemma keeps_AuditExtends {A} (c : Async A) :
  (forall db, auditLogs (snd (c db)) = auditLogs db) ->
  Preserves (AuditExtends base) c.
Proof. intros Hc db [l H]. exists l. rewrite Hc. exact H. Qed.

Lemma createLog_AuditExtends rt e :
  Preserves (AuditExtends base) (AuditService.createLog rt e).
Proof.
  intros db [l H]. rewrite createLog_eq.
  destruct (AuditLogModel.validate e && negb (auditWriteFails rt));
    cbn [snd].
  - exists (l ++ [e])%list. cbn [set_auditLogs auditLogs].
    rewrite H, app_assoc. reflexivity.
  - exists l. exact H.
Qed.

Lemma handle_AuditExtends rt op : Preserves (AuditExtends base) (handle rt op).
Proof.
  apply handle_invariant.
  - intros r doc. apply keeps_AuditExtends. intros db.
    unfold ESGRecordModel.save. destruct (negb _); [reflexivity|].
    destruct (writeFails r); reflexivity.
  - intros r d. apply keeps_AuditExtends. intros db.
    unfold ESGRecordModel.create. destruct (negb _); [reflexivity|].
    destruct (writeFails r || _); reflexivity.
  - intros r id. apply keeps_AuditExtends. intros db.
    unfold ESGRecordModel.findByIdAndDelete.
    destruct (readFails r || writeFails r); [reflexivity|].
    destruct (find _ _); reflexivity.
  - intros r d. apply keeps_AuditExtends. intros db.
    unfold ReportModel.create. destruct (negb _); [reflexivity|].
    destruct (writeFails r || _); reflexivity.
  - intros r doc. apply keeps_AuditExtends. intros db.
    unfold ReportModel.save. destruct (negb _); [reflexivity|].
    destruct (writeFails r); reflexivity.
  - intros r id. apply keeps_AuditExtends. intros db.
    unfold ReportModel.findByIdAndDelete.
    destruct (readFails r || writeFails r); [reflexivity|].
    destruct (find _ _); reflexivity.
  - apply createLog_AuditExtends.
Qed.

End AuditTrail.

Section AuditTrailClaims.

Import Spec Props.

(** X22.  The audit trail only grows.  Whatever sequence of operations runs
    (deletions of records and reports included), the trail it leaves begins
    with the trail it found: no entry is removed, changed or reordered. *)
Theorem audit_trail_append_only
    (trace : list (Runtime * Operation)) (db : DB) :
  exists added, auditLogs (run trace db) = (auditLogs db ++ added)%list.
Proof.
  revert db. induction trace as [|[rt op] rest IH]; intros db; cbn [run].
  - exists []. rewrite app_nil_r. reflexivity.
  - destruct (handle_AuditExtends (auditLogs db) rt op db
                (AuditExtends_refl _ db eq_refl)) as [l1 H1].
    destruct (IH (step rt op db)) as [l2 H2].
    exists (l1 ++ l2)%list. rewrite H2. unfold step. rewrite H1.
    rewrite app_assoc. reflexivity.
Qed.

End AuditTrailClaims.


(** * The collections are kept apart *)

Ltac primitive_keeps :=
  intros;
  unfold ESGRecordModel.save, ESGRecordModel.create,
    ESGRecordModel.findByIdAndDelete, ESGRecordModel.findById,
    ESGRecordModel.findApproved, ReportModel.create, ReportModel.save,
    ReportModel.findByIdAndDelete, ReportModel.findById,
    AuditService.createLog, AuditLogModel.create, tryCatch, bind, ret;
  repeat match goal with
         | |- context [if ?c then _ else _] => destruct c
         | |- context [match find ?f ?l with _ => _ end] => destruct (find f l)
         end;
  cbn [snd set_users set_esgRecords set_reports set_auditLogs
       users esgRecords reports auditLogs];
  assumption.

Section Separation.

Import Spec.

Lemma handle_keeps_users rt op db :
  users (snd (handle rt op db)) = users db.
Proof.
  apply (handle_invariant (fun d => users d = users db));
    try (intros ? ? d Hd; primitive_keeps).
  reflexivity.
Qed.

Lemma record_operations_keep_reports rt op db :
  match op with
  | GenerateReport _ | UpdateReportStatus _ | DeleteReport _ => True
  | _ => reports (snd (handle rt op db)) = reports db
  end.
Proof.
  destruct op; try exact I; cbn [handle];
    match goal with
    | |- reports (snd (?c db)) = _ =>
        cut (Preserves (fun d => reports d = reports db) c);
          [intros H; apply H; reflexivity|]
    end;
    unfold EsgController.createESGRecord, EsgController.updateESGRecord,
      EsgController.submitESGRecord, EsgController.approveESGRecord,
      EsgController.deleteESGRecord,
      AuditService.logESGRecordCreated, AuditService.logESGRecordUpdated,
      AuditService.logESGRecordSubmitted, AuditService.logESGRecordApproved;
    preserve; intros d Hd; primitive_keeps.
Qed.

Lemma report_operations_keep_records rt op db :
  match op with
  | GenerateReport _ | UpdateReportStatus _ | DeleteReport _ =>
      esgRecords (snd (handle rt op db)) = esgRecords db
  | _ => True
  end.
Proof.
  destruct op; try exact I; cbn [handle];
    match goal with
    | |- esgRecords (snd (?c db)) = _ =>
        cut (Preserves (fun d => esgRecords d = esgRecords db) c);
          [intros H; apply H; reflexivity|]
    end;
    unfold ReportController.generateReport,
      ReportController.updateReportStatus, ReportController.deleteReport,
      getRecordsForPeriod, AuditService.logReportGenerated;
    preserve; intros d Hd; primitive_keeps.
Qed.

(** X21.  No operation on a record touches a report, no operation on a report
    touches a record, and none touches the users.  In particular a generated
    report is a snapshot: updating or deleting a record it lists changes
    neither its summaries nor its list of included records. *)
Theorem collections_are_separate (rt : Runtime) (op : Operation) (db : DB) :
  users (step rt op db) = users db
  /\ match op with
     | GenerateReport _ | UpdateReportStatus _ | DeleteReport _ =>
         esgRecords (step rt op db) = esgRecords db
     | _ => reports (step rt op db) = reports db
     end.
Proof.
  unfold step. split; [apply handle_keeps_users|].
  pose proof (record_operations_keep_reports rt op db) as H1.
  pose proof (report_operations_keep_records rt op db) as H2.
  destruct op; assumption.
Qed.

End Separation.

(** * Creating, updating and deleting records *)

Section RecordOperations.

Import Spec Props.

Variable rt : Runtime.
Variable db : DB.

Lemma applyAllowedUpdates_fields b record :
  let record' := EsgController.applyAllowedUpdates b record in
  _id record' = _id record
  /\ organization record' = organization record
  /\ reportingPeriod record' = reportingPeriod record
  /\ submittedBy record' = submittedBy record
  /\ createdAt record' = createdAt record
  /\ reviewedBy record' = reviewedBy record
  /\ submittedAt record' = submittedAt record
  /\ approvedAt record' = approvedAt record
  /\ status record'
     = match EsgController.update_status b with
       | Some s => s
       | None => status record
       end.
Proof.
  unfold EsgController.applyAllowedUpdates.
  destruct (EsgController.update_environmental b),
    (EsgController.update_social b), (EsgController.update_governance b),
    (EsgController.update_status b), (EsgController.update_reviewNotes b);
    cbv zeta; split_all; reflexivity.
Qed.

Lemma preSave_more_fields doc :
  let doc' := ESGRecordModel.preSave doc in
  reportingPeriod doc' = reportingPeriod doc
  /\ submittedBy doc' = submittedBy doc
  /\ createdAt doc' = createdAt doc
  /\ social doc' = social doc
  /\ governance doc' = governance doc.
Proof.
  unfold ESGRecordModel.preSave.
  destruct (environmental doc); cbv zeta; split_all; reflexivity.
Qed.

Lemma updateESGRecord_guarded (req : Request EsgController.UpdateBody)
    record u :
  readFails rt = false ->
  find (ESGRecordModel.hasId (params_id req)) (esgRecords db) = Some record ->
  user req = Some u ->
  EsgController.updateESGRecord rt req db
  = if String.eqb (User.role u) ROLES.AUDITOR then
      (refusal HTTP_STATUS.FORBIDDEN "Auditors cannot modify ESG records", db)
    else if negb (String.eqb (User.role u) ROLES.ADMINISTRATOR)
            && negb (String.eqb (organization record) (User.organization u))
    then (refusal HTTP_STATUS.FORBIDDEN
            ERROR_MESSAGES.INSUFFICIENT_PERMISSIONS, db)
    else if String.eqb (status record) "approved"
            && negb (String.eqb (User.role u) ROLES.ADMINISTRATOR)
    then (refusal HTTP_STATUS.FORBIDDEN "Cannot update approved records", db)
    else
      let record' := EsgController.applyAllowedUpdates (body req) record in
      if negb (ESGRecordModel.validate record') then
        (Normal EsgController.internalError, db)
      else if writeFails rt then (Normal EsgController.internalError, db)
      else
        (Normal (respond HTTP_STATUS.OK
                   (successResponse (RecordData (ESGRecordModel.preSave record'))
                      SUCCESS_MESSAGES.ESG_RECORD_UPDATED)),
         snd (AuditService.logESGRecordUpdated rt (userId req)
                (_id (ESGRecordModel.preSave record'))
                [("status",
                  AuditLog.DString (status (ESGRecordModel.preSave record')))]
                req
                (set_esgRecords
                   (ESGRecordModel.replaceById (ESGRecordModel.preSave record')
                      (esgRecords db)) db))).
Proof.
  intros Hread Hfind Hu.
  unfold EsgController.updateESGRecord, tryCatch.
  unfold bind at 1. rewrite (findById_found rt _ db Hread), Hfind.
  unfold bind at 1. unfold reqUser. rewrite Hu. cbn [ret].
  destruct (String.eqb (User.role u) ROLES.AUDITOR); [reflexivity|].
  destruct (negb _ && negb _); [reflexivity|].
  destruct (String.eqb (status record) "approved" && _); [reflexivity|].
  cbv zeta. unfold bind at 1. unfold ESGRecordModel.save.
  destruct (negb (ESGRecordModel.validate _)); [reflexivity|].
  destruct (writeFails rt); [reflexivity|].
  unfold bind at 1. unfold AuditService.logESGRecordUpdated.
  rewrite createLog_eq.
  destruct (AuditLogModel.validate _ && negb (auditWriteFails rt));
    reflexivity.
Qed.


(** X17.  What an accepted update does.  For a caller who passes the guards
    (not an auditor, an administrator or of the record's organisation, and
    an administrator if the record is approved), the five fields of the body
    are assigned, the document is validated, the carbon total is recomputed,
    and the stored record is replaced: 200.  The identifier, organisation,
    reporting period, author and the three review stamps are never changed.
    A status given in the body is stored as it is, with no check of the
    current status and no reviewer or approval date recorded.  A document
    that fails the schema is answered 500 and nothing is stored. *)
Theorem updateESGRecord_applies_body
    (req : Request EsgController.UpdateBody) (record : ESGRecord)
    (u : User.t) :
  readFails rt = false ->
  find (ESGRecordModel.hasId (params_id req)) (esgRecords db) = Some record ->
  user req = Some u ->
  User.role u <> ROLES.AUDITOR ->
  Accessible u (organization record) ->
  (status record <> "approved" \/ User.role u = ROLES.ADMINISTRATOR) ->
  let updated := EsgController.applyAllowedUpdates (body req) record in
  let record' := ESGRecordModel.preSave updated in
  (ESGRecordModel.validate updated = false ->
   EsgController.updateESGRecord rt req db
   = (Normal EsgController.internalError, db))
  /\ (ESGRecordModel.validate updated = true ->
      writeFails rt = false ->
      fst (EsgController.updateESGRecord rt req db)
      = Normal (respond HTTP_STATUS.OK
                  (successResponse (RecordData record')
                     SUCCESS_MESSAGES.ESG_RECORD_UPDATED))
      /\ esgRecords (snd (EsgController.updateESGRecord rt req db))
         = ESGRecordModel.replaceById record' (esgRecords db)
      /\ find (ESGRecordModel.hasId (params_id req))
           (esgRecords (snd (EsgController.updateESGRecord rt req db)))
         = Some record')
  /\ _id record' = _id record
  /\ organization record' = organization record
  /\ reportingPeriod record' = reportingPeriod record
  /\ submittedBy record' = submittedBy record
  /\ createdAt record' = createdAt record
  /\ reviewedBy record' = reviewedBy record
  /\ submittedAt record' = submittedAt record
  /\ approvedAt record' = approvedAt record
  /\ (forall s, EsgController.update_status (body req) = Some s ->
                status record' = s)
  /\ (EsgController.update_status (body req) = None ->
      status record' = status record)
  /\ CarbonInvariant record'.
Proof.
  intros Hread Hfind Hu Haud Hacc Happ updated record'.
  assert (Hrun := updateESGRecord_guarded req record u Hread Hfind Hu).
  apply String.eqb_neq in Haud. rewrite Haud in Hrun.
  rewrite (accessible_guard u _ Hacc) in Hrun.
  assert (Hg : String.eqb (status record) "approved"
               && negb (String.eqb (User.role u) ROLES.ADMINISTRATOR) = false).
  { destruct Happ as [H|H].
    - apply String.eqb_neq in H. rewrite H. reflexivity.
    - rewrite H, String.eqb_refl. apply andb_false_r. }
  rewrite Hg in Hrun. cbv zeta in Hrun. fold updated in Hrun.
  fold record' in Hrun.
  destruct (applyAllowedUpdates_fields (body req) record)
    as (U1 & U2 & U3 & U4 & U5 & U6 & U7 & U8 & U9).
  fold updated in U1, U2, U3, U4, U5, U6, U7, U8, U9.
  destruct (preSave_fields updated) as (P1 & P2 & P3 & P4 & P5 & P6 & P7).
  destruct (preSave_more_fields updated) as (Q1 & Q2 & Q3 & _).
  fold record' in P1, P2, P3, P4, P5, P6, P7, Q1, Q2, Q3.
  split_all.
  - intros Hv. rewrite Hrun, Hv. reflexivity.
  - intros Hv Hw. rewrite Hrun, Hv, Hw. cbn [negb fst snd].
    unfold AuditService.logESGRecordUpdated. rewrite createLog_esgRecords.
    cbn [set_esgRecords esgRecords].
    split_all; try reflexivity.
    assert (Hid : params_id req = _id record').
    { rewrite P1, U1. symmetry. exact (find_hasId _ _ _ Hfind). }
    rewrite Hid. apply (find_replaceById record' _ record).
    rewrite <- Hid. exact Hfind.
  - congruence.
  - congruence.
  - congruence.
  - congruence.
  - congruence.
  - congruence.
  - congruence.
  - congruence.
  - intros s Hs. rewrite P2, U9, Hs. reflexivity.
  - intros Hs. rewrite P2, U9, Hs. reflexivity.
  - apply preSave_CarbonInvariant.
Qed.

End RecordOperations.


(** * The life of a record: creation, review, deletion *)

Section RecordLifecycle.

Import Spec Props.

Lemma approvedDocument_keeps rt record (req : Request EsgController.ApproveBody) :
  submittedAt (approvedDocument rt record req) = submittedAt record
  /\ organization (approvedDocument rt record req) = organization record
  /\ submittedBy (approvedDocument rt record req) = submittedBy record
  /\ createdAt (approvedDocument rt record req) = createdAt record
  /\ reportingPeriod (approvedDocument rt record req) = reportingPeriod record.
Proof.
  unfold approvedDocument. cbv zeta.
  match goal with
  | |- context [ESGRecordModel.preSave ?d] =>
      destruct (preSave_fields d) as (_ & _ & E3 & E4 & _);
      destruct (preSave_more_fields d) as (F1 & F2 & F3 & _)
  end.
  rewrite E3, E4, F1, F2, F3.
  destruct (JS.truthyStr _); split_all; reflexivity.
Qed.

(** X18.  A valid draft goes through review in two steps and no step can be
    replayed.  Submission by a caller with access, then approval, both
    answer 200; the stored record ends approved, stamped with the instant of
    each step and with the approver.  Submitting again after the submission,
    and submitting or approving again after the approval, are answered 400
    and change nothing. *)
Theorem submit_then_approve
    (rt1 rt2 : Runtime) (db : DB) (record : ESGRecord)
    (reqS : Request unit) (reqA : Request EsgController.ApproveBody)
    (u : User.t) :
  readFails rt1 = false -> writeFails rt1 = false ->
  readFails rt2 = false -> writeFails rt2 = false ->
  find (ESGRecordModel.hasId (_id record)) (esgRecords db) = Some record ->
  ESGRecordModel.validate record = true ->
  status record = "draft" ->
  params_id reqS = _id record -> user reqS = Some u ->
  Accessible u (organization record) ->
  params_id reqA = _id record ->
  maxlengthOk 1000 (EsgController.approve_reviewNotes (body reqA)) = true ->
  let db1 := snd (EsgController.submitESGRecord rt1 reqS db) in
  let db2 := snd (EsgController.approveESGRecord rt2 reqA db1) in
  Succeeded (fst (EsgController.submitESGRecord rt1 reqS db))
  /\ Succeeded (fst (EsgController.approveESGRecord rt2 reqA db1))
  /\ (exists final,
        find (ESGRecordModel.hasId (_id record)) (esgRecords db2) = Some final
        /\ status final = "approved"
        /\ submittedAt final = Some (now rt1)
        /\ approvedAt final = Some (now rt2)
        /\ reviewedBy final = userId reqA
        /\ organization final = organization record
        /\ submittedBy final = submittedBy record)
  /\ EsgController.submitESGRecord rt2 reqS db1
     = (refusal HTTP_STATUS.BAD_REQUEST "Only draft records can be submitted",
        db1)
  /\ EsgController.submitESGRecord rt2 reqS db2
     = (refusal HTTP_STATUS.BAD_REQUEST "Only draft records can be submitted",
        db2)
  /\ EsgController.approveESGRecord rt2 reqA db2
     = (refusal HTTP_STATUS.BAD_REQUEST
          "Only submitted or under review records can be approved", db2).
Proof.
  intros Hr1 Hw1 Hr2 Hw2 Hfind Hval Hdraft HidS Hu Hacc HidA Hnotes db1 db2.
  set (submitted :=
    ESGRecordModel.preSave
      (ESGRecordModel.set_submittedAt (now rt1)
         (ESGRecordModel.set_status "submitted" record))).
  destruct (submitESGRecord_draft rt1 db record Hr1 Hfind reqS u HidS Hu Hacc
              Hval Hw1 Hdraft) as (d1 & Hsub & _ & Hrec1 & _).
  fold submitted in Hsub, Hrec1.
  assert (Edb1 : db1 = d1) by (unfold db1; rewrite Hsub; reflexivity).
  cbn [set_esgRecords esgRecords] in Hrec1.
  destruct (preSave_fields
              (ESGRecordModel.set_submittedAt (now rt1)
                 (ESGRecordModel.set_status "submitted" record)))
    as (S1 & S2 & S3 & S4 & _).
  fold submitted in S1, S2, S3, S4.
  cbn [ESGRecordModel.set_submittedAt ESGRecordModel.set_status _id status
       organization submittedAt] in S1, S2, S3, S4.
  assert (Hfind1 :
    find (ESGRecordModel.hasId (_id submitted)) (esgRecords db1)
    = Some submitted).
  { rewrite Edb1, <- Hrec1. apply (find_replaceById submitted _ record).
    rewrite S1. exact Hfind. }
  assert (Hval1 : ESGRecordModel.validate submitted = true).
  { apply validate_preSave. rewrite validate_submittedAt.
    apply validate_status_change; [exact Hval | reflexivity]. }
  assert (HidA1 : params_id reqA = _id submitted) by congruence.
  assert (HidS1 : params_id reqS = _id submitted) by congruence.
  destruct (approveESGRecord_accepted rt2 db1 submitted Hr2 Hfind1 reqA HidA1
              Hnotes Hval1 Hw2 (or_introl S2)) as (d2 & Happ & _ & Hrec2 & _).
  assert (Edb2 : db2 = d2) by (unfold db2; rewrite Happ; reflexivity).
  cbn [set_esgRecords esgRecords] in Hrec2.
  set (final := approvedDocument rt2 submitted reqA) in *.
  destruct (approvedDocument_fields rt2 submitted reqA)
    as (A1 & A2 & A3 & A4).
  destruct (approvedDocument_keeps rt2 submitted reqA)
    as (K1 & K2 & K3 & _).
  fold final in A1, A2, A3, A4, K1, K2, K3.
  assert (Hfind2 :
    find (ESGRecordModel.hasId (_id final)) (esgRecords db2) = Some final).
  { rewrite Edb2, <- Hrec2. apply (find_replaceById final _ submitted).
    rewrite A1. exact Hfind1. }
  assert (Hacc1 : Accessible u (organization submitted))
    by (rewrite S3; exact Hacc).
  assert (Hacc2 : Accessible u (organization final))
    by (rewrite K2, S3; exact Hacc).
  destruct (preSave_more_fields
              (ESGRecordModel.set_submittedAt (now rt1)
                 (ESGRecordModel.set_status "submitted" record)))
    as (_ & T2 & _).
  fold submitted in T2.
  cbn [ESGRecordModel.set_submittedAt ESGRecordModel.set_status submittedBy]
    in T2.
  split_all.
  - rewrite Hsub. eexists. split; reflexivity.
  - rewrite Happ. eexists. split; reflexivity.
  - exists final. split_all; congruence.
  - apply (submitESGRecord_not_draft rt2 db1 submitted Hr2 Hfind1 reqS u
             HidS1 Hu Hacc1).
    rewrite S2. discriminate.
  - apply (submitESGRecord_not_draft rt2 db2 final Hr2 Hfind2 reqS u).
    + congruence.
    + exact Hu.
    + exact Hacc2.
    + rewrite A2. discriminate.
  - apply (approveESGRecord_refused rt2 db2 final Hr2 Hfind2 reqA).
    + congruence.
    + rewrite A2. discriminate.
    + rewrite A2. discriminate.
Qed.







End RecordLifecycle.


(** * Authentication and the guards of the routes *)

Section Authentication.

Import Spec Props Access.

Lemma prefix_split p : forall s,
  String.prefix p s = true ->
  s = p ++ String.substring (String.length p)
             (String.length s - String.length p) s.
Proof.
  induction p as [|a p IH]; intros s H.
  - cbn [String.append String.length]. rewrite Nat.sub_0_r.
    symmetry. apply substring_full.
  - destruct s as [|b s]; [discriminate H|].
    cbn [String.prefix] in H.
    destruct (ascii_dec a b) as [->|]; [|discriminate H].
    cbn [String.append String.length Nat.sub String.substring].
    f_equal. apply IH. exact H.
Qed.

Context {Body : Type}.
Variable rt : Runtime.
Variable req : Request Body.
Variable db : DB.

Lemma authenticate_eq :
  authenticate rt req db
  = (match authorization req with
     | None =>
         Normal (inr (respond HTTP_STATUS.UNAUTHORIZED
                        (errorResponse ERROR_MESSAGES.TOKEN_MISSING)))
     | Some h =>
         if String.eqb h "" || negb (String.prefix "Bearer " h) then
           Normal (inr (respond HTTP_STATUS.UNAUTHORIZED
                          (errorResponse ERROR_MESSAGES.TOKEN_MISSING)))
         else
           let token := String.substring 7 (String.length h - 7) h in
           if String.eqb token "" then
             Normal (inr (respond HTTP_STATUS.UNAUTHORIZED
                            (errorResponse ERROR_MESSAGES.TOKEN_MISSING)))
           else
             match jwtVerify rt token with
             | None =>
                 Normal (inr (respond HTTP_STATUS.UNAUTHORIZED
                                (errorResponse ERROR_MESSAGES.TOKEN_INVALID)))
             | Some uid =>
                 if readFails rt then
                   Normal (inr (respond HTTP_STATUS.INTERNAL_SERVER_ERROR
                                  (errorResponse
                                     ERROR_MESSAGES.INTERNAL_ERROR)))
                 else
                   match find (UserModel.hasId uid) (users db) with
                   | None =>
                       Normal (inr (respond HTTP_STATUS.UNAUTHORIZED
                                      (errorResponse
                                         ERROR_MESSAGES.USER_NOT_FOUND)))
                   | Some u =>
                       if User.isActive u then Normal (inl (attachUser u req))
                       else
                         Normal (inr (respond HTTP_STATUS.FORBIDDEN
                                        (errorResponse
                                           "Your account has been deactivated")))
                   end
             end
     end, db).
Proof.
  unfold authenticate, tryCatch, send, next, ret.
  destruct (authorization req) as [h|]; [|reflexivity].
  destruct (String.eqb h "" || negb (String.prefix "Bearer " h));
    [reflexivity|].
  cbv zeta.
  destruct (String.eqb (String.substring 7 (String.length h - 7) h) "");
    [reflexivity|].
  destruct (jwtVerify rt _) as [uid|]; [|reflexivity].
  unfold bind, UserModel.findById.
  destruct (readFails rt); [reflexivity|].
  destruct (find _ _) as [u|]; [|reflexivity].
  destruct (User.isActive u); reflexivity.
Qed.

Lemma authenticate_pair :
  authenticate rt req db = (fst (authenticate rt req db), db).
Proof. rewrite authenticate_eq. reflexivity. Qed.

Lemma Presents_token h :
  authorization req = Some h ->
  String.eqb h "" || negb (String.prefix "Bearer " h) = false ->
  h = "Bearer " ++ String.substring 7 (String.length h - 7) h.
Proof.
  intros _ H. apply orb_false_iff in H. destruct H as [_ H].
  apply negb_false_iff in H. exact (prefix_split "Bearer " h H).
Qed.

(** X25.  [authenticate] lets a request through exactly when it carries a
    non-empty bearer token that verifies to a stored, active user, and the
    request it passes on is the one received with that user attached.  In
    every other case it answers itself: 401 without a usable token or for an
    unknown user, 403 for a deactivated one, 500 when the user collection
    does not answer.  It never throws and never writes to the store. *)
Theorem authenticate_outcomes :
  snd (authenticate rt req db) = db
  /\ (exists r, fst (authenticate rt req db) = Normal r)
  /\ (forall req',
        fst (authenticate rt req db) = Normal (inl req') <->
        exists u,
          Presents rt req (User._id u)
          /\ readFails rt = false
          /\ find (UserModel.hasId (User._id u)) (users db) = Some u
          /\ User.isActive u = true
          /\ req' = attachUser u req)
  /\ ((forall uid, ~ Presents rt req uid) ->
      exists m,
        fst (authenticate rt req db)
        = Normal (inr (respond HTTP_STATUS.UNAUTHORIZED (errorResponse m)))).
Proof.
  rewrite authenticate_eq. cbn [fst snd].
  split; [reflexivity|]. split.
  { destruct (authorization req) as [h|]; [|eexists; reflexivity].
    destruct (_ || _); [eexists; reflexivity|]. cbv zeta.
    destruct (String.eqb (String.substring 7 (String.length h - 7) h) ""); [eexists; reflexivity|].
    destruct (jwtVerify rt (String.substring 7 (String.length h - 7) h)); [|eexists; reflexivity].
    destruct (readFails rt); [eexists; reflexivity|].
    destruct (find _ _) as [u|]; [|eexists; reflexivity].
    destruct (User.isActive u); eexists; reflexivity. }
  split.
  - intros req'. split.
    + destruct (authorization req) as [h|] eqn:Eh; [|intros H; discriminate H].
      destruct (String.eqb h "" || _) eqn:Ep; [intros H; discriminate H|]. cbv zeta.
      destruct (String.eqb (String.substring 7 (String.length h - 7) h) "") eqn:Et; [intros H; discriminate H|].
      destruct (jwtVerify rt (String.substring 7 (String.length h - 7) h)) as [uid|] eqn:Ej; [|intros H; discriminate H].
      destruct (readFails rt) eqn:Er; [intros H; discriminate H|].
      destruct (find _ _) as [u|] eqn:Ef; [|intros H; discriminate H].
      destruct (User.isActive u) eqn:Ea; [|intros H; discriminate H].
      intros H. injection H as <-.
      assert (Hid : User._id u = uid).
      { apply find_some in Ef. destruct Ef as [_ Ef].
        unfold UserModel.hasId in Ef. apply String.eqb_eq in Ef. exact Ef. }
      exists u. split_all; try reflexivity.
      * eexists. split_all.
        -- rewrite Eh. f_equal. exact (Presents_token h Eh Ep).
        -- apply String.eqb_neq. exact Et.
        -- rewrite Hid. exact Ej.
      * rewrite Hid. exact Ef.
      * exact Ea.
    + intros (u & (token & Hh & Ht & Hj) & Hr & Hf & Ha & ->).
      rewrite Hh.
      replace (String.eqb ("Bearer " ++ token) "") with false by reflexivity.
      replace (String.prefix "Bearer " ("Bearer " ++ token)) with true
        by (symmetry; apply String.prefix_correct; destruct token;
            reflexivity).
      cbn [orb negb]. cbv zeta. rewrite bearer_token.
      apply String.eqb_neq in Ht. rewrite Ht, Hj, Hr, Hf, Ha. reflexivity.
  - intros Hno.
    destruct (authorization req) as [h|] eqn:Eh; [|eexists; reflexivity].
    destruct (String.eqb h "" || _) eqn:Ep; [eexists; reflexivity|].
    cbv zeta.
    destruct (String.eqb (String.substring 7 (String.length h - 7) h) "") eqn:Et; [eexists; reflexivity|].
    destruct (jwtVerify rt (String.substring 7 (String.length h - 7) h)) as [uid|] eqn:Ej; [|eexists; reflexivity].
    exfalso. apply (Hno uid). eexists. split_all.
    + rewrite Eh. f_equal. exact (Presents_token h Eh Ep).
    + apply String.eqb_neq. exact Et.
    + exact Ej.
Qed.

Lemma optionalAuth_eq :
  OptionalAuth.optionalAuth rt req db
  = (Normal
       (inl match fst (authenticate rt req db) with
            | Normal (inl req') => req'
            | _ => req
            end), db).
Proof.
  rewrite authenticate_eq. cbn [fst].
  unfold OptionalAuth.optionalAuth, OptionalAuth.verify, tryCatch, bind,
    next, ret, throw.
  destruct (authorization req) as [h|]; [|reflexivity].
  destruct (String.eqb h ""); [reflexivity|]. cbn [negb orb andb].
  destruct (String.prefix "Bearer " h); [|reflexivity]. cbn [negb].
  cbv zeta.
  destruct (String.eqb _ ""); [reflexivity|].
  destruct (jwtVerify rt _); [|reflexivity].
  unfold UserModel.findById.
  destruct (readFails rt); [reflexivity|].
  destruct (find _ _) as [u|]; [|reflexivity].
  destruct (User.isActive u); reflexivity.
Qed.

(** X26.  [optionalAuth] never answers in place of the handler and never
    writes: it always passes a request on.  It attaches a user exactly when
    [authenticate] would have let the request through, and then passes on
    the very request [authenticate] would; in every case where
    [authenticate] answers 401, 403 or 500 it passes the request on as it
    came. *)
Theorem optionalAuth_agrees_with_authenticate :
  exists req',
    OptionalAuth.optionalAuth rt req db = (Normal (inl req'), db)
    /\ (forall r, fst (authenticate rt req db) = Normal (inl r) -> req' = r)
    /\ (forall resp,
          fst (authenticate rt req db) = Normal (inr resp) -> req' = req).
Proof.
  rewrite optionalAuth_eq. eexists. split; [reflexivity|].
  split; intros r Hr; rewrite Hr; reflexivity.
Qed.

End Authentication.

Section RouteGuards.

Import Spec Props Access.

Lemma checkRole_eq {Body} allowed rt (req : Request Body) db :
  checkRole allowed rt req db
  = match user req with
    | None =>
        (Normal (inr (respond HTTP_STATUS.UNAUTHORIZED
                        (errorResponse ERROR_MESSAGES.UNAUTHORIZED))), db)
    | Some u =>
        if inEnum (User.role u) allowed then (Normal (inl req), db)
        else
          (Normal (inr (respond HTTP_STATUS.FORBIDDEN
                          (errorResponse
                             ERROR_MESSAGES.INSUFFICIENT_PERMISSIONS))),
           if auditWriteFails rt then db
           else set_auditLogs (auditLogs db ++ [deniedEntry rt req u]) db)
    end.
Proof.
  unfold checkRole, tryCatch, send, next, ret.
  destruct (user req) as [u|]; [|reflexivity].
  cbv zeta. destruct (inEnum (User.role u) allowed); [reflexivity|].
  cbn [negb]. unfold bind, AuditService.logUnauthorizedAccess.
  rewrite createLog_eq. fold (deniedEntry rt req u).
  replace (AuditLogModel.validate (deniedEntry rt req u)) with true
    by reflexivity.
  cbn [andb]. destruct (auditWriteFails rt); reflexivity.
Qed.

(** X27.  The three outcomes of [checkRole].  Without a user on the request it
    answers 401; a user whose role is listed goes through with the request
    and the store untouched; a user whose role is not listed is answered 403
    after the attempt has been written to the audit trail (action
    UNAUTHORIZED_ACCESS_ATTEMPT, the user as actor, marked as failed), the
    data of the store staying as they are.  A failing audit collection does
    not change the answer. *)
Theorem checkRole_outcomes {Body} (allowed : list string) (rt : Runtime)
    (req : Request Body) (db : DB) :
  (user req = None ->
   checkRole allowed rt req db
   = (Normal (inr (respond HTTP_STATUS.UNAUTHORIZED
                     (errorResponse ERROR_MESSAGES.UNAUTHORIZED))), db))
  /\ (forall u, user req = Some u -> In (User.role u) allowed ->
        checkRole allowed rt req db = (Normal (inl req), db))
  /\ (forall u, user req = Some u -> ~ In (User.role u) allowed ->
        fst (checkRole allowed rt req db)
        = Normal (inr (respond HTTP_STATUS.FORBIDDEN
                         (errorResponse
                            ERROR_MESSAGES.INSUFFICIENT_PERMISSIONS)))
        /\ SameData db (snd (checkRole allowed rt req db))
        /\ auditLogs (snd (checkRole allowed rt req db))
           = (if auditWriteFails rt then auditLogs db
              else (auditLogs db ++ [deniedEntry rt req u])%list)
        /\ AuditLog.action (deniedEntry rt req u)
           = "UNAUTHORIZED_ACCESS_ATTEMPT"
        /\ AuditLog.performedBy (deniedEntry rt req u) = Some (User._id u)
        /\ AuditLog.success (deniedEntry rt req u) = false).
Proof.
  rewrite checkRole_eq. split_all.
  - intros ->. reflexivity.
  - intros u -> Hin. apply inEnum_In in Hin. rewrite Hin. reflexivity.
  - intros u -> Hin.
    assert (Hf : inEnum (User.role u) allowed = false).
    { destruct (inEnum (User.role u) allowed) eqn:E; [|reflexivity].
      exfalso. apply Hin. unfold inEnum in E. apply existsb_exists in E.
      destruct E as (x & Hx & E). apply String.eqb_eq in E. subst x.
      exact Hx. }
    rewrite Hf. cbn [fst snd].
    split_all; try reflexivity;
      destruct (auditWriteFails rt); try reflexivity;
      unfold SameData; split_all; reflexivity.
Qed.

Context {Body : Type}.
Variable allowed : list string.
Variable controller : Runtime -> Request Body -> Async Response.
Variable rt : Runtime.
Variable req : Request Body.
Variable db : DB.




Lemma route_reaches_controller u :
  fst (authenticate rt req db) = Normal (inl (attachUser u req)) ->
  inEnum (User.role u) allowed = true ->
  isObjectId (params_id req) = true ->
  route [authenticate; checkRole allowed; validateObjectId] controller
    rt req db
  = controller rt (attachUser u req) db.
Proof.
  intros Hauth Hrole Hid. cbn [route]. unfold bind at 1.
  rewrite authenticate_pair, Hauth.
  unfold bind at 1. rewrite checkRole_eq.
  cbn [attachUser user]. rewrite Hrole.
  unfold bind at 1. unfold validateObjectId. cbn [attachUser params_id].
  rewrite Hid. reflexivity.
Qed.

End RouteGuards.

Section RouteClaims.

Import Spec Props Access.

Variable rt : Runtime.
Variable db : DB.



End RouteClaims.


(** * The request schemas and what they leave to the controllers *)

Section RequestSchemas.

Import Spec Props.

















End RequestSchemas.


(** * Report requests: the schema, the query and the status *)

Section ReportRequests.

Import Spec Props.

Lemma reportWindow_total rt b :
  (exists m, ReportController.reportWindow rt b = Throw m)
  <-> ~ ValidPeriodSpec b.
Proof.
  rewrite <- (reportWindow_returns rt b).
  destruct (ReportController.reportWindow rt b) as [w|m].
  - split; [intros [m H]; discriminate|].
    intros H. exfalso. apply H. exists w. reflexivity.
  - split; [intros _ [w H]; discriminate|].
    intros _. exists m. reflexivity.
Qed.

Lemma between_range lo hi v n :
  Schemas.between lo hi v = true -> v = Some n -> (lo <= n <= hi)%Z.
Proof.
  intros H ->. cbn [Schemas.between] in H.
  apply andb_true_iff in H. destruct H as [H1 H2].
  apply Z.leb_le in H1, H2. lia.
Qed.

Lemma getRecordsForPeriod_inverted rt org s e db :
  readFails rt = false -> (e < s)%Z ->
  getRecordsForPeriod rt org s e db = (Normal [], db).
Proof.
  intros Hread Hlt. rewrite getRecordsForPeriod_eq, Hread.
  f_equal. f_equal.
  induction (esgRecords db) as [|r rs IH]; [reflexivity|].
  cbn [filter]. rewrite IH.
  destruct (s <=? createdAt r)%Z eqn:E1; [|rewrite andb_false_r; reflexivity].
  destruct (createdAt r <=? e)%Z eqn:E2; [|rewrite andb_false_r; reflexivity].
  apply Z.leb_le in E1, E2. lia.
Qed.

(** X11.  What [schemas.reportGenerate] leaves to the controller.  The body is
    passed on as it is.  A body the schema accepts can still have a period
    that cannot be resolved, in exactly three ways: type custom with one of
    the two dates missing, type quarterly without a quarter, type monthly
    without a month; each is answered 500 by [generateReport].  The schema
    does not compare the two dates of a custom period either: with the end
    before the start no record can match and the answer is 400. *)
Theorem validated_report_request
    (rt : Runtime) (req : Request ReportController.GenerateBody) (db : DB)
    (value : ReportController.GenerateBody) :
  Schemas.reportGenerate (body req) = Some value ->
  value = body req
  /\ ((exists m, ReportController.reportWindow rt value = Throw m)
      <-> (ReportController.reportType value = "custom"
           /\ (ReportController.startDate value = None
               \/ ReportController.endDate value = None))
          \/ (ReportController.reportType value = "quarterly"
              /\ ReportController.quarter value = None)
          \/ (ReportController.reportType value = "monthly"
              /\ ReportController.month value = None))
  /\ ((exists m, ReportController.reportWindow rt value = Throw m) ->
      exists m,
        ReportController.generateReport rt req db
        = (refusal HTTP_STATUS.INTERNAL_SERVER_ERROR m, db))
  /\ (forall s e,
        readFails rt = false ->
        ReportController.reportType value = "custom" ->
        ReportController.startDate value = Some s ->
        ReportController.endDate value = Some e ->
        (e < s)%Z ->
        ReportController.generateReport rt req db
        = (refusal HTTP_STATUS.BAD_REQUEST
             "No approved ESG records found for this period", db)).
Proof.
  intros Hschema. unfold Schemas.reportGenerate in Hschema.
  destruct (negb _ && _ && _ && _ && _ && _ && _ && _) eqn:Hok in Hschema;
    [|discriminate].
  injection Hschema as <-.
  rewrite !andb_true_iff in Hok.
  destruct Hok as [[[[[[[_ _] _] Htype] _] _] Hq] Hm].
  split; [reflexivity|]. split; [|split].
  - rewrite (reportWindow_total rt (body req)). unfold ValidPeriodSpec.
    unfold inEnum in Htype. cbn [existsb] in Htype.
    rewrite !orb_true_iff in Htype.
    destruct Htype as [E|[E|[E|[E|E]]]]; try discriminate E;
      apply String.eqb_eq in E; rewrite E.
    + split.
      * intros H. exfalso. apply H. right. left. reflexivity.
      * intros [[H _]|[[H _]|[H _]]]; discriminate H.
    + split.
      * intros H. right. left. split; [reflexivity|].
        destruct (ReportController.quarter (body req)) as [q|] eqn:Eq;
          [|reflexivity].
        exfalso. apply H. right. right. left. split; [reflexivity|].
        exists q. split; [reflexivity|].
        exact (between_range _ _ _ _ Hq eq_refl).
      * intros [[H _]|[[_ H]|[H _]]]; try discriminate H.
        intros [[Hc _]|[Hc|[[_ (q & Hc & _)]|[Hc _]]]];
          try discriminate Hc.
        rewrite H in Hc. discriminate Hc.
    + split.
      * intros H. right. right. split; [reflexivity|].
        destruct (ReportController.month (body req)) as [m|] eqn:Em;
          [|reflexivity].
        exfalso. apply H. right. right. right. split; [reflexivity|].
        exists m. split; [reflexivity|].
        exact (between_range _ _ _ _ Hm eq_refl).
      * intros [[H _]|[[H _]|[_ H]]]; try discriminate H.
        intros [[Hc _]|[Hc|[[Hc _]|[_ (m & Hc & _)]]]];
          try discriminate Hc.
        rewrite H in Hc. discriminate Hc.
    + split.
      * intros H. left. split; [reflexivity|].
        destruct (ReportController.startDate (body req)) as [s|];
          [|left; reflexivity].
        destruct (ReportController.endDate (body req)) as [e|];
          [|right; reflexivity].
        exfalso. apply H. left. split_all; discriminate || reflexivity.
      * intros [[_ H]|[[H _]|[H _]]]; try discriminate H.
        intros [(_ & H1 & H2)|[Hc|[[Hc _]|[Hc _]]]]; try discriminate Hc.
        destruct H as [H|H]; contradiction.
  - intros [m Hm']. exists m.
    assert (Hmsg := Hm').
    unfold ReportController.reportWindow in Hmsg.
    assert (Hne : String.eqb m "" = false).
    { destruct (String.eqb _ "custom"),
        (ReportController.startDate (body req)),
        (ReportController.endDate (body req));
        try discriminate Hmsg;
        apply getDateRange_message in Hmsg;
        destruct Hmsg as [-> | [-> | ->]]; reflexivity. }
    unfold ReportController.generateReport, tryCatch, bind, liftCompletion.
    rewrite Hm'. unfold ret, refusal. rewrite Hne. reflexivity.
  - intros s e Hread Hc Hs He Hlt.
    unfold ReportController.generateReport, tryCatch.
    unfold bind at 1. unfold liftCompletion.
    unfold ReportController.reportWindow. rewrite Hc, Hs, He.
    cbn [String.eqb Ascii.eqb Bool.eqb].
    unfold bind at 1.
    rewrite (getRecordsForPeriod_inverted rt _ s e db Hread Hlt).
    reflexivity.
Qed.

(** The query behind a report returns exactly the approved records of the
    organisation created inside the window, bounds included, in store
    order, and leaves the store as it is; when the collection does not
    answer, the error is thrown again to the caller. *)
Lemma getRecordsForPeriod_exact
    (rt : Runtime) (org : string) (s e : Z) (db : DB) :
  snd (getRecordsForPeriod rt org s e db) = db
  /\ match fst (getRecordsForPeriod rt org s e db) with
     | Normal records =>
         readFails rt = false
         /\ (forall r, In r records <->
                       In r (esgRecords db) /\ Eligible org s e r)
         /\ (exists keep, records = filter keep (esgRecords db))
         /\ (List.length records <= List.length (esgRecords db))%nat
     | Throw _ => readFails rt = true
     end.
Proof.
  rewrite getRecordsForPeriod_eq.
  destruct (readFails rt); cbn [fst snd]; [split; reflexivity|].
  split; [reflexivity|]. split_all.
  - reflexivity.
  - intros r. rewrite filter_In. unfold Eligible.
    rewrite !andb_true_iff, !String.eqb_eq, !Z.leb_le. tauto.
  - eexists. reflexivity.
  - apply filter_length_le.
Qed.






End ReportRequests.


(** * One audit entry for each accepted change *)

Section AuditedOperations.

Import Spec Props Access.

Lemma Silent_ret {A} (a : A) : Silent (ret a).
Proof. intros db. reflexivity. Qed.

Lemma Silent_throw {A} m : Silent (@throw A m).
Proof. intros db. reflexivity. Qed.

Lemma Silent_primitive :
  (forall rt id, Silent (ESGRecordModel.findById rt id))
  /\ (forall rt doc, Silent (ESGRecordModel.save rt doc))
  /\ (forall rt d, Silent (ESGRecordModel.create rt d))
  /\ (forall rt id, Silent (ESGRecordModel.findByIdAndDelete rt id))
  /\ (forall rt id, Silent (ReportModel.findById rt id))
  /\ (forall rt doc, Silent (ReportModel.save rt doc))
  /\ (forall rt d, Silent (ReportModel.create rt d))
  /\ (forall rt id, Silent (ReportModel.findByIdAndDelete rt id))
  /\ (forall rt org s e, Silent (getRecordsForPeriod rt org s e))
  /\ (forall Body (req : Request Body), Silent (reqUser req))
  /\ (forall A (c : Completion A), Silent (liftCompletion c)).
Proof.
  split_all; intros; intros db;
    unfold ESGRecordModel.findById, ESGRecordModel.save, ESGRecordModel.create,
      ESGRecordModel.findByIdAndDelete, ReportModel.findById,
      ReportModel.save, ReportModel.create, ReportModel.findByIdAndDelete,
      getRecordsForPeriod, ESGRecordModel.findApproved, reqUser,
      liftCompletion, tryCatch, throw, ret;
    repeat match goal with
           | |- context [if ?c then _ else _] => destruct c
           | |- context [match find ?f ?l with _ => _ end] =>
               destruct (find f l)
           | |- context [match user ?r with _ => _ end] => destruct (user r)
           end;
    reflexivity.
Qed.

Variable action : option string.
Variable actor : option string.
Variable rt : Runtime.

Lemma AuditedOnce_silent c : Silent c -> AuditedOnce action actor (now rt) c.
Proof. intros H db. left. apply H. Qed.

Lemma AuditedOnce_bind {A} (c : Async A) k :
  Silent c -> (forall a, AuditedOnce action actor (now rt) (k a)) ->
  AuditedOnce action actor (now rt) (bind c k).
Proof.
  intros Hc Hk db. unfold bind. specialize (Hc db).
  destruct (c db) as [[a|m] db1]; cbn [snd] in *.
  - destruct (Hk a db1) as [H|(e & r & H1 & H2)].
    + left. rewrite H. exact Hc.
    + right. exists e, r. rewrite H1, Hc. split; [reflexivity | exact H2].
  - left. exact Hc.
Qed.

Lemma AuditedOnce_tryCatch c h :
  AuditedOnce action actor (now rt) c -> (forall m, Silent (h m)) ->
  AuditedOnce action actor (now rt) (tryCatch c h).
Proof.
  intros Hc Hh db. unfold tryCatch. specialize (Hc db).
  destruct (c db) as [[a|m] db1]; cbn [fst snd] in *.
  - exact Hc.
  - destruct Hc as [H|(e & r & _ & H & _)]; [|discriminate H].
    left. rewrite (Hh m db1). exact H.
Qed.

Lemma AuditedOnce_log {Body} (req : Request Body) name resourceType
    resourceId details r :
  action = Some name -> actor = userId req -> Accepted r ->
  AuditedOnce action actor (now rt)
    (bind
       (AuditService.createLog rt
          (AuditService.entry rt req name (userId req) resourceType
             resourceId details true))
       (fun _ => ret r)).
Proof.
  intros Ha Hc Hr db. unfold bind. rewrite createLog_eq.
  destruct (AuditLogModel.validate _ && negb (auditWriteFails rt)) eqn:E;
    cbn [fst snd ret].
  - right. eexists _, r. split_all; try reflexivity; try assumption.
    + symmetry. exact Ha.
    + symmetry. exact Hc.
    + rewrite Hc. apply andb_true_iff in E. destruct E as [E _].
      unfold AuditLogModel.validate in E. rewrite !andb_true_iff in E.
      destruct E as [[_ E] _]. cbn [AuditService.entry AuditLog.performedBy]
        in E.
      destruct (userId req); [discriminate | discriminate E].
  - left. reflexivity.
Qed.

End AuditedOperations.

Ltac audited_step :=
  match goal with
  | |- Access.AuditedOnce _ _ _ (tryCatch _ _) =>
      apply AuditedOnce_tryCatch; [|intro; apply Silent_ret]
  | |- Access.AuditedOnce _ _ _
         (bind (AuditService.createLog _ _) (fun _ => ret _)) =>
      apply AuditedOnce_log;
      [reflexivity | reflexivity
       | first [left; reflexivity | right; reflexivity]]
  | |- Access.AuditedOnce _ _ _ (bind _ _) =>
      apply AuditedOnce_bind; [apply Silent_primitive | intro]
  | |- Access.AuditedOnce _ _ _ (ret _) =>
      apply AuditedOnce_silent, Silent_ret
  | |- Access.AuditedOnce _ _ _ (match ?x with _ => _ end) => destruct x
  | |- Access.AuditedOnce _ _ _ (let _ := _ in _) => cbv zeta
  end.

Section AuditedClaims.

Import Spec Props Access.

Lemma handle_AuditedOnce rt op :
  AuditedOnce (auditAction op) (caller op) (now rt) (handle rt op).
Proof.
  destruct op; cbn [handle auditAction caller];
    unfold EsgController.createESGRecord, EsgController.updateESGRecord,
      EsgController.submitESGRecord, EsgController.approveESGRecord,
      EsgController.deleteESGRecord, ReportController.generateReport,
      ReportController.updateReportStatus, ReportController.deleteReport,
      AuditService.logESGRecordCreated, AuditService.logESGRecordUpdated,
      AuditService.logESGRecordSubmitted, AuditService.logESGRecordApproved,
      AuditService.logReportGenerated;
    repeat audited_step.
Qed.

(** X23.  An operation writes at most one audit entry, and only when it is
    accepted.  Either the audit trail is left as it is, or the answer is a
    200 or 201 and exactly one entry has been appended: marked successful,
    carrying the action of the operation, the caller as actor, and the
    instant of the request.  Deletions of records and reports and changes of
    a report status (publication included) never write an entry, and no
    entry is ever written for a request without a caller. *)
Theorem one_audit_entry_per_accepted_operation
    (rt : Runtime) (op : Operation) (db : DB) :
  (auditLogs (step rt op db) = auditLogs db
   \/ exists e r,
        auditLogs (step rt op db) = (auditLogs db ++ [e])%list
        /\ fst (handle rt op db) = Normal r /\ Accepted r
        /\ Some (AuditLog.action e) = auditAction op
        /\ AuditLog.performedBy e = caller op
        /\ caller op <> None
        /\ AuditLog.success e = true
        /\ AuditLog.timestamp e = now rt)
  /\ (auditAction op = None \/ caller op = None ->
      auditLogs (step rt op db) = auditLogs db).
Proof.
  pose proof (handle_AuditedOnce rt op db) as H. unfold step.
  split; [exact H|].
  intros Hnone. destruct H as [H|(e & r & _ & _ & _ & Ha & _ & Hc & _)];
    [exact H|].
  destruct Hnone as [Hn|Hn]; [|contradiction].
  rewrite Hn in Ha. discriminate Ha.
Qed.

End AuditedClaims.

(** * Pagination *)

Section PaginationMeta.

Import Pagination.

(** X30.  For a positive page size and a count that is not negative,
    [getPaginationMeta] reports the least number of pages that hold all the
    items, a next page exactly when items remain after the current page, and
    a previous page exactly when the page is not the first.  With a page
    size of zero the number of pages is not a finite number. *)
Theorem getPaginationMeta_counts (total page limit : Z) :
  (0 <= total)%Z -> (1 <= limit)%Z ->
  let meta := getPaginationMeta total page limit in
  (exists n,
      totalPages meta = Finite n
      /\ ((n - 1) * limit < total <= n * limit)%Z
      /\ (forall k, (total <= k * limit)%Z -> (n <= k)%Z))
  /\ (hasNextPage meta = true <-> (page * limit < total)%Z)
  /\ (hasPrevPage meta = true <-> (1 < page)%Z)
  /\ (forall n, totalPages (getPaginationMeta total page 0) <> Finite n).
Proof.
  intros Ht Hl meta.
  assert (Hne : (limit =? 0)%Z = false) by (apply Z.eqb_neq; lia).
  set (n := (- ((- total) / limit))%Z).
  assert (Hn : ((n - 1) * limit < total <= n * limit)%Z).
  { pose proof (Z.div_mod (- total) limit ltac:(lia)) as Hdm.
    pose proof (Z.mod_pos_bound (- total) limit ltac:(lia)) as Hb.
    unfold n. nia. }
  assert (Hmeta : totalPages meta = Finite n).
  { unfold meta, getPaginationMeta, ceilOfQuotient. cbn [totalPages].
    rewrite Hne. reflexivity. }
  split_all.
  - exists n. split_all; [exact Hmeta | lia | lia |].
    intros k Hk. nia.
  - unfold meta, getPaginationMeta, ceilOfQuotient. cbn [hasNextPage].
    rewrite Hne. cbn [lessThan]. fold n. rewrite Z.ltb_lt. nia.
  - unfold meta, getPaginationMeta. cbn [hasPrevPage]. apply Z.ltb_lt.
  - intros k. unfold getPaginationMeta, ceilOfQuotient. cbn [totalPages].
    cbn [Z.eqb]. destruct (total =? 0)%Z; [discriminate|].
    destruct (0 <? total)%Z; discriminate.
Qed.

End PaginationMeta.

(** * The entries of logins and logouts *)

Section LoginEntries.

Import Spec Props.

(** X24.  An audit entry needs an actor.  [createLog] drops every entry whose
    actor is missing: it returns null and stores nothing.  So the entry of a
    failed login for an unknown e-mail, which [logLogin] is given no user
    for, is never stored, and neither is a logout without a user.  For a
    known user the login entry is stored whenever the audit collection
    accepts it, with the outcome and the error message it was given. *)
Theorem login_entries_need_a_user {Body} (rt : Runtime) (req : Request Body)
    (success : bool) (errorMessage : option string) (db : DB) :
  (forall entry,
      AuditLog.performedBy entry = None ->
      AuditService.createLog rt entry db = (Normal None, db))
  /\ AuditServiceLogins.logLogin rt None req success errorMessage db
     = (Normal None, db)
  /\ AuditServiceLogins.logLogout rt None req db = (Normal None, db)
  /\ (forall uid,
        auditWriteFails rt = false ->
        exists e,
          AuditServiceLogins.logLogin rt (Some uid) req success errorMessage db
          = (Normal (Some e), set_auditLogs (auditLogs db ++ [e]) db)
          /\ AuditLog.action e = "USER_LOGIN"
          /\ AuditLog.performedBy e = Some uid
          /\ AuditLog.resourceId e = Some uid
          /\ AuditLog.success e = success
          /\ AuditLog.errorMessage e = errorMessage
          /\ AuditLog.timestamp e = now rt).
Proof.
  assert (Hdrop : forall entry,
            AuditLog.performedBy entry = None ->
            AuditService.createLog rt entry db = (Normal None, db)).
  { intros entry H. rewrite createLog_eq. unfold AuditLogModel.validate.
    rewrite H. cbn [required]. rewrite andb_false_r. reflexivity. }
  split_all.
  - exact Hdrop.
  - apply Hdrop. reflexivity.
  - apply Hdrop. reflexivity.
  - intros uid Hw. unfold AuditServiceLogins.logLogin.
    rewrite createLog_eq, Hw. eexists. split; [reflexivity|].
    split_all; reflexivity.
Qed.

End LoginEntries.


(** * The theorems at concrete requests *)

Section Instances.

Import Spec Props Access.

Lemma generateReport_unresolved_period_witness :
  let req :=
    Scenario.request "" (Scenario.generateBody "weekly" None)
      (Some Scenario.admin) None in
  ReportController.reportWindow Scenario.runtime (body req)
  = Throw "Invalid report type"
  /\ ReportController.generateReport Scenario.runtime req Scenario.db
     = (refusal HTTP_STATUS.INTERNAL_SERVER_ERROR "Invalid report type",
        Scenario.db).
Proof.
  intros req. split; [reflexivity|].
  exact (proj1
           (proj2
              (generateReport_unresolved_period Scenario.runtime req
                 Scenario.db)
              "Invalid report type" eq_refl)).
Defined.



Lemma updateESGRecord_applies_body_witness :
  let req :=
    Scenario.request Fixtures.id1 (Actors.statusOnly "approved")
      (Some Actors.acmeAnalyst) None in
  exists record',
    find (ESGRecordModel.hasId Fixtures.id1)
      (esgRecords
         (snd (EsgController.updateESGRecord Actors.runtime req Actors.db)))
    = Some record'
    /\ status record' = "approved"
    /\ reviewedBy record' = None
    /\ approvedAt record' = None.
Proof.
  intros req.
  assert (Hrole : User.role Actors.acmeAnalyst <> ROLES.AUDITOR)
    by discriminate.
  assert (Hst : status (Scenario.stored Fixtures.id1 "draft") <> "approved"
                \/ User.role Actors.acmeAnalyst = ROLES.ADMINISTRATOR)
    by (left; discriminate).
  destruct (updateESGRecord_applies_body Actors.runtime Actors.db req
              (Scenario.stored Fixtures.id1 "draft") Actors.acmeAnalyst
              eq_refl eq_refl eq_refl Hrole (or_intror eq_refl) Hst)
    as (_ & Hok & _ & _ & _ & _ & _ & H6 & _ & H8 & H9 & _).
  destruct (Hok eq_refl eq_refl) as (_ & _ & Hfind).
  eexists. split; [exact Hfind|].
  split; [exact (H9 "approved" eq_refl)|].
  split; [exact H6 | exact H8].
Defined.

Lemma submit_then_approve_witness :
  let reqS :=
    Scenario.request Fixtures.id1 tt (Some Actors.acmeAnalyst) None in
  let reqA :=
    Scenario.request Fixtures.id1 Actors.noNotes (Some Actors.auditor) None in
  let db1 :=
    snd (EsgController.submitESGRecord Actors.runtime reqS Actors.db) in
  Succeeded (fst (EsgController.submitESGRecord Actors.runtime reqS Actors.db))
  /\ Succeeded (fst (EsgController.approveESGRecord Actors.runtime reqA db1))
  /\ EsgController.submitESGRecord Actors.runtime reqS db1
     = (refusal HTTP_STATUS.BAD_REQUEST "Only draft records can be submitted",
        db1).
Proof.
  intros reqS reqA db1.
  destruct (submit_then_approve Actors.runtime Actors.runtime Actors.db
              (Scenario.stored Fixtures.id1 "draft") reqS reqA
              Actors.acmeAnalyst eq_refl eq_refl eq_refl eq_refl eq_refl
              eq_refl eq_refl eq_refl eq_refl (or_intror eq_refl) eq_refl
              eq_refl)
    as (H1 & H2 & _ & H4 & _).
  split; [exact H1|]. split; [exact H2 | exact H4].
Defined.



Lemma authenticate_outcomes_witness :
  let req :=
    Scenario.request Fixtures.id1 tt None (Some "Bearer token-of-admin") in
  fst (authenticate Scenario.runtime req Scenario.db)
  = Normal (inl (attachUser Scenario.admin req)).
Proof.
  intros req.
  destruct (authenticate_outcomes Scenario.runtime req Scenario.db)
    as (_ & _ & Hiff & _).
  apply (proj2 (Hiff (attachUser Scenario.admin req))).
  exists Scenario.admin. split.
  - exists "token-of-admin". split; [reflexivity|].
    split; [discriminate | reflexivity].
  - split; [reflexivity|]. split; [reflexivity|].
    split; reflexivity.
Defined.

Lemma optionalAuth_agrees_with_authenticate_witness :
  let req := Scenario.request Fixtures.id1 tt None None in
  OptionalAuth.optionalAuth Scenario.runtime req Scenario.db
  = (Normal (inl req), Scenario.db).
Proof.
  intros req.
  destruct (optionalAuth_agrees_with_authenticate Scenario.runtime req
              Scenario.db) as (req' & Hrun & _ & Hsame).
  rewrite Hrun.
  rewrite (Hsame
             (respond HTTP_STATUS.UNAUTHORIZED
                (errorResponse ERROR_MESSAGES.TOKEN_MISSING)) eq_refl).
  reflexivity.
Defined.

Lemma checkRole_outcomes_witness :
  let req := Scenario.request Fixtures.id1 tt (Some Actors.auditor) None in
  fst (checkRole [ROLES.ADMINISTRATOR] Actors.runtime req Actors.db)
  = Normal (inr (respond HTTP_STATUS.FORBIDDEN
                   (errorResponse ERROR_MESSAGES.INSUFFICIENT_PERMISSIONS)))
  /\ auditLogs
       (snd (checkRole [ROLES.ADMINISTRATOR] Actors.runtime req Actors.db))
     = [deniedEntry Actors.runtime req Actors.auditor].
Proof.
  intros req.
  assert (Hnot : ~ In (User.role Actors.auditor) [ROLES.ADMINISTRATOR]).
  { intros [H|[]]. discriminate H. }
  destruct (checkRole_outcomes [ROLES.ADMINISTRATOR] Actors.runtime req
              Actors.db) as (_ & _ & Hdenied).
  destruct (Hdenied Actors.auditor eq_refl Hnot) as (H1 & _ & H3 & _).
  split; [exact H1 | exact H3].
Defined.




Lemma validated_report_request_witness :
  let b :=
    {| ReportController.reportTitle := "Report";
       ReportController.organization := "Acme";
       ReportController.reportType := "custom";
       ReportController.year := 2024;
       ReportController.quarter := None;
       ReportController.month := None;
       ReportController.startDate := Some (Scenario.calendar 2024 0 1 0 0 0);
       ReportController.endDate := None |} in
  let req := Scenario.request "" b (Some Scenario.admin) None in
  Schemas.reportGenerate b = Some b
  /\ exists m,
       ReportController.generateReport Scenario.runtime req Scenario.db
       = (refusal HTTP_STATUS.INTERNAL_SERVER_ERROR m, Scenario.db).
Proof.
  intros b req.
  destruct (validated_report_request Scenario.runtime req Scenario.db b
              eq_refl) as (_ & Hiff & Hfails & _).
  split; [reflexivity|].
  apply Hfails. apply (proj2 Hiff).
  left. split; [reflexivity | right; reflexivity].
Defined.



Lemma one_audit_entry_per_accepted_operation_witness :
  let op :=
    DeleteESGRecord
      (Scenario.request Fixtures.id3 tt (Some Scenario.admin) None) in
  auditLogs (step Scenario.runtime op Scenario.db) = auditLogs Scenario.db.
Proof.
  intros op.
  exact (proj2
           (one_audit_entry_per_accepted_operation Scenario.runtime op
              Scenario.db)
           (or_introl eq_refl)).
Defined.

Lemma login_entries_need_a_user_witness :
  let req := Scenario.request "" tt None None in
  AuditServiceLogins.logLogin Scenario.runtime None req false
    (Some "Invalid credentials") Scenario.db
  = (Normal None, Scenario.db)
  /\ exists e,
       AuditServiceLogins.logLogin Scenario.runtime
         (Some (User._id Scenario.admin)) req false (Some "Invalid password")
         Scenario.db
       = (Normal (Some e), set_auditLogs [e] Scenario.db)
       /\ AuditLog.success e = false.
Proof.
  intros req. split.
  - exact (proj1
             (proj2
                (login_entries_need_a_user Scenario.runtime req false
                   (Some "Invalid credentials") Scenario.db))).
  - destruct (login_entries_need_a_user Scenario.runtime req false
                (Some "Invalid password") Scenario.db)
      as (_ & _ & _ & Hknown).
    destruct (Hknown (User._id Scenario.admin) eq_refl)
      as (e & Hrun & _ & _ & _ & Hs & _).
    exists e. split; [exact Hrun | exact Hs].
Defined.

Lemma getPaginationMeta_counts_witness :
  Pagination.totalPages (Pagination.getPaginationMeta 25 2 10)
  = Pagination.Finite 3
  /\ (Pagination.hasNextPage (Pagination.getPaginationMeta 25 2 10) = true
      <-> (2 * 10 < 25)%Z).
Proof.
  split; [reflexivity|].
  assert (H0 : (0 <= 25)%Z) by lia.
  assert (H1 : (1 <= 10)%Z) by lia.
  exact (proj1 (proj2 (getPaginationMeta_counts 25 2 10 H0 H1))).
Defined.

End Instances.
